(** * CellProfiler JVM utilities ([cellprofiler_core/utilities/java.py])

    A shallow embedding of [get_jars], [find_logback_xml], [start_java]
    and [stop_java], and the properties of the classpath assembler and
    of the runtime lifecycle controller.

    Python strings are modelled as [string] (sequences of 8-bit
    characters), the process environment as a [gmap string string],
    and every interaction with the outside world (the javabridge
    package, [os.environ], the file system, the preference store, the
    logger) as an event appended to a chronological trace. *)

From Stdlib Require Import Ascii String List Bool Arith Lia.
From stdpp Require Import base strings gmap list.
Import ListNotations.

Local Open Scope string_scope.
Local Open Scope list_scope.

(** ** Python string operations used by the module *)

Module PyStr.

(** [s.split(sep)] for a one-character separator: always at least one
    segment, empty segments are kept. *)
Fixpoint split (sep : ascii) (s : string) : list string :=
  match s with
  | EmptyString => [EmptyString]
  | String c rest =>
      if Ascii.eqb c sep then EmptyString :: split sep rest
      else match split sep rest with
           | [] => [String c EmptyString]
           | seg :: segs => String c seg :: segs
           end
  end.

(** [sep.join(segs)] for a one-character separator. *)
Fixpoint join (sep : ascii) (segs : list string) : string :=
  match segs with
  | [] => EmptyString
  | [seg] => seg
  | seg :: rest => seg +:+ String sep (join sep rest)
  end.

(** [s.replace(a, b)] for one-character [a] and [b]. *)
Fixpoint replace (a b : ascii) (s : string) : string :=
  match s with
  | EmptyString => EmptyString
  | String c rest => String (if Ascii.eqb c a then b else c) (replace a b rest)
  end.

(** [c.lower()] on one character: A-Z and the upper-case letters of
    the Latin-1 supplement (0xC0-0xDE but the multiplication sign). *)
Definition lower_char (c : ascii) : ascii :=
  let n := nat_of_ascii c in
  if (((65 <=? n) && (n <=? 90))
      || ((192 <=? n) && (n <=? 222) && negb (n =? 215)))%nat
  then ascii_of_nat (n + 32) else c.

(** [s.lower()]. *)
Fixpoint lower (s : string) : string :=
  match s with
  | EmptyString => EmptyString
  | String c rest => String (lower_char c) (lower rest)
  end.

(** [s.startswith(p)]. *)
Definition startswith (s p : string) : bool := String.prefix p s.

(** [s[n:]]. *)
Fixpoint drop (n : nat) (s : string) : string :=
  match n, s with
  | O, _ => s
  | S _, EmptyString => EmptyString
  | S k, String _ rest => drop k rest
  end.

(** [s.endswith(p)]. *)
Definition endswith (s p : string) : bool :=
  (String.length p <=? String.length s)%nat
  && String.eqb (drop (String.length s - String.length p) s) p.

(** [sub in s]. *)
Fixpoint contains (sub s : string) : bool :=
  String.prefix sub s
  || match s with
     | EmptyString => false
     | String _ rest => contains sub rest
     end.

(** [c in s] for one character. *)
Fixpoint mem (c : ascii) (s : string) : bool :=
  match s with
  | EmptyString => false
  | String d rest => Ascii.eqb d c || mem c rest
  end.

(** Number of occurrences of a character, [s.count(c)]. *)
Fixpoint count (c : ascii) (s : string) : nat :=
  match s with
  | EmptyString => 0
  | String d rest => ((if Ascii.eqb d c then 1 else 0) + count c rest)%nat
  end.

(** A string of one character. *)
Definition of_char (c : ascii) : string := String c EmptyString.

End PyStr.

(** ** Exceptions, events and the world outside the module *)

(** The exceptions the module can let escape. [IndexError] and
    [KeyError] come from the module's own subscripts; everything an
    external call raises is opaque to it and carried as [Raised]. *)
Inductive Exn : Type :=
| IndexError
| KeyError (key : string)
| Raised (what : string).

(** [threading.get_ident()] of the calling thread. *)
Definition Tid : Type := nat.

Inductive LogLevel : Type := DEBUG | INFO | WARNING.

(** One entry per interaction with the outside world, in program
    order. A bridge call records [None] when it returned and [Some e]
    when it raised [e]. *)
Inductive Event : Type :=
| EvLog (lvl : LogLevel) (msg : string)
| EvEnvironContains (key : string)
| EvEnvironGet (key : string)
| EvListdir (path : string)
| EvIsfile (path : string)
| EvFindJdk
| EvGetAwtHeadless
| EvIsActive (answer : bool)
| EvStartVm (args class_path : list string) (failure : option Exn)
| EvAttach (tid : Tid) (failure : option Exn)
| EvJClassWrapper (cls : string) (failure : option Exn)
| EvCacheDirectoryListings (flag : bool) (failure : option Exn)
| EvKillVm (failure : option Exn).

(** What the interpreter, the operating system, the installed packages
    and the preference store answer during one call. *)
Record Host : Type := {
  environ : gmap string string;            (* os.environ *)
  sys_platform : string;                   (* sys.platform *)
  sys_frozen : bool;                       (* hasattr(sys, "frozen") *)
  os_pathsep : ascii;                      (* os.pathsep *)
  os_curdir : string;                      (* os.curdir *)
  os_path_join : string -> list string -> string;   (* os.path.join(a, *p) *)
  os_path_dirname : string -> string;      (* os.path.dirname *)
  os_listdir : string -> Exn + list string;  (* os.listdir, may raise *)
  os_path_isfile : string -> bool;         (* os.path.isfile *)
  module_file : string;                    (* __file__ of java.py *)
  prokaryote_file : string;                (* prokaryote.__file__ *)
  javabridge_JARS : list string;           (* javabridge.JARS *)
  locate_find_jdk : Exn + option string;
                             (* javabridge.locate.find_jdk(), may raise *)
  preferences_get_awt_headless : bool      (* cellprofiler_core.preferences *)
}.

(** The javabridge operations the module consumes. Each call may change
    the bridge and either returns ([None]) or raises. *)
Class Bridge (B : Type) : Type := {
  vm_is_active : B -> bool;                                   (* get_vm().is_active() *)
  vm_start : list string -> list string -> B -> B * option Exn;  (* javabridge.start_vm *)
  vm_attach : Tid -> B -> B * option Exn;                     (* javabridge.attach *)
  vm_class_wrapper : string -> B -> B * option Exn;           (* javabridge.JClassWrapper *)
  vm_cache_directory_listings : bool -> B -> B * option Exn;  (* c_location.cacheDirectoryListings *)
  vm_kill : B -> B * option Exn                               (* javabridge.kill_vm *)
}.

(** The Python process as far as this module sees it: the bridge, the
    module global [JAVA_STARTED] and the trace of events so far. *)
Record Proc (B : Type) : Type := mkProc {
  bridge : B;
  JAVA_STARTED : bool;
  trace : list Event
}.
Arguments mkProc {B} _ _ _.
Arguments bridge {B} _.
Arguments JAVA_STARTED {B} _.
Arguments trace {B} _.

(** Module import: [JAVA_STARTED = False]. *)
Definition import_module {B : Type} (b : B) : Proc B :=
  {| bridge := b; JAVA_STARTED := false; trace := [] |}.

(** ** A state-and-exception monad for the module's functions *)

Inductive Outcome (A : Type) : Type :=
| Returned (a : A)
| Raises (e : Exn).
Arguments Returned {A} _.
Arguments Raises {A} _.

Definition M (B A : Type) : Type := Host -> Proc B -> Proc B * Outcome A.

Definition ret {B A : Type} (a : A) : M B A := fun _ p => (p, Returned a).

Definition raise {B A : Type} (e : Exn) : M B A := fun _ p => (p, Raises e).

Definition bind {B A C : Type} (m : M B A) (k : A -> M B C) : M B C :=
  fun h p =>
    match m h p with
    | (p', Returned a) => k a h p'
    | (p', Raises e) => (p', Raises e)
    end.

Declare Scope py_scope.
Delimit Scope py_scope with py.
Notation "x <- m ;; k" := (bind m (fun x => k))
  (at level 65, m at next level, right associativity) : py_scope.
Local Open Scope py_scope.

Definition add_trace {B : Type} (p : Proc B) (evs : list Event) : Proc B :=
  {| bridge := bridge p; JAVA_STARTED := JAVA_STARTED p;
     trace := trace p ++ evs |}.

Definition emit {B : Type} (e : Event) : M B unit :=
  fun _ p => (add_trace p [e], Returned tt).

(** Reading the host. *)
Definition ask {B A : Type} (f : Host -> A) : M B A :=
  fun h p => (p, Returned (f h)).

(** A bridge call: run it on the bridge, record it with its outcome,
    and raise what it raised. *)
Definition bridge_call {B : Type} (op : B -> B * option Exn)
    (ev : option Exn -> Event) : M B unit :=
  fun _ p =>
    let '(b', failure) := op (bridge p) in
    ({| bridge := b'; JAVA_STARTED := JAVA_STARTED p;
        trace := trace p ++ [ev failure] |},
     match failure with
     | None => Returned tt
     | Some e => Raises e
     end).

(** [LOGGER.debug], [LOGGER.info], [LOGGER.warning]. *)
Definition LOGGER {B : Type} (lvl : LogLevel) (msg : string) : M B unit :=
  emit (EvLog lvl msg).

(** [key in os.environ]. *)
Definition environ_contains {B : Type} (key : string) : M B bool :=
  _ <- emit (EvEnvironContains key) ;;
  env <- ask environ ;;
  ret (bool_decide (is_Some (env !! key))).

(** [os.environ[key]]. *)
Definition environ_get {B : Type} (key : string) : M B string :=
  _ <- emit (EvEnvironGet key) ;;
  env <- ask environ ;;
  match env !! key with
  | Some v => ret v
  | None => raise (KeyError key)
  end.

(** [s[i]]. *)
Definition subscript {B : Type} (s : string) (i : nat) : M B ascii :=
  match String.get i s with
  | Some c => ret c
  | None => raise IndexError
  end.

(** [os.listdir(path)]. *)
Definition listdir {B : Type} (path : string) : M B (list string) :=
  _ <- emit (EvListdir path) ;;
  ls <- ask (fun h => os_listdir h path) ;;
  match ls with
  | inr names => ret names
  | inl e => raise e
  end.

(** [os.path.isfile(path)]. *)
Definition isfile {B : Type} (path : string) : M B bool :=
  _ <- emit (EvIsfile path) ;;
  ask (fun h => os_path_isfile h path).

(** [find_jdk()]: a path, [None], or an exception of the lookup. *)
Definition find_jdk {B : Type} : M B (option string) :=
  _ <- emit EvFindJdk ;;
  answer <- ask locate_find_jdk ;;
  match answer with
  | inr jdk_path => ret jdk_path
  | inl e => raise e
  end.

(** [cellprofiler_core.preferences.get_awt_headless()]. *)
Definition get_awt_headless {B : Type} : M B bool :=
  _ <- emit EvGetAwtHeadless ;;
  ask preferences_get_awt_headless.

(** ** The module's functions *)

Section Java.

Context {B : Type} `{Bridge B}.

(** [get_vm().is_active()]. *)
Definition is_active : M B bool :=
  fun _ p =>
    let a := vm_is_active (bridge p) in
    (add_trace p [EvIsActive a], Returned a).

(** [javabridge.attach()] on the calling thread. *)
Definition attach (tid : Tid) : M B unit :=
  bridge_call (vm_attach tid) (EvAttach tid).

(** [javabridge.start_vm(args=args, class_path=class_path)]. *)
Definition start_vm (args class_path : list string) : M B unit :=
  bridge_call (vm_start args class_path) (EvStartVm args class_path).

(** [javabridge.JClassWrapper(cls)]. *)
Definition JClassWrapper (cls : string) : M B unit :=
  bridge_call (vm_class_wrapper cls) (EvJClassWrapper cls).

(** [c_location.cacheDirectoryListings(flag)]. *)
Definition cacheDirectoryListings (flag : bool) : M B unit :=
  bridge_call (vm_cache_directory_listings flag)
              (EvCacheDirectoryListings flag).

(** [javabridge.kill_vm()]. *)
Definition kill_vm : M B unit :=
  bridge_call vm_kill EvKillVm.

(** [global JAVA_STARTED; JAVA_STARTED = v]. *)
Definition set_JAVA_STARTED (v : bool) : M B unit :=
  fun _ p =>
    ({| bridge := bridge p; JAVA_STARTED := v; trace := trace p |},
     Returned tt).

(** [get_jars()], lines 22-55. *)
Definition get_jars : M B (list string) :=
  has_cp <- environ_contains "CLASSPATH" ;;
  class_path <-
    (if has_cp : bool then
       value <- environ_get "CLASSPATH" ;;
       sep <- ask os_pathsep ;;
       _ <- LOGGER DEBUG
              "Adding Java class path from environment variable, CLASSPATH" ;;
       shown <- environ_get "CLASSPATH" ;;
       _ <- LOGGER DEBUG ("    CLASSPATH=" +:+ shown) ;;
       ret (PyStr.split sep value)
     else ret []) ;;
  pathname <- ask (fun h => os_path_dirname h (prokaryote_file h)) ;;
  names <- listdir pathname ;;
  join <- ask os_path_join ;;
  let jar_files :=
    map (fun f => join pathname [f])
        (List.filter (fun f => PyStr.endswith (PyStr.lower f) ".jar") names) in
  JARS <- ask javabridge_JARS ;;
  let class_path := class_path ++ (JARS ++ jar_files) in
  platform <- ask sys_platform ;;
  frozen <- ask sys_frozen ;;
  if PyStr.startswith platform "win" && negb frozen then
    jdk <- find_jdk ;;
    match jdk with
    | Some jdk_path =>
        let tools_jar := join jdk_path ["lib"; "tools.jar"] in
        ret (class_path ++ [tools_jar])
    | None =>
        _ <- LOGGER WARNING "Failed to find tools.jar" ;;
        ret class_path
    end
  else ret class_path.

(** The [for path in paths] loop of [find_logback_xml]; falling off
    the end of the function returns [None]. *)
Fixpoint probe_logback (join : string -> list string -> string)
    (paths : list string) : M B (option string) :=
  match paths with
  | [] => ret None
  | path :: rest =>
      let target := join path ["logback.xml"] in
      found <- isfile target ;;
      if found : bool then ret (Some target) else probe_logback join rest
  end.

(** [find_logback_xml()], lines 58-78. *)
Definition find_logback_xml : M B (option string) :=
  curdir <- ask os_curdir ;;
  dirname <- ask os_path_dirname ;;
  join <- ask os_path_join ;;
  file <- ask module_file ;;
  let paths :=
    [ curdir;
      dirname file;
      join (dirname (dirname (dirname file)))
           ["java"; "src"; "main"; "resources"] ] in
  probe_logback join paths.

(** Lines 106-109 of [start_java]: the logging-config path on the
    Windows branch. *)
Definition windows_logback_path (logback_path : string) : M B string :=
  let logback_path := PyStr.replace "\" "/" logback_path in
  c1 <- subscript logback_path 1 ;;
  if Ascii.eqb c1 ":" then
    c0 <- subscript logback_path 0 ;;
    ret ("//localhost/" +:+ PyStr.of_char c0 +:+ "$"
           +:+ PyStr.drop 2 logback_path)
  else ret logback_path.

(** Lines 95-125 of [start_java]: the startup arguments and the
    classpath handed to the bridge. *)
Definition build_startup : M B (list string * list string) :=
  _ <- LOGGER INFO "Initializing Java Virtual Machine" ;;
  let args :=
    [ "-Dloci.bioformats.loaded=true";
      "-Djava.util.prefs.PreferencesFactory="
        +:+ "org.cellprofiler.headlesspreferences.HeadlessPreferencesFactory" ] in
  logback_path <- find_logback_xml ;;
  args <-
    match logback_path with
    | Some logback_path =>
        platform <- ask sys_platform ;;
        logback_path <-
          (if PyStr.startswith platform "win"
           then windows_logback_path logback_path
           else ret logback_path) ;;
        ret (args ++ ["-Dlogback.configurationFile=" +:+ logback_path])
    | None => ret args
    end ;;
  class_path <- get_jars ;;
  awt_headless <- get_awt_headless ;;
  args <-
    (if awt_headless : bool then
       _ <- LOGGER DEBUG "JVM will be started with AWT in headless mode" ;;
       ret (args ++ ["-Djava.awt.headless=true"])
     else ret args) ;;
  has_port <- environ_contains "CP_JDWP_PORT" ;;
  args <-
    (if has_port : bool then
       port <- environ_get "CP_JDWP_PORT" ;;
       ret (args ++ ["-agentlib:jdwp=transport=dt_socket,address=127.0.0.1:"
                       +:+ port +:+ ",server=y,suspend=n"])
     else ret args) ;;
  ret (args, class_path).

(** Lines 126-135 of [start_java]: boot the runtime, attach, enable
    Bio-Formats directory caching, set the flag. *)
Definition boot_vm (tid : Tid) (args class_path : list string) : M B unit :=
  _ <- start_vm args class_path ;;
  _ <- attach tid ;;
  _ <- JClassWrapper "loci.common.Location" ;;
  _ <- cacheDirectoryListings true ;;
  _ <- LOGGER DEBUG "Enabled Bio-formats directory cacheing" ;;
  set_JAVA_STARTED true.

(** [start_java()], lines 81-135, called on thread [tid]. *)
Definition start_java (tid : Tid) : M B unit :=
  active <- is_active ;;
  if active : bool then attach tid
  else
    startup <- build_startup ;;
    boot_vm tid (fst startup) (snd startup).

(** [stop_java()], lines 138-140. *)
Definition stop_java : M B unit :=
  _ <- LOGGER INFO "Shutting down Java Virtual Machine" ;;
  kill_vm.

End Java.

(** ** The boot sequence on the bridge itself

    Lines 126-132 as the bridge sees them: [start_vm], [attach],
    [JClassWrapper("loci.common.Location")] and
    [cacheDirectoryListings(True)], each on the bridge the call before
    left behind, up to the first call that raises. *)
Definition boot_bridge {B : Type} `{Bridge B} (tid : Tid)
    (args class_path : list string) (b : B) : B * option Exn :=
  let '(b1, failure1) := vm_start args class_path b in
  match failure1 with
  | Some e => (b1, Some e)
  | None =>
      let '(b2, failure2) := vm_attach tid b1 in
      match failure2 with
      | Some e => (b2, Some e)
      | None =>
          let '(b3, failure3) := vm_class_wrapper "loci.common.Location" b2 in
          match failure3 with
          | Some e => (b3, Some e)
          | None => vm_cache_directory_listings true b3
          end
      end
  end.

(** ** Observations on traces *)

Definition is_start_vm (e : Event) : bool :=
  match e with EvStartVm _ _ _ => true | _ => false end.

Definition is_attach (e : Event) : bool :=
  match e with EvAttach _ _ => true | _ => false end.

Definition is_kill_vm (e : Event) : bool :=
  match e with EvKillVm _ => true | _ => false end.

Definition is_inactive_answer (e : Event) : bool :=
  match e with EvIsActive false => true | _ => false end.

(** Events that involve the bridge. *)
Definition is_bridge_event (e : Event) : bool :=
  match e with
  | EvIsActive _ | EvStartVm _ _ _ | EvAttach _ _ | EvJClassWrapper _ _
  | EvCacheDirectoryListings _ _ | EvKillVm _ => true
  | _ => false
  end.

(** The last statement before the flag is set, line 133. *)
Abbreviation enabled_log :=
  (EvLog DEBUG "Enabled Bio-formats directory cacheing").

(** The exception a recorded bridge call raised, if any. *)
Definition failure_of (e : Event) : option Exn :=
  match e with
  | EvStartVm _ _ f | EvAttach _ f | EvJClassWrapper _ f
  | EvCacheDirectoryListings _ f | EvKillVm f => f
  | _ => None
  end.

(** Number of events of a kind in a trace. *)
Definition count_events (kind : Event -> bool) (tr : list Event) : nat :=
  length (List.filter kind tr).

(** The argument lists and classpaths handed to [javabridge.start_vm]. *)
Fixpoint start_vm_calls (tr : list Event) : list (list string * list string) :=
  match tr with
  | [] => []
  | EvStartVm args cp _ :: rest => (args, cp) :: start_vm_calls rest
  | _ :: rest => start_vm_calls rest
  end.

(** A start call that returned without failure. *)
Definition is_started_ok (e : Event) : bool :=
  match e with EvStartVm _ _ None => true | _ => false end.

(** The debug-agent flag of the startup arguments. *)
Definition is_debug_agent_flag (arg : string) : bool :=
  PyStr.startswith arg "-agentlib:jdwp".

(** ** [start_java] as a sequence of atomic steps

    One step per statement that touches the bridge or the module
    global; the argument and classpath assembly of lines 95-125 only
    reads the host, so it is one step. Python may switch threads
    between any two of these steps. *)

Inductive Pc : Type :=
| AtCheck                                     (* line 92 *)
| AtWarmAttach                                (* line 93 *)
| AtBuild                                     (* lines 95-125 *)
| AtStartVm (args class_path : list string)   (* line 126 *)
| AtColdAttach                                (* line 130 *)
| AtWrapper                                   (* line 131 *)
| AtCache                                     (* line 132 *)
| AtLogEnabled                                (* line 133 *)
| AtSetFlag                                   (* line 135 *)
| Finished (result : Outcome unit).

Section Steps.

Context {B : Type} `{Bridge B}.

(** Run one statement [m] and continue at [next], or finish with the
    exception it raised. *)
Definition advance {A : Type} (m : M B A) (next : A -> Pc)
    (h : Host) (p : Proc B) : Proc B * Pc :=
  match m h p with
  | (p', Returned a) => (p', next a)
  | (p', Raises e) => (p', Finished (Raises e))
  end.

Definition thread_step (tid : Tid) (pc : Pc) : Host -> Proc B -> Proc B * Pc :=
  match pc with
  | AtCheck =>
      advance is_active (fun active : bool => if active then AtWarmAttach else AtBuild)
  | AtWarmAttach => advance (attach tid) (fun _ => Finished (Returned tt))
  | AtBuild => advance build_startup (fun s => AtStartVm (fst s) (snd s))
  | AtStartVm args class_path =>
      advance (start_vm args class_path) (fun _ => AtColdAttach)
  | AtColdAttach => advance (attach tid) (fun _ => AtWrapper)
  | AtWrapper => advance (JClassWrapper "loci.common.Location") (fun _ => AtCache)
  | AtCache => advance (cacheDirectoryListings true) (fun _ => AtLogEnabled)
  | AtLogEnabled =>
      advance (LOGGER DEBUG "Enabled Bio-formats directory cacheing")
              (fun _ => AtSetFlag)
  | AtSetFlag => advance (set_JAVA_STARTED true) (fun _ => Finished (Returned tt))
  | Finished r => fun _ p => (p, Finished r)
  end.

(** One thread running alone for at most [fuel] steps. *)
Fixpoint run_thread (fuel : nat) (tid : Tid) (pc : Pc) (h : Host) (p : Proc B)
    : Proc B * Pc :=
  match fuel with
  | O => (p, pc)
  | S fuel' =>
      match pc with
      | Finished _ => (p, pc)
      | _ => let '(p', pc') := thread_step tid pc h p in
             run_thread fuel' tid pc' h p'
      end
  end.

(** Two threads, each inside one call of [start_java], sharing the
    process. *)
Record Config : Type := mkConfig {
  pc1 : Pc;
  pc2 : Pc;
  shared : Proc B
}.

(** Both threads have just called [start_java]. *)
Definition both_called (p : Proc B) : Config :=
  {| pc1 := AtCheck; pc2 := AtCheck; shared := p |}.

(** The scheduler lets the first ([false]) or the second ([true])
    thread take its next step. *)
Definition sched_step (t1 t2 : Tid) (h : Host) (second : bool) (c : Config)
    : Config :=
  if second then
    let '(p', pc') := thread_step t2 (pc2 c) h (shared c) in
    {| pc1 := pc1 c; pc2 := pc'; shared := p' |}
  else
    let '(p', pc') := thread_step t1 (pc1 c) h (shared c) in
    {| pc1 := pc'; pc2 := pc2 c; shared := p' |}.

(** An execution under a schedule. *)
Fixpoint run_schedule (t1 t2 : Tid) (h : Host) (sched : list bool) (c : Config)
    : Config :=
  match sched with
  | [] => c
  | second :: rest => run_schedule t1 t2 h rest (sched_step t1 t2 h second c)
  end.

Definition is_finished (pc : Pc) : bool :=
  match pc with Finished _ => true | _ => false end.

Definition returned_normally (pc : Pc) : bool :=
  match pc with Finished (Returned _) => true | _ => false end.

(** Both calls are over. *)
Definition complete (c : Config) : bool :=
  is_finished (pc1 c) && is_finished (pc2 c).

(** A thread that was told the bridge is inactive and has not yet
    reached its call of [start_vm]. *)
Definition pending_start (pc : Pc) : nat :=
  match pc with
  | AtBuild | AtStartVm _ _ => 1
  | _ => 0
  end.

(** A thread that has not yet asked the bridge. *)
Definition at_check (pc : Pc) : nat :=
  match pc with
  | AtCheck => 1
  | _ => 0
  end.

(** Both threads ask the bridge before either boots it, then the first
    runs to its end, then the second. *)
Definition racing_schedule : list bool :=
  [false; true] ++ repeat false 7 ++ repeat true 7.

(** The first thread runs to its end before the second begins. *)
Definition serial_schedule : list bool :=
  repeat false 8 ++ repeat true 8.

(** ** Sequences of calls on the module *)

Inductive Call : Type :=
| CallStart (tid : Tid)
| CallStop.

Definition run_call (c : Call) : M B unit :=
  match c with
  | CallStart tid => start_java tid
  | CallStop => stop_java
  end.

(** The calls are made one after the other, each on the host as it is
    at that time; a caller may catch an exception and go on. *)
Fixpoint run_calls (calls : list (Host * Call)) (p : Proc B) : Proc B :=
  match calls with
  | [] => p
  | (h, c) :: rest => run_calls rest (fst (run_call c h p))
  end.

End Steps.

(** ** Concrete platforms

    [posixpath] and [ntpath] as far as the module uses them. The
    [ntpath] functions follow the library for drive-letter paths; UNC
    drives are not split off. *)

Module PosixPath.

(** [posixpath.join(a, *p)]. *)
Definition join (a : string) (ps : list string) : string :=
  fold_left
    (fun path b =>
       if PyStr.startswith b "/" then b
       else if String.eqb path EmptyString || PyStr.endswith path "/" then path +:+ b
       else path +:+ "/" +:+ b)
    ps a.

Fixpoint drop_while (f : ascii -> bool) (l : list ascii) : list ascii :=
  match l with
  | [] => []
  | c :: rest => if f c then drop_while f rest else l
  end.

(** [s.rstrip(seps)]: strip the characters satisfying [is_sep] from
    the right end. *)
Definition rstrip (is_sep : ascii -> bool) (s : string) : string :=
  string_of_list_ascii
    (rev (drop_while is_sep (rev (list_ascii_of_string s)))).

(** [p[:i]] for [i] one past the last separator (the empty string
    when there is none). *)
Definition head_part (is_sep : ascii -> bool) (s : string) : string :=
  string_of_list_ascii
    (rev (drop_while (fun c => negb (is_sep c))
                     (rev (list_ascii_of_string s)))).

(** [posixpath.dirname(p)]. *)
Definition dirname (p : string) : string :=
  let is_sep := fun c => Ascii.eqb c "/" in
  let head := head_part is_sep p in
  let stripped := rstrip is_sep head in
  if String.eqb stripped EmptyString then head else stripped.

End PosixPath.

Module NtPath.

Definition is_sep (c : ascii) : bool := Ascii.eqb c "\" || Ascii.eqb c "/".

(** [ntpath.splitdrive(p)] for drive-letter paths. *)
Definition splitdrive (p : string) : string * string :=
  match String.get 1 p with
  | Some c => if Ascii.eqb c ":" then (String.substring 0 2 p, PyStr.drop 2 p)
              else (EmptyString, p)
  | None => (EmptyString, p)
  end.

Definition ends_with_sep (s : string) : bool :=
  match rev (list_ascii_of_string s) with
  | c :: _ => is_sep c
  | [] => false
  end.

Definition starts_with_sep (s : string) : bool :=
  match s with
  | String c _ => is_sep c
  | EmptyString => false
  end.

(** [ntpath.join(path, *paths)]. *)
Definition join (path : string) (paths : list string) : string :=
  let relative (result_path p_path : string) :=
    (if negb (String.eqb result_path EmptyString) && negb (ends_with_sep result_path)
     then result_path +:+ "\" else result_path) +:+ p_path in
  let '(drive, rest) :=
    fold_left
      (fun '(result_drive, result_path) p =>
         let '(p_drive, p_path) := splitdrive p in
         if starts_with_sep p_path then
           ((if negb (String.eqb p_drive EmptyString) || String.eqb result_drive EmptyString
             then p_drive else result_drive), p_path)
         else if negb (String.eqb p_drive EmptyString)
                 && negb (String.eqb p_drive result_drive) then
           if negb (String.eqb (PyStr.lower p_drive) (PyStr.lower result_drive))
           then (p_drive, p_path)
           else (p_drive, relative result_path p_path)
         else (result_drive, relative result_path p_path))
      paths (splitdrive path) in
  drive +:+ rest.

(** [ntpath.dirname(p)]. *)
Definition dirname (p : string) : string :=
  let '(d, p) := splitdrive p in
  let head := PosixPath.head_part is_sep p in
  let stripped := PosixPath.rstrip is_sep head in
  d +:+ (if String.eqb stripped EmptyString then head else stripped).

End NtPath.

(** ** A scriptable bridge and two concrete hosts *)

(** Which bridge operations are scripted to raise. *)
Record Faults : Type := {
  start_fails : bool;
  attach_fails : bool;
  wrapper_fails : bool;
  cache_fails : bool;
  kill_fails : bool
}.

Definition no_faults : Faults :=
  {| start_fails := false; attach_fails := false; wrapper_fails := false;
     cache_fails := false; kill_fails := false |}.

(** A stand-in for javabridge: at most one runtime, active from a
    successful start to the next kill. *)
Record MockVm : Type := {
  mock_active : bool;
  mock_faults : Faults
}.

Definition mock_fail_or (fails : bool) (what : string) (ok : MockVm) (s : MockVm)
    : MockVm * option Exn :=
  if fails then (s, Some (Raised what)) else (ok, None).

#[export] Instance mock_bridge : Bridge MockVm := {|
  vm_is_active s := mock_active s;
  vm_start _ _ s :=
    mock_fail_or (start_fails (mock_faults s)) "JVMNotFoundError"
      {| mock_active := true; mock_faults := mock_faults s |} s;
  vm_attach _ s :=
    mock_fail_or (attach_fails (mock_faults s)) "JavaError" s s;
  vm_class_wrapper _ s :=
    mock_fail_or (wrapper_fails (mock_faults s)) "JavaException" s s;
  vm_cache_directory_listings _ s :=
    mock_fail_or (cache_fails (mock_faults s)) "JavaException" s s;
  vm_kill s :=
    mock_fail_or (kill_fails (mock_faults s)) "JavaError"
      {| mock_active := false; mock_faults := mock_faults s |} s
|}.

(** A bridge whose start operation brings the runtime up and raises
    all the same, as when the runtime is created and a later part of
    [javabridge.start_vm] fails. *)
Record HalfStartedVm : Type := {
  half_active : bool
}.

#[export] Instance half_started_bridge : Bridge HalfStartedVm := {|
  vm_is_active s := half_active s;
  vm_start _ _ s := ({| half_active := true |}, Some (Raised "JavaError"));
  vm_attach _ s := (s, None);
  vm_class_wrapper _ s := (s, None);
  vm_cache_directory_listings _ s := (s, None);
  vm_kill s := ({| half_active := false |}, None)
|}.

(** ** A bridge that keeps a journal of its own

    Any bridge can be wrapped so that every operation invoked on it is
    written down by the bridge itself, independently of the trace the
    module's functions keep. *)
Inductive BridgeOp : Type :=
| OpStartVm (args class_path : list string)
| OpAttach (tid : Tid)
| OpJClassWrapper (cls : string)
| OpCacheDirectoryListings (flag : bool)
| OpKillVm.

Record Journaled (B : Type) : Type := mkJournaled {
  inner : B;
  journal : list BridgeOp
}.
Arguments mkJournaled {B} _ _.
Arguments inner {B} _.
Arguments journal {B} _.

Definition journaled_call {B : Type} (op : BridgeOp)
    (call : B -> B * option Exn) (j : Journaled B)
    : Journaled B * option Exn :=
  let '(b', failure) := call (inner j) in
  ({| inner := b'; journal := journal j ++ [op] |}, failure).

#[export] Instance journaled_bridge {B : Type} `{Bridge B}
    : Bridge (Journaled B) := {|
  vm_is_active j := vm_is_active (inner j);
  vm_start args class_path :=
    journaled_call (OpStartVm args class_path) (vm_start args class_path);
  vm_attach tid := journaled_call (OpAttach tid) (vm_attach tid);
  vm_class_wrapper cls :=
    journaled_call (OpJClassWrapper cls) (vm_class_wrapper cls);
  vm_cache_directory_listings flag :=
    journaled_call (OpCacheDirectoryListings flag)
      (vm_cache_directory_listings flag);
  vm_kill := journaled_call OpKillVm vm_kill
|}.

Definition is_op_start_vm (op : BridgeOp) : bool :=
  match op with OpStartVm _ _ => true | _ => false end.

Definition is_op_attach (op : BridgeOp) : bool :=
  match op with OpAttach _ => true | _ => false end.

(** Number of journal entries of a kind. *)
Definition count_ops (kind : BridgeOp -> bool) (ops : list BridgeOp) : nat :=
  length (List.filter kind ops).

(** What the bridge wrote into its journal between two states of the
    process. *)
Definition new_ops {B : Type} (before after : Proc (Journaled B))
    : list BridgeOp :=
  List.skipn (length (journal (bridge before))) (journal (bridge after)).

(** A fresh process over a journaling bridge with an empty journal. *)
Definition journaled_process {B : Type} (b : B) : Proc (Journaled B) :=
  import_module {| inner := b; journal := [] |}.

(** A fresh process with no runtime yet. *)
Definition cold_process (f : Faults) : Proc MockVm :=
  import_module {| mock_active := false; mock_faults := f |}.

(** A process whose runtime was started by other code through the
    bridge, not through [start_java]. *)
Definition warm_process : Proc MockVm :=
  import_module {| mock_active := true; mock_faults := no_faults |}.

(** A Linux installation with a classpath and a debug port in the
    environment, headless. *)
Definition linux_host : Host := {|
  environ := {[ "CLASSPATH" := "/opt/a.jar:/opt/b.jar";
                "CP_JDWP_PORT" := "5005" ]};
  sys_platform := "linux";
  sys_frozen := false;
  os_pathsep := ":";
  os_curdir := ".";
  os_path_join := PosixPath.join;
  os_path_dirname := PosixPath.dirname;
  os_listdir path :=
    if String.eqb path "/site/prokaryote"
    then inr ["__init__.py"; "bioformats.jar"; "README"; "Rhino.JAR"]
    else inl (Raised "FileNotFoundError");
  os_path_isfile path :=
    String.eqb path "/site/cellprofiler_core/utilities/logback.xml";
  module_file := "/site/cellprofiler_core/utilities/java.py";
  prokaryote_file := "/site/prokaryote/__init__.py";
  javabridge_JARS := ["/site/javabridge/jars/rhino-1.7R4.jar";
                      "/site/javabridge/jars/runnablequeue.jar"];
  locate_find_jdk := inr None;
  preferences_get_awt_headless := true
|}.

(** The same installation with an empty environment. *)
Definition bare_linux_host : Host := {|
  environ := ∅;
  sys_platform := sys_platform linux_host;
  sys_frozen := sys_frozen linux_host;
  os_pathsep := os_pathsep linux_host;
  os_curdir := os_curdir linux_host;
  os_path_join := os_path_join linux_host;
  os_path_dirname := os_path_dirname linux_host;
  os_listdir := os_listdir linux_host;
  os_path_isfile := os_path_isfile linux_host;
  module_file := module_file linux_host;
  prokaryote_file := prokaryote_file linux_host;
  javabridge_JARS := javabridge_JARS linux_host;
  locate_find_jdk := locate_find_jdk linux_host;
  preferences_get_awt_headless := preferences_get_awt_headless linux_host
|}.

(** A Windows installation, frozen or not, whose logging configuration
    lies next to the module at [C:\x\logback.xml]. *)
Definition windows_host (frozen : bool) : Host := {|
  environ := {[ "CLASSPATH" := "C:\lib\a.jar;D:\b.jar" ]};
  sys_platform := "win32";
  sys_frozen := frozen;
  os_pathsep := ";";
  os_curdir := ".";
  os_path_join := NtPath.join;
  os_path_dirname := NtPath.dirname;
  os_listdir path :=
    if String.eqb path "C:\site\prokaryote"
    then inr ["bioformats.jar"; "LICENSE"]
    else inl (Raised "FileNotFoundError");
  os_path_isfile path := String.eqb path "C:\x\logback.xml";
  module_file := "C:\x\java.py";
  prokaryote_file := "C:\site\prokaryote\__init__.py";
  javabridge_JARS := ["C:\site\javabridge\jars\rhino-1.7R4.jar"];
  locate_find_jdk := inr (Some "C:\jdk");
  preferences_get_awt_headless := false
|}.

(** The unfrozen Windows installation without a JDK: the lookup of
    [javabridge.locate] raises. *)
Definition jdkless_windows_host : Host := {|
  environ := environ (windows_host false);
  sys_platform := sys_platform (windows_host false);
  sys_frozen := sys_frozen (windows_host false);
  os_pathsep := os_pathsep (windows_host false);
  os_curdir := os_curdir (windows_host false);
  os_path_join := os_path_join (windows_host false);
  os_path_dirname := os_path_dirname (windows_host false);
  os_listdir := os_listdir (windows_host false);
  os_path_isfile := os_path_isfile (windows_host false);
  module_file := module_file (windows_host false);
  prokaryote_file := prokaryote_file (windows_host false);
  javabridge_JARS := javabridge_JARS (windows_host false);
  locate_find_jdk := inl (Raised "RuntimeError");
  preferences_get_awt_headless :=
    preferences_get_awt_headless (windows_host false)
|}.

(** The unfrozen Windows installation whose lookup finds no JDK and says
    so by answering [None]. *)
Definition toolless_windows_host : Host := {|
  environ := environ (windows_host false);
  sys_platform := sys_platform (windows_host false);
  sys_frozen := sys_frozen (windows_host false);
  os_pathsep := os_pathsep (windows_host false);
  os_curdir := os_curdir (windows_host false);
  os_path_join := os_path_join (windows_host false);
  os_path_dirname := os_path_dirname (windows_host false);
  os_listdir := os_listdir (windows_host false);
  os_path_isfile := os_path_isfile (windows_host false);
  module_file := module_file (windows_host false);
  prokaryote_file := prokaryote_file (windows_host false);
  javabridge_JARS := javabridge_JARS (windows_host false);
  locate_find_jdk := inr None;
  preferences_get_awt_headless :=
    preferences_get_awt_headless (windows_host false)
|}.

(** The Linux installation with a bundled-archive directory that cannot
    be listed. *)
Definition unlisted_linux_host : Host := {|
  environ := environ linux_host;
  sys_platform := sys_platform linux_host;
  sys_frozen := sys_frozen linux_host;
  os_pathsep := os_pathsep linux_host;
  os_curdir := os_curdir linux_host;
  os_path_join := os_path_join linux_host;
  os_path_dirname := os_path_dirname linux_host;
  os_listdir := fun _ => inl (Raised "PermissionError");
  os_path_isfile := os_path_isfile linux_host;
  module_file := module_file linux_host;
  prokaryote_file := prokaryote_file linux_host;
  javabridge_JARS := javabridge_JARS linux_host;
  locate_find_jdk := locate_find_jdk linux_host;
  preferences_get_awt_headless := preferences_get_awt_headless linux_host
|}.

(** What the bridge is handed on these hosts. *)
Definition linux_args : list string :=
  [ "-Dloci.bioformats.loaded=true";
    "-Djava.util.prefs.PreferencesFactory=org.cellprofiler.headlesspreferences.HeadlessPreferencesFactory";
    "-Dlogback.configurationFile=/site/cellprofiler_core/utilities/logback.xml";
    "-Djava.awt.headless=true";
    "-agentlib:jdwp=transport=dt_socket,address=127.0.0.1:5005,server=y,suspend=n" ].

Definition linux_classpath : list string :=
  [ "/opt/a.jar"; "/opt/b.jar";
    "/site/javabridge/jars/rhino-1.7R4.jar";
    "/site/javabridge/jars/runnablequeue.jar";
    "/site/prokaryote/bioformats.jar";
    "/site/prokaryote/Rhino.JAR" ].

Definition bare_linux_args : list string :=
  [ "-Dloci.bioformats.loaded=true";
    "-Djava.util.prefs.PreferencesFactory=org.cellprofiler.headlesspreferences.HeadlessPreferencesFactory";
    "-Dlogback.configurationFile=/site/cellprofiler_core/utilities/logback.xml";
    "-Djava.awt.headless=true" ].

Definition bare_linux_classpath : list string :=
  [ "/site/javabridge/jars/rhino-1.7R4.jar";
    "/site/javabridge/jars/runnablequeue.jar";
    "/site/prokaryote/bioformats.jar";
    "/site/prokaryote/Rhino.JAR" ].

Definition windows_args : list string :=
  [ "-Dloci.bioformats.loaded=true";
    "-Djava.util.prefs.PreferencesFactory=org.cellprofiler.headlesspreferences.HeadlessPreferencesFactory";
    "-Dlogback.configurationFile=//localhost/C$/x/logback.xml" ].

Definition windows_classpath (frozen : bool) : list string :=
  [ "C:\lib\a.jar"; "D:\b.jar";
    "C:\site\javabridge\jars\rhino-1.7R4.jar";
    "C:\site\prokaryote\bioformats.jar" ]
  ++ (if frozen then [] else ["C:\jdk\lib\tools.jar"]).

(** ** What the assembly steps are specified to produce

    Pure functions of the host, stated from the specification's words
    and compared with the code below. *)

(** The segments of the [CLASSPATH] variable, none when it is unset. *)
Definition spec_env_entries (h : Host) : list string :=
  match environ h !! "CLASSPATH" with
  | Some value => PyStr.split (os_pathsep h) value
  | None => []
  end.

(** The installation directory of the bundled-archive package. *)
Definition spec_bundle_dir (h : Host) : string :=
  os_path_dirname h (prokaryote_file h).

(** The archives of a directory listing, in listing order. *)
Definition spec_bundled (h : Host) (names : list string) : list string :=
  map (fun f => os_path_join h (spec_bundle_dir h) [f])
      (List.filter (fun f => PyStr.endswith (PyStr.lower f) ".jar") names).

(** The tools archive: only on Windows, only when not frozen, only when
    a JDK is found. *)
Definition spec_tools (h : Host) : list string :=
  if PyStr.startswith (sys_platform h) "win" && negb (sys_frozen h) then
    match locate_find_jdk h with
    | inr (Some jdk) => [os_path_join h jdk ["lib"; "tools.jar"]]
    | _ => []
    end
  else [].

(** The three candidate locations of [logback.xml], in search order. *)
Definition spec_logback_candidates (h : Host) : list string :=
  map (fun dir => os_path_join h dir ["logback.xml"])
      [ os_curdir h;
        os_path_dirname h (module_file h);
        os_path_join h
          (os_path_dirname h (os_path_dirname h (os_path_dirname h (module_file h))))
          ["java"; "src"; "main"; "resources"] ].

(** The first candidate that is a file. *)
Definition spec_located_logback (h : Host) : option string :=
  List.find (os_path_isfile h) (spec_logback_candidates h).

(** Backslashes to slashes, then a drive prefix [X:] to [//localhost/X$]. *)
Definition spec_windows_rewrite (path : string) : string :=
  match PyStr.replace "\" "/" path with
  | String d (String ":" rest) => "//localhost/" +:+ String d ("$" +:+ rest)
  | other => other
  end.

Definition spec_loader_flag : string := "-Dloci.bioformats.loaded=true".

Definition spec_prefs_flag : string :=
  "-Djava.util.prefs.PreferencesFactory=org.cellprofiler.headlesspreferences.HeadlessPreferencesFactory".

Definition spec_headless_args (h : Host) : list string :=
  if preferences_get_awt_headless h then ["-Djava.awt.headless=true"] else [].

Definition spec_debug_args (h : Host) : list string :=
  match environ h !! "CP_JDWP_PORT" with
  | Some port =>
      ["-agentlib:jdwp=transport=dt_socket,address=127.0.0.1:" +:+ port
         +:+ ",server=y,suspend=n"]
  | None => []
  end.

(** The logging-config flag: none when no file is located; on Windows
    the rewritten path, which needs two characters to look at. *)
Definition spec_logback_args (h : Host) : Outcome (list string) :=
  match spec_located_logback h with
  | None => Returned []
  | Some path =>
      if PyStr.startswith (sys_platform h) "win" then
        if (2 <=? String.length path)%nat
        then Returned ["-Dlogback.configurationFile=" +:+ spec_windows_rewrite path]
        else Raises IndexError
      else Returned ["-Dlogback.configurationFile=" +:+ path]
  end.

(** The exception of the JDK lookup, where the lookup is made: only on
    Windows, only when not frozen. *)
Definition spec_jdk_failure (h : Host) : option Exn :=
  if PyStr.startswith (sys_platform h) "win" && negb (sys_frozen h) then
    match locate_find_jdk h with
    | inl e => Some e
    | inr _ => None
    end
  else None.

(** The classpath for a directory listing: environment entries, the
    bridge's archives, the bundled archives, the tools archive. *)
Definition spec_classpath (h : Host) (names : list string) : list string :=
  spec_env_entries h
    ++ javabridge_JARS h ++ spec_bundled h names ++ spec_tools h.

(** What [get_jars] answers: the listing may raise, and so may the JDK
    lookup where it is made. *)
Definition spec_get_jars (h : Host) : Outcome (list string) :=
  match os_listdir h (spec_bundle_dir h) with
  | inl e => Raises e
  | inr names =>
      match spec_jdk_failure h with
      | Some e => Raises e
      | None => Returned (spec_classpath h names)
      end
  end.

(** The arguments and the classpath a cold start hands to the bridge. *)
Definition spec_startup (h : Host) : Outcome (list string * list string) :=
  match spec_logback_args h with
  | Raises e => Raises e
  | Returned logback =>
      match os_listdir h (spec_bundle_dir h) with
      | inl e => Raises e
      | inr names =>
          match spec_jdk_failure h with
          | Some e => Raises e
          | None =>
              Returned ([spec_loader_flag; spec_prefs_flag] ++ logback
                          ++ spec_headless_args h ++ spec_debug_args h,
                        spec_classpath h names)
          end
      end
  end.

(** ** What a call added to the trace *)

Definition new_events {B : Type} (before after : Proc B) : list Event :=
  List.skipn (length (trace before)) (trace after).

Definition events_of {B A : Type} (m : M B A) (h : Host) (p : Proc B)
    : list Event :=
  new_events p (fst (m h p)).

(** [xs] occurs in [l] as a block of consecutive entries. *)
Fixpoint is_prefix (xs l : list string) : bool :=
  match xs, l with
  | [], _ => true
  | x :: xs', y :: l' => String.eqb x y && is_prefix xs' l'
  | _ :: _, [] => false
  end.

Fixpoint is_block (xs l : list string) : bool :=
  is_prefix xs l
  || match l with
     | [] => false
     | _ :: l' => is_block xs l'
     end.

(** ** Effects of a computation *)

(** A computation that only appends events satisfying [P] to the trace
    and leaves the bridge and [JAVA_STARTED] alone. *)
Definition emits_only {B A : Type} (P : Event -> Prop) (m : M B A) : Prop :=
  forall h p, exists evs, fst (m h p) = add_trace p evs /\ Forall P evs.

(** Two processes that differ at most in [JAVA_STARTED]. *)
Definition same_but_flag {B : Type} (p q : Proc B) : Prop :=
  bridge p = bridge q /\ trace p = trace q.

(** A computation whose outcome, bridge and trace do not depend on
    [JAVA_STARTED]. *)
Definition ignores_flag {B A : Type} (m : M B A) : Prop :=
  forall h p q,
    same_but_flag p q ->
    same_but_flag (fst (m h p)) (fst (m h q)) /\ snd (m h p) = snd (m h q).

(** The environment variable an event reads, if any. *)
Definition env_key (e : Event) : option string :=
  match e with
  | EvEnvironContains key | EvEnvironGet key => Some key
  | _ => None
  end.

(** What [get_jars] may do: log, read [CLASSPATH], list a directory,
    look for a JDK. *)
Definition is_assembler_event (e : Event) : bool :=
  match e with
  | EvLog _ _ | EvListdir _ | EvFindJdk => true
  | EvEnvironContains key | EvEnvironGet key => String.eqb key "CLASSPATH"
  | _ => false
  end.

(** What lines 95-125 of [start_java] may do besides: probe files, read
    the headless preference, read [CP_JDWP_PORT]. *)
Definition is_startup_event (e : Event) : bool :=
  match e with
  | EvIsfile _ | EvGetAwtHeadless => true
  | EvEnvironContains key | EvEnvironGet key =>
      String.eqb key "CLASSPATH" || String.eqb key "CP_JDWP_PORT"
  | other => is_assembler_event other
  end.

(** What lines 126-133 of [start_java] on thread [tid] may do. *)
Definition is_boot_event (tid : Tid) (e : Event) : bool :=
  match e with
  | EvStartVm _ _ _ | EvJClassWrapper _ _ | EvCacheDirectoryListings _ _ => true
  | EvAttach t _ => Nat.eqb t tid
  | EvLog DEBUG msg => String.eqb msg "Enabled Bio-formats directory cacheing"
  | _ => false
  end.

Definition is_isfile (e : Event) : bool :=
  match e with EvIsfile _ => true | _ => false end.

Definition is_activity_check (e : Event) : bool :=
  match e with EvIsActive _ => true | _ => false end.

(** A successful attach of thread [tid]. *)
Definition is_attached (tid : Tid) (e : Event) : bool :=
  match e with EvAttach t None => Nat.eqb t tid | _ => false end.

(** The logging-config flag of the startup arguments. *)
Definition is_logback_flag (arg : string) : bool :=
  PyStr.startswith arg "-Dlogback.configurationFile=".

(** The candidates [find_logback_xml] has to probe: up to and including
    the first that is a file. *)
Fixpoint probed (isfile : string -> bool) (candidates : list string)
    : list string :=
  match candidates with
  | [] => []
  | c :: rest => c :: (if isfile c then [] else probed isfile rest)
  end.

(** A thread that has passed its call of [start_vm] on the cold path. *)
Definition past_start (pc : Pc) : bool :=
  match pc with
  | AtColdAttach | AtWrapper | AtCache | AtLogEnabled | AtSetFlag => true
  | _ => false
  end.

(** * Properties *)

(** ** String operations on examples *)

Example split_colon : PyStr.split ":" "a.jar::b" = ["a.jar"; EmptyString; "b"].
Proof. reflexivity. Qed.

Example split_empty : PyStr.split ":" EmptyString = [EmptyString].
Proof. reflexivity. Qed.

Example lower_jar : PyStr.endswith (PyStr.lower "Bio.JAR") ".jar" = true.
Proof. reflexivity. Qed.

Example endswith_short : PyStr.endswith "jar" ".jar" = false.
Proof. reflexivity. Qed.

(** ** Traces *)

Lemma add_trace_app {B : Type} (p : Proc B) (e1 e2 : list Event) :
  add_trace (add_trace p e1) e2 = add_trace p (e1 ++ e2).
Proof. unfold add_trace; simpl. now rewrite <- app_assoc. Qed.

Lemma count_events_app (kind : Event -> bool) (t1 t2 : list Event) :
  count_events kind (t1 ++ t2) = count_events kind t1 + count_events kind t2.
Proof. unfold count_events. now rewrite List.filter_app, length_app. Qed.

Lemma count_events_none (kind : Event -> bool) (tr : list Event) :
  Forall (fun e => kind e = false) tr -> count_events kind tr = 0.
Proof.
  unfold count_events. induction 1 as [|e tr He _ IH]; simpl; [reflexivity|].
  now rewrite He.
Qed.

Lemma start_vm_calls_app (t1 t2 : list Event) :
  start_vm_calls (t1 ++ t2) = start_vm_calls t1 ++ start_vm_calls t2.
Proof.
  induction t1 as [|e t1 IH]; simpl; [reflexivity|].
  destruct e; simpl; now rewrite ?IH.
Qed.

Lemma start_vm_calls_host (tr : list Event) :
  Forall (fun e => is_bridge_event e = false) tr -> start_vm_calls tr = [].
Proof.
  induction 1 as [|e tr He _ IH]; simpl; [reflexivity|].
  destruct e; simpl in *; congruence.
Qed.

(** Running the monad: unfold the primitives, keep the trace as one
    append. *)
Ltac py_run :=
  cbv beta iota delta
    [bind emit ask ret raise LOGGER environ_contains environ_get listdir
     isfile find_jdk get_awt_headless subscript];
  rewrite ?add_trace_app.

(** Closing [Forall] over a literal list of host events. *)
Ltac host_events := repeat constructor.

Lemma new_events_app {B : Type} (p p' : Proc B) (evs : list Event) :
  trace p' = trace p ++ evs -> new_events p p' = evs.
Proof.
  unfold new_events. intros ->. now rewrite List.skipn_app, List.skipn_all, Nat.sub_diag.
Qed.

(** ** Segments and blocks *)

Lemma split_nonempty (sep : ascii) (s : string) : PyStr.split sep s <> [].
Proof.
  induction s as [|c s IH]; simpl; [discriminate|].
  destruct (Ascii.eqb c sep); [discriminate|].
  now destruct (PyStr.split sep s).
Qed.

(** A value with [k] separators splits into [k + 1] segments. *)
Lemma split_length (sep : ascii) (s : string) :
  length (PyStr.split sep s) = S (PyStr.count sep s).
Proof.
  induction s as [|c s IH]; simpl; [reflexivity|].
  destruct (Ascii.eqb c sep); simpl; [now rewrite IH|].
  pose proof (split_nonempty sep s).
  destruct (PyStr.split sep s); [contradiction|exact IH].
Qed.

Lemma join_cons (sep : ascii) (seg : string) (rest : list string) :
  rest <> [] ->
  PyStr.join sep (seg :: rest) = seg +:+ String sep (PyStr.join sep rest).
Proof. destruct rest; [contradiction|reflexivity]. Qed.

(** Joining the segments gives the value back: nothing is lost or
    reordered. *)
Lemma join_split (sep : ascii) (s : string) :
  PyStr.join sep (PyStr.split sep s) = s.
Proof.
  induction s as [|c s IH]; [reflexivity|].
  pose proof (split_nonempty sep s) as Hne.
  cbn [PyStr.split].
  destruct (Ascii.eqb_spec c sep) as [->|Hc].
  - rewrite join_cons by assumption. now rewrite IH.
  - destruct (PyStr.split sep s) as [|seg [|seg2 segs]]; [contradiction| |];
      cbv beta iota.
    + simpl in *. now rewrite IH.
    + rewrite join_cons by done. rewrite join_cons in IH by done.
      rewrite <- IH. reflexivity.
Qed.

Lemma is_prefix_app (xs rest : list string) : is_prefix xs (xs ++ rest) = true.
Proof.
  induction xs as [|x xs IH]; simpl; [reflexivity|].
  now rewrite String.eqb_refl, IH.
Qed.

Lemma is_block_app (xs before after : list string) :
  is_block xs (before ++ xs ++ after) = true.
Proof.
  induction before as [|b before IH]; simpl.
  - destruct (xs ++ after) eqn:E; simpl; rewrite <- ?E, is_prefix_app; reflexivity.
  - rewrite IH. apply orb_true_r.
Qed.

Section Assembly.
Context {B : Type} `{Bridge B}.

Abbreviation host_only := (Forall (fun e => is_bridge_event e = false)).

Lemma get_jars_run (h : Host) (p : Proc B) :
  exists evs, host_only evs /\
    get_jars h p = (add_trace p evs, spec_get_jars h).
Proof.
  unfold get_jars, spec_get_jars, spec_jdk_failure, spec_classpath,
    spec_env_entries, spec_tools, spec_bundled, spec_bundle_dir.
  py_run.
  destruct (environ h !! "CLASSPATH") as [value|] eqn:Hcp;
    [ rewrite bool_decide_eq_true_2 by eauto
    | rewrite bool_decide_eq_false_2 by (intros [? ?]; discriminate) ];
    py_run; rewrite ?Hcp; py_run;
    (destruct (os_listdir h _) as [e|names]; py_run;
     [ eexists; split; [|reflexivity]; host_events | ]);
    (destruct (PyStr.startswith (sys_platform h) "win" && negb (sys_frozen h));
     py_run;
     [ destruct (locate_find_jdk h) as [e|[jdk|]]; py_run | ]);
    rewrite ?app_nil_r, <- ?app_assoc;
    (eexists; split; [|reflexivity]; host_events).
Qed.

Lemma find_logback_xml_run (h : Host) (p : Proc B) :
  exists evs, host_only evs /\
    find_logback_xml h p = (add_trace p evs, Returned (spec_located_logback h)).
Proof.
  unfold find_logback_xml, spec_located_logback, spec_logback_candidates.
  py_run. simpl. py_run.
  repeat (destruct (os_path_isfile h _); py_run;
          [ eexists; split; [|reflexivity]; host_events | ]).
  eexists; split; [|reflexivity]; host_events.
Qed.

Lemma windows_logback_path_run (path : string) (h : Host) (p : Proc B) :
  windows_logback_path path h p =
    (p, if (2 <=? String.length path)%nat
        then Returned (spec_windows_rewrite path)
        else Raises IndexError).
Proof.
  unfold windows_logback_path, spec_windows_rewrite. py_run.
  destruct path as [|c0 [|c1 rest]]; simpl; try reflexivity.
  destruct (Ascii.eqb_spec (if Ascii.eqb c1 "\" then "/" else c1) ":")%char as [->|Hne];
    simpl; [reflexivity|].
  destruct (if Ascii.eqb c1 "\" then "/"%char else c1) as [[] [] [] [] [] [] [] []];
    try reflexivity; congruence.
Qed.

Lemma build_startup_run (h : Host) (p : Proc B) :
  exists evs, host_only evs /\
    build_startup h p = (add_trace p evs, spec_startup h).
Proof.
  unfold build_startup, spec_startup, spec_logback_args, spec_headless_args,
    spec_debug_args.
  py_run.
  destruct (find_logback_xml_run h
              (add_trace p [EvLog INFO "Initializing Java Virtual Machine"]))
    as (evs1 & Hev1 & ->).
  py_run.
  assert (Hlog : host_only ([EvLog INFO "Initializing Java Virtual Machine"] ++ evs1))
    by (apply Forall_app; split; [host_events | exact Hev1]).
  destruct (spec_located_logback h) as [path|];
    [ destruct (PyStr.startswith (sys_platform h) "win");
      [ rewrite windows_logback_path_run;
        destruct (2 <=? String.length path)%nat;
        [ | eexists; split; [exact Hlog | reflexivity] ] | ] | ];
    py_run;
    match goal with
    | |- context [get_jars h ?q] =>
        destruct (get_jars_run h q) as (evs2 & Hev2 & ->)
    end;
    py_run; unfold spec_get_jars;
    (destruct (os_listdir h (spec_bundle_dir h)) as [e|names];
     [ eexists; split; [|reflexivity];
       apply Forall_app; split; [exact Hlog | exact Hev2] | ]);
    (destruct (spec_jdk_failure h) as [e|];
     [ eexists; split; [|reflexivity];
       apply Forall_app; split; [exact Hlog | exact Hev2] | ]);
    destruct (preferences_get_awt_headless h); py_run;
    (destruct (environ h !! "CP_JDWP_PORT") as [port|] eqn:Hport;
     [ rewrite bool_decide_eq_true_2 by eauto
     | rewrite bool_decide_eq_false_2 by (intros [? ?]; discriminate) ]);
    py_run; rewrite ?Hport; py_run;
    rewrite ?app_nil_r, <- ?app_assoc;
    (eexists; split; [|reflexivity]);
    repeat (apply Forall_app; split); try assumption; host_events.
Qed.
Lemma build_startup_result (h : Host) (p : Proc B) :
  snd (build_startup h p) = spec_startup h.
Proof. now destruct (build_startup_run h p) as (evs & _ & ->). Qed.

End Assembly.

Section AssemblerClaims.
Context {B : Type} `{Bridge B}.

Lemma spec_jdk_failure_none (h : Host) :
  (PyStr.startswith (sys_platform h) "win" && negb (sys_frozen h) = true ->
   exists answer, locate_find_jdk h = inr answer) <->
  spec_jdk_failure h = None.
Proof.
  unfold spec_jdk_failure.
  destruct (PyStr.startswith (sys_platform h) "win" && negb (sys_frozen h)).
  - destruct (locate_find_jdk h) as [e|answer]; split; try reflexivity.
    + intros Hok. destruct (Hok eq_refl) as [? ?]. discriminate.
    + discriminate.
    + eauto.
  - split; [reflexivity|discriminate].
Qed.

Lemma get_jars_returned (h : Host) (p : Proc B) (cp : list string) :
  snd (get_jars h p) = Returned cp <->
  exists names,
    os_listdir h (os_path_dirname h (prokaryote_file h)) = inr names /\
    spec_jdk_failure h = None /\
    cp = spec_classpath h names.
Proof.
  destruct (get_jars_run h p) as (evs & _ & ->). cbn [snd].
  unfold spec_get_jars, spec_bundle_dir.
  destruct (os_listdir h _) as [e|names].
  - split; [discriminate|]. intros (? & ? & _). discriminate.
  - destruct (spec_jdk_failure h) as [e|].
    + split; [discriminate|]. intros (? & _ & ? & _). discriminate.
    + split.
      * intros Hret. injection Hret as <-. eauto.
      * intros (names' & Hn & _ & ->). injection Hn as <-. reflexivity.
Qed.

(** C3 (amended). The list [get_jars] returns is the environment
    entries, then the bridge's own required archive list in its fixed
    order, then the archives found by scanning the bundled-archive
    directory in listing order, then the tools archive: the required
    list comes immediately before the scanned archives, not after
    them.  And [get_jars] does return whenever the listing returns and
    the JDK lookup, where it is made (unfrozen Windows), does not
    raise. *)
Theorem required_before_bundled (h : Host) (p : Proc B) :
  (forall cp,
     snd (get_jars h p) = Returned cp ->
     exists names,
       os_listdir h (os_path_dirname h (prokaryote_file h)) = inr names /\
       cp = spec_env_entries h
              ++ javabridge_JARS h ++ spec_bundled h names ++ spec_tools h /\
       is_block (javabridge_JARS h ++ spec_bundled h names) cp = true) /\
  (forall names,
     os_listdir h (os_path_dirname h (prokaryote_file h)) = inr names ->
     (PyStr.startswith (sys_platform h) "win" && negb (sys_frozen h) = true ->
      exists answer, locate_find_jdk h = inr answer) ->
     exists cp, snd (get_jars h p) = Returned cp).
Proof.
  split.
  - intros cp Hret. apply get_jars_returned in Hret as (names & Hls & _ & ->).
    exists names. split; [exact Hls|]. split; [reflexivity|].
    unfold spec_classpath.
    rewrite (app_assoc (javabridge_JARS h)). apply is_block_app.
  - intros names Hls Hjdk. exists (spec_classpath h names).
    apply get_jars_returned. exists names.
    split; [exact Hls|]. split; [|reflexivity].
    now apply spec_jdk_failure_none.
Qed.

(** C5. When [CLASSPATH] is set to a value that splits into [n]
    segments, the list returned by [get_jars] begins with exactly those
    [n] segments in their original order, followed by the required and
    bundled archives, followed by at most one tools-archive entry,
    which is present only on non-frozen Windows when a JDK is found;
    and [get_jars] does return such a list whenever the directory
    listing returns and the JDK lookup, where it is made (unfrozen
    Windows), does not raise. *)
Theorem classpath_layout (h : Host) (p : Proc B) (value : string) :
  environ h !! "CLASSPATH" = Some value ->
  let segs := PyStr.split (os_pathsep h) value in
  let tools_ok (tools : list string) :=
    length tools <= 1 /\
    (tools = [] \/
     PyStr.startswith (sys_platform h) "win" = true /\
     sys_frozen h = false /\
     exists jdk, locate_find_jdk h = inr (Some jdk) /\
                 tools = [os_path_join h jdk ["lib"; "tools.jar"]]) in
  length segs = S (PyStr.count (os_pathsep h) value) /\
  PyStr.join (os_pathsep h) segs = value /\
  (forall names,
     os_listdir h (os_path_dirname h (prokaryote_file h)) = inr names ->
     (PyStr.startswith (sys_platform h) "win" && negb (sys_frozen h) = true ->
      exists answer, locate_find_jdk h = inr answer) ->
     exists tools,
       snd (get_jars h p)
         = Returned (segs ++ (javabridge_JARS h ++ spec_bundled h names) ++ tools) /\
       tools_ok tools) /\
  (forall cp,
     snd (get_jars h p) = Returned cp ->
     List.firstn (length segs) cp = segs /\
     exists names tools,
       os_listdir h (os_path_dirname h (prokaryote_file h)) = inr names /\
       List.skipn (length segs) cp
         = (javabridge_JARS h ++ spec_bundled h names) ++ tools /\
       tools_ok tools).
Proof.
  intros Hcp segs tools_ok.
  assert (Htools : tools_ok (spec_tools h)).
  { unfold tools_ok, spec_tools.
    destruct (PyStr.startswith (sys_platform h) "win"); simpl; [|auto].
    destruct (sys_frozen h); simpl; [auto|].
    destruct (locate_find_jdk h) as [e|[jdk|]]; simpl; [auto| |auto].
    split; [lia|]. right. eauto. }
  split; [apply split_length|]. split; [apply join_split|].
  assert (Hlayout : forall names,
            spec_classpath h names
              = segs ++ (javabridge_JARS h ++ spec_bundled h names)
                  ++ spec_tools h).
  { intros names. unfold spec_classpath, spec_env_entries.
    rewrite Hcp. fold segs. now rewrite <- !app_assoc. }
  split.
  - intros names Hls Hjdk. exists (spec_tools h). split; [|exact Htools].
    rewrite <- Hlayout. apply get_jars_returned. exists names.
    split; [exact Hls|]. split; [|reflexivity].
    now apply spec_jdk_failure_none.
  - intros cp Hret.
    apply get_jars_returned in Hret as (names & Hls & _ & ->).
    rewrite Hlayout. split.
    + rewrite List.firstn_app, Nat.sub_diag, List.firstn_all. simpl.
      now rewrite app_nil_r.
    + exists names, (spec_tools h). split; [exact Hls|].
      split; [|exact Htools].
      rewrite List.skipn_app, Nat.sub_diag, List.skipn_all. reflexivity.
Qed.

End AssemblerClaims.

(** C3 as stated fails: on the Linux host the returned list has the
    two archives of [javabridge.JARS] at positions 2 and 3 and the two
    scanned archives after them at positions 4 and 5, so the scanned
    archives followed by the required list is not a block of it. *)
Lemma bundled_not_before_required :
  snd (get_jars linux_host (cold_process no_faults))
    = Returned ["/opt/a.jar"; "/opt/b.jar";
                "/site/javabridge/jars/rhino-1.7R4.jar";
                "/site/javabridge/jars/runnablequeue.jar";
                "/site/prokaryote/bioformats.jar";
                "/site/prokaryote/Rhino.JAR"] /\
  javabridge_JARS linux_host
    = ["/site/javabridge/jars/rhino-1.7R4.jar";
       "/site/javabridge/jars/runnablequeue.jar"] /\
  ~ (exists names cp before after,
       os_listdir linux_host
         (os_path_dirname linux_host (prokaryote_file linux_host)) = inr names /\
       snd (get_jars linux_host (cold_process no_faults)) = Returned cp /\
       cp = before ++ spec_bundled linux_host names
              ++ javabridge_JARS linux_host ++ after).
Proof.
  split; [vm_compute; reflexivity|]. split; [reflexivity|].
  intros (names & cp & before & after & Hls & Hcp & Heq).
  vm_compute in Hls. injection Hls as <-.
  assert (Hblock : is_block (spec_bundled linux_host
                      ["__init__.py"; "bioformats.jar"; "README"; "Rhino.JAR"]
                      ++ javabridge_JARS linux_host) cp = true).
  { rewrite Heq, (app_assoc (spec_bundled linux_host _)). apply is_block_app. }
  vm_compute in Hcp. injection Hcp as <-.
  vm_compute in Hblock. discriminate.
Qed.

(** The amended C3 on the Linux host. *)
Lemma required_before_bundled_witness :
  exists cp,
    snd (get_jars linux_host (cold_process no_faults)) = Returned cp /\
    cp = spec_env_entries linux_host
           ++ javabridge_JARS linux_host
           ++ spec_bundled linux_host
                ["__init__.py"; "bioformats.jar"; "README"; "Rhino.JAR"]
           ++ spec_tools linux_host /\
    is_block (javabridge_JARS linux_host
                ++ spec_bundled linux_host
                     ["__init__.py"; "bioformats.jar"; "README"; "Rhino.JAR"])
             cp = true.
Proof.
  assert (Hls : os_listdir linux_host
                  (os_path_dirname linux_host (prokaryote_file linux_host))
                = inr ["__init__.py"; "bioformats.jar"; "README"; "Rhino.JAR"])
    by (vm_compute; reflexivity).
  assert (Hjdk : PyStr.startswith (sys_platform linux_host) "win"
                   && negb (sys_frozen linux_host) = true ->
                 exists answer, locate_find_jdk linux_host = inr answer)
    by (intros _; exists None; reflexivity).
  destruct (proj2 (required_before_bundled linux_host (cold_process no_faults))
              _ Hls Hjdk) as [cp Hret].
  exists cp. split; [exact Hret|].
  destruct (proj1 (required_before_bundled linux_host (cold_process no_faults))
              cp Hret) as (names & Hnames & Hcp & Hblock).
  rewrite Hls in Hnames. injection Hnames as <-.
  split; [exact Hcp | exact Hblock].
Defined.

(** C5 on the Linux host: two segments lead the list. *)
Lemma classpath_layout_witness :
  length (PyStr.split ":" "/opt/a.jar:/opt/b.jar") = 2 /\
  List.firstn 2 linux_classpath = ["/opt/a.jar"; "/opt/b.jar"] /\
  snd (get_jars linux_host (cold_process no_faults)) = Returned linux_classpath.
Proof.
  assert (Hcp : environ linux_host !! "CLASSPATH" = Some "/opt/a.jar:/opt/b.jar")
    by (vm_compute; reflexivity).
  assert (Hret : snd (get_jars linux_host (cold_process no_faults))
                 = Returned linux_classpath)
    by (vm_compute; reflexivity).
  destruct (classpath_layout linux_host (cold_process no_faults)
              "/opt/a.jar:/opt/b.jar" Hcp) as (Hlen & _ & _ & Hshape).
  destruct (Hshape linux_classpath Hret) as (Hfirst & _).
  split; [exact Hlen|]. split; [exact Hfirst | exact Hret].
Defined.

Ltac bridge_run :=
  cbv beta iota delta
    [bind ret LOGGER emit start_vm attach JClassWrapper cacheDirectoryListings
     kill_vm bridge_call set_JAVA_STARTED is_active];
  cbn [bridge JAVA_STARTED trace add_trace fst snd].

(** A failure recorded in a literal list of events is the one raised. *)
Ltac failed_call :=
  let Hin := fresh "Hin" in
  let Hf := fresh "Hf" in
  intros ? ? Hin Hf; simpl in Hin;
  repeat (destruct Hin as [<-|Hin]; [simpl in Hf; congruence|]);
  contradiction.

Lemma host_event_no_failure (ev : Event) :
  is_bridge_event ev = false -> failure_of ev = None.
Proof. now destruct ev. Qed.

Section Controller.
Context {B : Type} `{Bridge B}.

(** The boot sequence of lines 126-135. *)
Lemma boot_vm_run (tid : Tid) (args cp : list string) (h : Host) (q : Proc B) :
  exists evs,
    trace (fst (boot_vm tid args cp h q)) = trace q ++ evs /\
    start_vm_calls evs = [(args, cp)] /\
    count_events is_start_vm evs = 1 /\
    count_events is_inactive_answer evs = 0 /\
    (snd (boot_vm tid args cp h q) = Returned tt ->
       JAVA_STARTED (fst (boot_vm tid args cp h q)) = true /\
       evs = [EvStartVm args cp None; EvAttach tid None;
              EvJClassWrapper "loci.common.Location" None;
              EvCacheDirectoryListings true None; enabled_log]) /\
    (forall e, snd (boot_vm tid args cp h q) = Raises e ->
       JAVA_STARTED (fst (boot_vm tid args cp h q)) = JAVA_STARTED q) /\
    (forall ev e, In ev evs -> failure_of ev = Some e ->
       snd (boot_vm tid args cp h q) = Raises e).
Proof.
  unfold boot_vm. bridge_run.
  destruct (vm_start args cp (bridge q)) as [b1 [e1|]]; bridge_run;
    [ eexists; repeat split; try reflexivity; try discriminate; failed_call | ].
  destruct (vm_attach tid b1) as [b2 [e2|]]; bridge_run;
    [ rewrite <- ?app_assoc; eexists; repeat split; try reflexivity; try discriminate; failed_call | ].
  destruct (vm_class_wrapper "loci.common.Location" b2) as [b3 [e3|]]; bridge_run;
    [ rewrite <- ?app_assoc; eexists; repeat split; try reflexivity; try discriminate; failed_call | ].
  destruct (vm_cache_directory_listings true b3) as [b4 [e4|]]; bridge_run;
    [ rewrite <- ?app_assoc; eexists; repeat split; try reflexivity; try discriminate; failed_call | ].
  rewrite <- ?app_assoc; eexists; repeat split; try reflexivity;
    try discriminate; failed_call.
Qed.

Lemma start_java_warm (tid : Tid) (h : Host) (p : Proc B) :
  vm_is_active (bridge p) = true ->
  start_java tid h p = attach tid h (add_trace p [EvIsActive true]).
Proof. intros Ha. unfold start_java, is_active, bind. now rewrite Ha. Qed.

Lemma start_java_cold (tid : Tid) (h : Host) (p : Proc B) :
  vm_is_active (bridge p) = false ->
  exists evs, Forall (fun e => is_bridge_event e = false) evs /\
    start_java tid h p =
      match spec_startup h with
      | Returned s =>
          boot_vm tid (fst s) (snd s) h (add_trace p (EvIsActive false :: evs))
      | Raises e => (add_trace p (EvIsActive false :: evs), Raises e)
      end.
Proof.
  intros Ha. unfold start_java, is_active, bind. rewrite Ha.
  destruct (build_startup_run h (add_trace p [EvIsActive false]))
    as (evs & Hev & ->).
  rewrite add_trace_app. exists evs. split; [exact Hev|].
  now destruct (spec_startup h).
Qed.

Lemma attach_run (tid : Tid) (h : Host) (q : Proc B) :
  attach tid h q =
    ({| bridge := fst (vm_attach tid (bridge q));
        JAVA_STARTED := JAVA_STARTED q;
        trace := trace q ++ [EvAttach tid (snd (vm_attach tid (bridge q)))] |},
     match snd (vm_attach tid (bridge q)) with
     | None => Returned tt
     | Some e => Raises e
     end).
Proof. bridge_run. now destruct (vm_attach tid (bridge q)). Qed.

Lemma stop_java_run (h : Host) (p : Proc B) :
  stop_java h p =
    ({| bridge := fst (vm_kill (bridge p));
        JAVA_STARTED := JAVA_STARTED p;
        trace := trace p ++ [EvLog INFO "Shutting down Java Virtual Machine";
                             EvKillVm (snd (vm_kill (bridge p)))] |},
     match snd (vm_kill (bridge p)) with
     | None => Returned tt
     | Some e => Raises e
     end).
Proof.
  unfold stop_java. bridge_run. destruct (vm_kill (bridge p)); simpl.
  now rewrite <- app_assoc.
Qed.

(** What one call of [start_java] does to the flag and the trace. *)
Lemma start_java_flag (tid : Tid) (h : Host) (p : Proc B) :
  exists evs,
    trace (fst (start_java tid h p)) = trace p ++ evs /\
    (JAVA_STARTED (fst (start_java tid h p)) = JAVA_STARTED p \/
     (vm_is_active (bridge p) = false /\
      snd (start_java tid h p) = Returned tt /\
      JAVA_STARTED (fst (start_java tid h p)) = true /\
      exists pre args cp,
        evs = pre ++ [EvStartVm args cp None; EvAttach tid None;
                      EvJClassWrapper "loci.common.Location" None;
                      EvCacheDirectoryListings true None; enabled_log])) /\
    (forall e, snd (start_java tid h p) = Raises e ->
       JAVA_STARTED (fst (start_java tid h p)) = JAVA_STARTED p) /\
    (vm_is_active (bridge p) = false ->
     snd (start_java tid h p) = Returned tt ->
     JAVA_STARTED (fst (start_java tid h p)) = true) /\
    (forall ev e, In ev evs -> failure_of ev = Some e ->
       snd (start_java tid h p) = Raises e).
Proof.
  destruct (vm_is_active (bridge p)) eqn:Ha.
  - rewrite (start_java_warm tid h p Ha), attach_run; simpl.
    rewrite <- app_assoc. eexists; repeat split; eauto; try discriminate.
    intros ev e [<-|[<-|[]]]; simpl; [discriminate|]. now intros ->.
  - destruct (start_java_cold tid h p Ha) as (evs & Hev & ->).
    assert (Hhost : forall ev e, In ev (EvIsActive false :: evs) ->
                                 failure_of ev <> Some e).
    { intros ev e [<-|Hin]; [discriminate|].
      rewrite Forall_forall in Hev. apply list_elem_of_In in Hin.
      rewrite (host_event_no_failure ev (Hev ev Hin)). discriminate. }
    destruct (spec_startup h) as [[args cp]|e]; simpl.
    + destruct (boot_vm_run tid args cp h (add_trace p (EvIsActive false :: evs)))
        as (bevs & Htr & _ & _ & _ & Hok & Herr & Hprop).
      exists ((EvIsActive false :: evs) ++ bevs). split.
      { rewrite Htr. simpl. now rewrite <- app_assoc. }
      split; [|split; [|split]].
      * destruct (snd (boot_vm tid args cp h _)) as [[]|e] eqn:Hr.
        -- right. destruct (Hok eq_refl) as [Hflag ->].
           repeat split; auto. eauto.
        -- left. apply (Herr e eq_refl).
      * intros e He. apply (Herr e He).
      * intros _ Hr. apply (Hok Hr).
      * intros ev e Hin Hf. apply in_app_or in Hin as [Hin|Hin].
        -- now apply Hhost in Hf.
        -- eauto.
    + eexists; repeat split; eauto; try discriminate.
      intros ev e' Hin Hf. now apply Hhost in Hf.
Qed.

(** The invariant of the started flag over any history of calls. *)
Lemma started_invariant (calls : list (Host * Call)) (p : Proc B) :
  (JAVA_STARTED p = true ->
   Exists (fun e => is_started_ok e = true) (trace p)) ->
  JAVA_STARTED (run_calls calls p) = true ->
  Exists (fun e => is_started_ok e = true) (trace (run_calls calls p)).
Proof.
  revert p. induction calls as [|[h c] rest IH]; intros p Hinv; simpl; [exact Hinv|].
  apply IH. destruct c as [tid|]; simpl.
  - destruct (start_java_flag tid h p) as (evs & -> & Hflag & _).
    intros Hset. apply Exists_app.
    destruct Hflag as [Hsame | (_ & _ & _ & pre & args & cp & ->)].
    + left. apply Hinv. congruence.
    + right. apply Exists_app. right. now constructor.
  - rewrite stop_java_run; simpl. intros Hset. apply Exists_app. left. auto.
Qed.

(** The boot sequence of lines 126-135 against the bridge's own
    operations. *)
Lemma boot_vm_bridge (tid : Tid) (args cp : list string) (h : Host) (q : Proc B) :
  bridge (fst (boot_vm tid args cp h q)) = fst (boot_bridge tid args cp (bridge q)) /\
  snd (boot_vm tid args cp h q)
    = match snd (boot_bridge tid args cp (bridge q)) with
      | None => Returned tt
      | Some e => Raises e
      end /\
  JAVA_STARTED (fst (boot_vm tid args cp h q))
    = match snd (boot_bridge tid args cp (bridge q)) with
      | None => true
      | Some _ => JAVA_STARTED q
      end.
Proof.
  unfold boot_vm, boot_bridge. bridge_run.
  destruct (vm_start args cp (bridge q)) as [b1 [e1|]]; bridge_run;
    [repeat split|].
  destruct (vm_attach tid b1) as [b2 [e2|]]; bridge_run; [repeat split|].
  destruct (vm_class_wrapper "loci.common.Location" b2) as [b3 [e3|]];
    bridge_run; [repeat split|].
  destruct (vm_cache_directory_listings true b3) as [b4 [e4|]]; bridge_run;
    repeat split.
Qed.

(** One call of [start_java] against the bridge's own operations. *)
Lemma start_java_bridge (tid : Tid) (h : Host) (p : Proc B) :
  let outcome (failure : option Exn) :=
    match failure with
    | None => Returned tt
    | Some e => Raises e
    end in
  if vm_is_active (bridge p) then
    bridge (fst (start_java tid h p)) = fst (vm_attach tid (bridge p)) /\
    snd (start_java tid h p) = outcome (snd (vm_attach tid (bridge p))) /\
    JAVA_STARTED (fst (start_java tid h p)) = JAVA_STARTED p
  else
    match spec_startup h with
    | Returned s =>
        bridge (fst (start_java tid h p))
          = fst (boot_bridge tid (fst s) (snd s) (bridge p)) /\
        snd (start_java tid h p)
          = outcome (snd (boot_bridge tid (fst s) (snd s) (bridge p))) /\
        JAVA_STARTED (fst (start_java tid h p))
          = match snd (boot_bridge tid (fst s) (snd s) (bridge p)) with
            | None => true
            | Some _ => JAVA_STARTED p
            end
    | Raises e =>
        bridge (fst (start_java tid h p)) = bridge p /\
        snd (start_java tid h p) = Raises e /\
        JAVA_STARTED (fst (start_java tid h p)) = JAVA_STARTED p
    end.
Proof.
  intros outcome. destruct (vm_is_active (bridge p)) eqn:Ha.
  - rewrite (start_java_warm tid h p Ha), attach_run. repeat split.
  - destruct (start_java_cold tid h p Ha) as (evs & _ & ->).
    destruct (spec_startup h) as [s|e]; [|repeat split].
    apply (boot_vm_bridge tid (fst s) (snd s) h
             (add_trace p (EvIsActive false :: evs))).
Qed.

(** A cold call, bridge call by bridge call. *)
Lemma cold_start_calls (h : Host) (tid : Tid) (p : Proc B)
    (args cp : list string) :
  vm_is_active (bridge p) = false ->
  snd (build_startup h p) = Returned (args, cp) ->
  let started := vm_start args cp (bridge p) in
  let attached := vm_attach tid (fst started) in
  let wrapped := vm_class_wrapper "loci.common.Location" (fst attached) in
  let cached := vm_cache_directory_listings true (fst wrapped) in
  let failed (e : Exn) (b : B) :=
    snd (start_java tid h p) = Raises e /\
    JAVA_STARTED (fst (start_java tid h p)) = JAVA_STARTED p /\
    bridge (fst (start_java tid h p)) = b in
  match snd started, snd attached, snd wrapped, snd cached with
  | Some e, _, _, _ => failed e (fst started)
  | None, Some e, _, _ => failed e (fst attached)
  | None, None, Some e, _ => failed e (fst wrapped)
  | None, None, None, Some e => failed e (fst cached)
  | None, None, None, None =>
      snd (start_java tid h p) = Returned tt /\
      JAVA_STARTED (fst (start_java tid h p)) = true /\
      bridge (fst (start_java tid h p)) = fst cached
  end.
Proof.
  intros Ha Hs. rewrite build_startup_result in Hs.
  pose proof (start_java_bridge tid h p) as Hrun. cbv zeta in Hrun.
  rewrite Ha, Hs in Hrun. cbn [fst snd] in Hrun. unfold boot_bridge in Hrun.
  cbv zeta.
  destruct (vm_start args cp (bridge p)) as [b1 [e1|]]; cbn [fst snd] in *;
    [tauto|].
  destruct (vm_attach tid b1) as [b2 [e2|]]; cbn [fst snd] in *; [tauto|].
  destruct (vm_class_wrapper "loci.common.Location" b2) as [b3 [e3|]];
    cbn [fst snd] in *; [tauto|].
  destruct (vm_cache_directory_listings true b3) as [b4 [e4|]];
    cbn [fst snd] in *; tauto.
Qed.

(** A call that sets the flag is a cold call all of whose bridge calls
    returned. *)
Lemma flag_set_by_boot (h : Host) (tid : Tid) (p : Proc B) :
  JAVA_STARTED p = false ->
  JAVA_STARTED (fst (start_java tid h p)) = true ->
  vm_is_active (bridge p) = false /\
  exists args cp,
    snd (build_startup h p) = Returned (args, cp) /\
    let started := vm_start args cp (bridge p) in
    let attached := vm_attach tid (fst started) in
    let wrapped := vm_class_wrapper "loci.common.Location" (fst attached) in
    let cached := vm_cache_directory_listings true (fst wrapped) in
    snd started = None /\ snd attached = None /\
    snd wrapped = None /\ snd cached = None /\
    bridge (fst (start_java tid h p)) = fst cached.
Proof.
  intros Hoff Hon.
  pose proof (start_java_bridge tid h p) as Hrun. cbv zeta in Hrun.
  destruct (vm_is_active (bridge p)) eqn:Ha.
  { destruct Hrun as (_ & _ & Hflag). congruence. }
  split; [reflexivity|].
  rewrite build_startup_result.
  destruct (spec_startup h) as [[args cp]|e];
    [|destruct Hrun as (_ & _ & Hflag); congruence].
  exists args, cp. split; [reflexivity|].
  cbn [fst snd] in Hrun. unfold boot_bridge in Hrun. cbv zeta.
  destruct Hrun as (Hb & _ & Hflag). rewrite Hon in Hflag.
  destruct (vm_start args cp (bridge p)) as [b1 [e1|]]; cbn [fst snd] in *;
    [congruence|].
  destruct (vm_attach tid b1) as [b2 [e2|]]; cbn [fst snd] in *; [congruence|].
  destruct (vm_class_wrapper "loci.common.Location" b2) as [b3 [e3|]];
    cbn [fst snd] in *; [congruence|].
  destruct (vm_cache_directory_listings true b3) as [b4 [e4|]];
    cbn [fst snd] in *; [congruence|].
  repeat split. exact Hb.
Qed.

(** Over a history of calls the flag is set by one of them. *)
Lemma started_history (calls : list (Host * Call)) (p : Proc B) :
  JAVA_STARTED (run_calls calls p) = true ->
  JAVA_STARTED p = true \/
  exists pre h tid post,
    calls = pre ++ (h, CallStart tid) :: post /\
    JAVA_STARTED (run_calls pre p) = false /\
    JAVA_STARTED (fst (start_java tid h (run_calls pre p))) = true.
Proof.
  revert p. induction calls as [|[h c] rest IH]; intros p; cbn [run_calls].
  - auto.
  - intros Hon. destruct (JAVA_STARTED p) eqn:Hp; [now left|right].
    destruct (IH _ Hon) as [Hset|(pre & h' & tid & post & -> & Hoff & Hnew)].
    + destruct c as [tid|].
      * exists [], h, tid, rest. repeat split; assumption.
      * cbn [run_call] in Hset. rewrite stop_java_run in Hset.
        cbn in Hset. congruence.
    + exists ((h, c) :: pre), h', tid, post. repeat split; assumption.
Qed.

(** C1. [JAVA_STARTED] becomes true only in a call of [start_java]
    that found the bridge inactive and returned, and only after the
    bridge start, the attach of the calling thread and the directory
    caching call have all returned without failure, in that order; a
    bridge call that fails makes [start_java] raise that failure, and
    a call that raises leaves the flag as it was; a cold start that
    returns has set it. Over any history of calls since import, the
    flag is true only if a bridge start has returned without failure.

    The same against the bridge's own operations, not only the trace:
    on the cold path the bridge is handed [start_vm], [attach],
    [JClassWrapper] and [cacheDirectoryListings] in this order, each on
    the bridge the call before left; the first of them that raises
    makes [start_java] raise the same exception with the flag as it
    was, and the flag is set exactly when all four returned; and over
    any history of calls since import a true flag goes back to a call
    of [start_java] at which the bridge was inactive and all four
    operations, the start first, returned without failure. *)
Theorem started_only_after_successful_start :
  (forall (h : Host) (tid : Tid) (p : Proc B),
     JAVA_STARTED p = false ->
     JAVA_STARTED (fst (start_java tid h p)) = true ->
     vm_is_active (bridge p) = false /\
     snd (start_java tid h p) = Returned tt /\
     exists pre args cp,
       events_of (start_java tid) h p =
         pre ++ [EvStartVm args cp None; EvAttach tid None;
                 EvJClassWrapper "loci.common.Location" None;
                 EvCacheDirectoryListings true None; enabled_log]) /\
  (forall (h : Host) (tid : Tid) (p : Proc B) (ev : Event) (e : Exn),
     In ev (events_of (start_java tid) h p) ->
     failure_of ev = Some e ->
     snd (start_java tid h p) = Raises e /\
     JAVA_STARTED (fst (start_java tid h p)) = JAVA_STARTED p) /\
  (forall (h : Host) (tid : Tid) (p : Proc B) (e : Exn),
     snd (start_java tid h p) = Raises e ->
     JAVA_STARTED (fst (start_java tid h p)) = JAVA_STARTED p) /\
  (forall (h : Host) (tid : Tid) (p : Proc B),
     vm_is_active (bridge p) = false ->
     snd (start_java tid h p) = Returned tt ->
     JAVA_STARTED (fst (start_java tid h p)) = true) /\
  (forall (b : B) (calls : list (Host * Call)),
     JAVA_STARTED (run_calls calls (import_module b)) = true ->
     Exists (fun e => is_started_ok e = true)
            (trace (run_calls calls (import_module b)))) /\
  (forall (h : Host) (tid : Tid) (p : Proc B) (args cp : list string),
     vm_is_active (bridge p) = false ->
     snd (build_startup h p) = Returned (args, cp) ->
     let started := vm_start args cp (bridge p) in
     let attached := vm_attach tid (fst started) in
     let wrapped := vm_class_wrapper "loci.common.Location" (fst attached) in
     let cached := vm_cache_directory_listings true (fst wrapped) in
     let failed (e : Exn) (b : B) :=
       snd (start_java tid h p) = Raises e /\
       JAVA_STARTED (fst (start_java tid h p)) = JAVA_STARTED p /\
       bridge (fst (start_java tid h p)) = b in
     match snd started, snd attached, snd wrapped, snd cached with
     | Some e, _, _, _ => failed e (fst started)
     | None, Some e, _, _ => failed e (fst attached)
     | None, None, Some e, _ => failed e (fst wrapped)
     | None, None, None, Some e => failed e (fst cached)
     | None, None, None, None =>
         snd (start_java tid h p) = Returned tt /\
         JAVA_STARTED (fst (start_java tid h p)) = true /\
         bridge (fst (start_java tid h p)) = fst cached
     end) /\
  (forall (h : Host) (tid : Tid) (p : Proc B),
     JAVA_STARTED p = false ->
     JAVA_STARTED (fst (start_java tid h p)) = true ->
     vm_is_active (bridge p) = false /\
     exists args cp,
       snd (build_startup h p) = Returned (args, cp) /\
       let started := vm_start args cp (bridge p) in
       let attached := vm_attach tid (fst started) in
       let wrapped := vm_class_wrapper "loci.common.Location" (fst attached) in
       let cached := vm_cache_directory_listings true (fst wrapped) in
       snd started = None /\ snd attached = None /\
       snd wrapped = None /\ snd cached = None /\
       bridge (fst (start_java tid h p)) = fst cached) /\
  (forall (b : B) (calls : list (Host * Call)),
     JAVA_STARTED (run_calls calls (import_module b)) = true ->
     exists pre h tid post args cp,
       calls = pre ++ (h, CallStart tid) :: post /\
       let q := run_calls pre (import_module b) in
       vm_is_active (bridge q) = false /\
       snd (build_startup h q) = Returned (args, cp) /\
       let started := vm_start args cp (bridge q) in
       let attached := vm_attach tid (fst started) in
       let wrapped := vm_class_wrapper "loci.common.Location" (fst attached) in
       let cached := vm_cache_directory_listings true (fst wrapped) in
       snd started = None /\ snd attached = None /\
       snd wrapped = None /\ snd cached = None).
Proof.
  split; [|split; [|split; [|split; [|split; [|split; [|split]]]]]].
  - intros h tid p Hoff Hon.
    destruct (start_java_flag tid h p) as (evs & Htr & Hflag & _).
    destruct Hflag as [Hsame | (Ha & Hr & _ & pre & args & cp & ->)];
      [congruence|].
    repeat split; auto. exists pre, args, cp.
    unfold events_of. now apply new_events_app.
  - intros h tid p ev e Hin Hf.
    destruct (start_java_flag tid h p) as (evs & Htr & _ & Herr & _ & Hprop).
    unfold events_of in Hin. rewrite (new_events_app _ _ _ Htr) in Hin.
    pose proof (Hprop ev e Hin Hf) as Hr. split; [exact Hr|]. eauto.
  - intros h tid p e He.
    destruct (start_java_flag tid h p) as (evs & _ & _ & Herr & _). eauto.
  - intros h tid p Ha Hr.
    destruct (start_java_flag tid h p) as (evs & _ & _ & _ & Hok & _). eauto.
  - intros b calls. apply started_invariant. discriminate.
  - intros h tid p args cp. apply cold_start_calls.
  - intros h tid p. apply flag_set_by_boot.
  - intros b calls Hon.
    destruct (started_history calls (import_module b) Hon)
      as [Hc|(pre & h & tid & post & Hcalls & Hoff & Hnew)];
      [discriminate Hc|].
    destruct (flag_set_by_boot h tid _ Hoff Hnew)
      as (Ha & args & cp & Hs & Hboot).
    exists pre, h, tid, post, args, cp. split; [exact Hcalls|].
    cbv zeta in Hboot |- *.
    destruct Hboot as (H1 & H2 & H3 & H4 & _). repeat split; assumption.
Qed.

End Controller.

(** A cold start on the Linux host sets the flag after the five
    successful steps; with a failing attach the call raises and the flag
    stays false; and so it does when the bridge's caching operation is
    the one that fails. *)
Lemma started_only_after_successful_start_witness :
  (JAVA_STARTED (cold_process no_faults) = false /\
   JAVA_STARTED (fst (start_java 7 linux_host (cold_process no_faults))) = true /\
   snd (start_java 7 linux_host (cold_process no_faults)) = Returned tt) /\
  (let broken :=
     {| start_fails := false; attach_fails := true; wrapper_fails := false;
        cache_fails := false; kill_fails := false |} in
   In (EvAttach 7 (Some (Raised "JavaError")))
      (events_of (start_java 7) linux_host (cold_process broken)) /\
   snd (start_java 7 linux_host (cold_process broken)) = Raises (Raised "JavaError") /\
   JAVA_STARTED (fst (start_java 7 linux_host (cold_process broken))) = false) /\
  (let uncached :=
     {| start_fails := false; attach_fails := false; wrapper_fails := false;
        cache_fails := true; kill_fails := false |} in
   snd (start_java 7 linux_host (cold_process uncached))
     = Raises (Raised "JavaException") /\
   JAVA_STARTED (fst (start_java 7 linux_host (cold_process uncached))) = false).
Proof.
  destruct (@started_only_after_successful_start MockVm mock_bridge)
    as (Hset & Hfail & _ & _ & _ & Hcalls & _).
  split; [|split].
  - split; [reflexivity|]. split; [vm_compute; reflexivity|].
    apply (Hset linux_host 7 (cold_process no_faults)); vm_compute; reflexivity.
  - cbv zeta.
    assert (Hin : In (EvAttach 7 (Some (Raised "JavaError")))
                     (events_of (start_java 7) linux_host
                        (cold_process
                           {| start_fails := false; attach_fails := true;
                              wrapper_fails := false; cache_fails := false;
                              kill_fails := false |}))).
    { vm_compute. do 15 right. left. reflexivity. }
    split; [exact Hin|].
    exact (Hfail linux_host 7 _ _ (Raised "JavaError") Hin eq_refl).
  - cbv zeta.
    assert (Hcold : vm_is_active
                      (bridge (cold_process
                                 {| start_fails := false; attach_fails := false;
                                    wrapper_fails := false; cache_fails := true;
                                    kill_fails := false |})) = false)
      by reflexivity.
    assert (Hs : snd (build_startup linux_host
                        (cold_process
                           {| start_fails := false; attach_fails := false;
                              wrapper_fails := false; cache_fails := true;
                              kill_fails := false |}))
                 = Returned (linux_args, linux_classpath))
      by (vm_compute; reflexivity).
    pose proof (Hcalls linux_host 7 _ linux_args linux_classpath Hcold Hs)
      as (Hraise & Hflag & _).
    split; [exact Hraise | exact Hflag].
Defined.

(** ** The lifecycle controller: arguments, warm and cold paths *)

Lemma replace_no_backslash (s : string) :
  PyStr.mem "\" (PyStr.replace "\" "/" s) = false.
Proof.
  induction s as [|c s IH]; simpl; [reflexivity|].
  rewrite IH, orb_false_r.
  destruct (Ascii.eqb_spec c "\") as [->|Hc]; [reflexivity|].
  now apply Ascii.eqb_neq.
Qed.

Lemma mem_append (c : ascii) (a b : string) :
  PyStr.mem c (a +:+ b) = PyStr.mem c a || PyStr.mem c b.
Proof.
  induction a as [|x a IH]; simpl; [reflexivity|]. now rewrite IH, orb_assoc.
Qed.

Lemma windows_rewrite_no_backslash (path : string) :
  PyStr.mem "\" (spec_windows_rewrite path) = false.
Proof.
  unfold spec_windows_rewrite.
  pose proof (replace_no_backslash path) as Hno.
  destruct (PyStr.replace "\" "/" path) as [|d [|c rest]]; try exact Hno.
  simpl in Hno. apply orb_false_iff in Hno as (Hd & Hrest).
  apply orb_false_iff in Hrest as (Hc & Hrest).
  destruct (Ascii.eqb_spec c ":") as [->|Hne].
  - rewrite mem_append.
    change (String d ("$" +:+ rest)) with (String d "$" +:+ rest).
    rewrite mem_append.
    change (PyStr.mem "\" (String d "$")) with (Ascii.eqb d "\" || false).
    now rewrite Hd, Hrest.
  - assert (Hsame : PyStr.mem "\" (String d (String c rest)) = false)
      by (simpl; now rewrite Hd, Hc, Hrest).
    destruct c as [[] [] [] [] [] [] [] []]; try exact Hsame; congruence.
Qed.

Section ControllerClaims.
Context {B : Type} `{Bridge B}.

(** The events of a call of [start_java], by the three ways it can go. *)
Lemma start_java_events (tid : Tid) (h : Host) (p : Proc B) :
  (vm_is_active (bridge p) = true /\
   events_of (start_java tid) h p
     = [EvIsActive true; EvAttach tid (snd (vm_attach tid (bridge p)))]) \/
  (vm_is_active (bridge p) = false /\
   exists evs, Forall (fun e => is_bridge_event e = false) evs /\
     ((exists e, spec_startup h = Raises e /\
                 snd (start_java tid h p) = Raises e /\
                 events_of (start_java tid) h p = EvIsActive false :: evs) \/
      (exists s bevs, spec_startup h = Returned s /\
         events_of (start_java tid) h p = EvIsActive false :: evs ++ bevs /\
         start_vm_calls bevs = [s] /\
         count_events is_start_vm bevs = 1 /\
         (snd (start_java tid h p) = Returned tt ->
          bevs = [EvStartVm (fst s) (snd s) None; EvAttach tid None;
                  EvJClassWrapper "loci.common.Location" None;
                  EvCacheDirectoryListings true None; enabled_log])))).
Proof.
  destruct (vm_is_active (bridge p)) eqn:Ha; [left|right]; split; try reflexivity.
  - unfold events_of. rewrite (start_java_warm tid h p Ha), attach_run.
    apply new_events_app. simpl. now rewrite <- app_assoc.
  - destruct (start_java_cold tid h p Ha) as (evs & Hev & Hrun).
    exists evs. split; [exact Hev|]. unfold events_of. rewrite Hrun.
    destruct (spec_startup h) as [s|e]; [right|left].
    + destruct (boot_vm_run tid (fst s) (snd s) h
                  (add_trace p (EvIsActive false :: evs)))
        as (bevs & Htr & Hcalls & Hcount & _ & Hok & _).
      exists s, bevs. split; [reflexivity|]. split.
      { apply new_events_app. rewrite Htr. simpl. now rewrite <- app_assoc. }
      split; [now destruct s|]. split; [exact Hcount|].
      intros Hr. now apply Hok.
    + exists e. repeat split. now apply new_events_app.
Qed.

(** The calls of [javabridge.start_vm] made by one call of [start_java]. *)
Lemma start_java_calls (tid : Tid) (h : Host) (p : Proc B) :
  start_vm_calls (events_of (start_java tid) h p) =
    if vm_is_active (bridge p) then []
    else match spec_startup h with
         | Returned s => [s]
         | Raises _ => []
         end.
Proof.
  destruct (start_java_events tid h p)
    as [(-> & ->) | (-> & evs & Hev & [(e & -> & _ & ->) | (s & bevs & -> & -> & Hc & _)])].
  - reflexivity.
  - simpl. now apply start_vm_calls_host.
  - simpl. now rewrite start_vm_calls_app, (start_vm_calls_host evs Hev), Hc.
Qed.

Lemma find_logback_xml_result (h : Host) (p : Proc B) :
  snd (find_logback_xml h p) = Returned (spec_located_logback h).
Proof. now destruct (find_logback_xml_run h p) as (evs & _ & ->). Qed.

(** The startup arguments of a start call, flag by flag. *)
Lemma start_call_args (tid : Tid) (h : Host) (p : Proc B)
    (args cp : list string) :
  In (args, cp) (start_vm_calls (events_of (start_java tid) h p)) ->
  vm_is_active (bridge p) = false /\
  exists logback names,
    spec_logback_args h = Returned logback /\
    os_listdir h (spec_bundle_dir h) = inr names /\
    args = [spec_loader_flag; spec_prefs_flag] ++ logback
             ++ spec_headless_args h ++ spec_debug_args h /\
    cp = spec_classpath h names.
Proof.
  rewrite start_java_calls.
  destruct (vm_is_active (bridge p)); [intros []|].
  unfold spec_startup.
  destruct (spec_logback_args h) as [logback|e]; [|intros []].
  destruct (os_listdir h (spec_bundle_dir h)) as [e|names]; [intros []|].
  destruct (spec_jdk_failure h) as [e|]; [intros []|].
  intros [Heq|[]]. injection Heq as <- <-. split; [reflexivity|].
  exists logback, names. repeat split.
Qed.

(** C8. With [CP_JDWP_PORT] set to "5005", every argument list that
    [start_java] hands to the bridge's start operation contains the
    debug-agent argument, which has the substring
    address=127.0.0.1:5005,server=y,suspend=n; with the variable unset
    no argument is a debug-agent flag; and a cold start whose assembly
    returns does make the start call. *)
Theorem debug_agent_flag :
  (forall (h : Host) (tid : Tid) (p : Proc B) (args cp : list string),
     environ h !! "CP_JDWP_PORT" = Some "5005" ->
     In (args, cp) (start_vm_calls (events_of (start_java tid) h p)) ->
     exists arg,
       In arg args /\
       arg = "-agentlib:jdwp=transport=dt_socket,address=127.0.0.1:5005,server=y,suspend=n" /\
       PyStr.contains "address=127.0.0.1:5005,server=y,suspend=n" arg = true) /\
  (forall (h : Host) (tid : Tid) (p : Proc B) (args cp : list string),
     environ h !! "CP_JDWP_PORT" = None ->
     In (args, cp) (start_vm_calls (events_of (start_java tid) h p)) ->
     Forall (fun arg => is_debug_agent_flag arg = false) args) /\
  (forall (h : Host) (tid : Tid) (p : Proc B) (s : list string * list string),
     vm_is_active (bridge p) = false ->
     snd (build_startup h p) = Returned s ->
     start_vm_calls (events_of (start_java tid) h p) = [s]).
Proof.
  split; [|split].
  - intros h tid p args cp Hport Hin.
    apply start_call_args in Hin as (_ & logback & names & _ & _ & -> & _).
    eexists. split; [|split; [reflexivity|vm_compute; reflexivity]].
    unfold spec_debug_args. rewrite Hport.
    apply in_or_app; right. apply in_or_app; right. apply in_or_app; right.
    now left.
  - intros h tid p args cp Hport Hin.
    apply start_call_args in Hin as (_ & logback & names & Hlog & _ & -> & _).
    unfold spec_debug_args. rewrite Hport, app_nil_r.
    apply Forall_app. split; [repeat constructor|].
    apply Forall_app. split.
    + unfold spec_logback_args in Hlog.
      destruct (spec_located_logback h) as [path|].
      * destruct (PyStr.startswith (sys_platform h) "win");
          [destruct (2 <=? String.length path)%nat; [|discriminate]|];
          injection Hlog as <-; repeat constructor.
      * injection Hlog as <-. constructor.
    + unfold spec_headless_args.
      destruct (preferences_get_awt_headless h); repeat constructor.
  - intros h tid p s Ha Hs. rewrite build_startup_result in Hs.
    now rewrite start_java_calls, Ha, Hs.
Qed.


(** C4 (amended). The Windows path rewriting is applied only to the
    logging-config path and only on Windows, whether or not the binary
    is frozen: the logging-config flag carries the rewritten path when
    [sys.platform] starts with "win" and the located path verbatim
    otherwise, while the other flags and the classpath entries are
    passed as assembled. *)
Theorem logback_rewrite_on_windows_only (h : Host) (tid : Tid) (p : Proc B)
    (args cp : list string) :
  In (args, cp) (start_vm_calls (events_of (start_java tid) h p)) ->
  exists located names,
    snd (find_logback_xml h p) = Returned located /\
    os_listdir h (os_path_dirname h (prokaryote_file h)) = inr names /\
    args = [spec_loader_flag; spec_prefs_flag]
             ++ match located with
                | Some path =>
                    ["-Dlogback.configurationFile="
                       +:+ (if PyStr.startswith (sys_platform h) "win"
                            then spec_windows_rewrite path else path)]
                | None => []
                end
             ++ spec_headless_args h ++ spec_debug_args h /\
    cp = spec_env_entries h
           ++ javabridge_JARS h ++ spec_bundled h names ++ spec_tools h.
Proof.
  intros Hin.
  apply start_call_args in Hin as (_ & logback & names & Hlog & Hls & -> & ->).
  exists (spec_located_logback h), names.
  split; [apply find_logback_xml_result|]. split; [exact Hls|].
  split; [|reflexivity]. f_equal. f_equal.
  unfold spec_logback_args in Hlog.
  destruct (spec_located_logback h) as [path|]; [|congruence].
  destruct (PyStr.startswith (sys_platform h) "win"); [|congruence].
  destruct (2 <=? String.length path)%nat; congruence.
Qed.

(** C6. On the Windows branch [C:\x\logback.xml] becomes exactly
    [//localhost/C$/x/logback.xml]; in general backslashes become
    forward slashes and a leading drive prefix [X:] becomes
    [//localhost/X$]; a path without a colon in second place only has
    its backslashes replaced; and on a Windows host the rewritten path
    is what the logging-config flag of the start call carries. *)
Theorem windows_logback_rewrite :
  (forall (h : Host) (q : Proc B),
     windows_logback_path "C:\x\logback.xml" h q
       = (q, Returned "//localhost/C$/x/logback.xml")) /\
  (forall (d : ascii) (rest : string) (h : Host) (q : Proc B),
     d <> "\"%char ->
     windows_logback_path (String d (String ":" rest)) h q
       = (q, Returned ("//localhost/" +:+ String d ("$" +:+ PyStr.replace "\" "/" rest)))) /\
  (forall (path : string) (c : ascii) (h : Host) (q : Proc B),
     String.get 1 path = Some c -> c <> ":"%char ->
     windows_logback_path path h q = (q, Returned (PyStr.replace "\" "/" path))) /\
  (forall (path : string) (h : Host) (q : Proc B) (path' : string),
     windows_logback_path path h q = (q, Returned path') ->
     PyStr.mem "\" path' = false) /\
  (forall (h : Host) (tid : Tid) (p : Proc B) (path : string)
          (args cp : list string),
     PyStr.startswith (sys_platform h) "win" = true ->
     snd (find_logback_xml h p) = Returned (Some path) ->
     In (args, cp) (start_vm_calls (events_of (start_java tid) h p)) ->
     exists path',
       windows_logback_path path h p = (p, Returned path') /\
       In ("-Dlogback.configurationFile=" +:+ path') args).
Proof.
  split; [|split; [|split; [|split]]].
  - intros h q. now rewrite windows_logback_path_run.
  - intros d rest h q Hd. rewrite windows_logback_path_run. simpl.
    unfold spec_windows_rewrite. simpl.
    destruct (Ascii.eqb_spec d "\"); [contradiction|reflexivity].
  - intros path c h q Hget Hc. rewrite windows_logback_path_run.
    destruct path as [|c0 [|c1 rest]]; simpl in Hget; try discriminate.
    injection Hget as ->. simpl. unfold spec_windows_rewrite. simpl.
    destruct (Ascii.eqb_spec c "\") as [->|Hb]; [reflexivity|].
    destruct c as [[] [] [] [] [] [] [] []]; try reflexivity; congruence.
  - intros path h q path'. rewrite windows_logback_path_run.
    destruct (2 <=? String.length path)%nat; [|discriminate].
    intros Heq. injection Heq as <-. apply windows_rewrite_no_backslash.
  - intros h tid p path args cp Hwin Hfound Hin.
    apply start_call_args in Hin as (_ & logback & names & Hlog & _ & -> & _).
    rewrite find_logback_xml_result in Hfound. injection Hfound as Hloc.
    unfold spec_logback_args in Hlog. rewrite Hloc, Hwin in Hlog.
    rewrite windows_logback_path_run.
    destruct (2 <=? String.length path)%nat; [|discriminate].
    injection Hlog as <-. eexists. split; [reflexivity|].
    apply in_or_app; right. now left.
Qed.

(** C9. Whatever the state of the process, [stop_java] logs and calls
    the bridge's kill operation exactly once, and leaves [JAVA_STARTED]
    as it was. *)
Theorem stop_kills_once_keeps_flag (h : Host) (p : Proc B) :
  events_of stop_java h p
    = [EvLog INFO "Shutting down Java Virtual Machine";
       EvKillVm (snd (vm_kill (bridge p)))] /\
  count_events is_kill_vm (events_of stop_java h p) = 1 /\
  bridge (fst (stop_java h p)) = fst (vm_kill (bridge p)) /\
  JAVA_STARTED (fst (stop_java h p)) = JAVA_STARTED p.
Proof.
  assert (Hev : events_of stop_java h p
                = [EvLog INFO "Shutting down Java Virtual Machine";
                   EvKillVm (snd (vm_kill (bridge p)))]).
  { unfold events_of. rewrite stop_java_run. now apply new_events_app. }
  rewrite Hev, stop_java_run. repeat split.
Qed.

(** C10. When the bridge reports active at entry, [start_java] only
    asks the bridge and attaches the calling thread: no environment
    variable, preference or file is read, no classpath is assembled,
    the start operation is not called, the outcome is that of the
    attach and does not depend on the host, and [JAVA_STARTED] is
    unchanged. *)
Theorem warm_start_only_attaches (h : Host) (tid : Tid) (p : Proc B) :
  vm_is_active (bridge p) = true ->
  events_of (start_java tid) h p
    = [EvIsActive true; EvAttach tid (snd (vm_attach tid (bridge p)))] /\
  start_vm_calls (events_of (start_java tid) h p) = [] /\
  bridge (fst (start_java tid h p)) = fst (vm_attach tid (bridge p)) /\
  snd (start_java tid h p)
    = match snd (vm_attach tid (bridge p)) with
      | None => Returned tt
      | Some e => Raises e
      end /\
  JAVA_STARTED (fst (start_java tid h p)) = JAVA_STARTED p /\
  (forall h' : Host, start_java tid h' p = start_java tid h p).
Proof.
  intros Ha.
  destruct (start_java_events tid h p) as [(_ & Hev) | (Hc & _)]; [|congruence].
  rewrite Hev. split; [reflexivity|]. split; [reflexivity|].
  rewrite (start_java_warm tid h p Ha), attach_run. simpl.
  repeat split. intros h'. now rewrite (start_java_warm tid h' p Ha), !attach_run.
Qed.

End ControllerClaims.

Lemma count_ops_app (kind : BridgeOp -> bool) (o1 o2 : list BridgeOp) :
  count_ops kind (o1 ++ o2) = count_ops kind o1 + count_ops kind o2.
Proof. unfold count_ops. now rewrite List.filter_app, length_app. Qed.

Lemma new_ops_app {B : Type} (p p' : Proc (Journaled B)) (ops : list BridgeOp) :
  journal (bridge p') = journal (bridge p) ++ ops -> new_ops p p' = ops.
Proof.
  unfold new_ops. intros ->.
  now rewrite List.skipn_app, List.skipn_all, Nat.sub_diag.
Qed.

Section JournaledController.
Context {B : Type} `{Bridge B}.

Lemma journal_attach (tid : Tid) (j : Journaled B) :
  journal (fst (vm_attach tid j)) = journal j ++ [OpAttach tid] /\
  vm_is_active (fst (vm_attach tid j)) = vm_is_active (fst (vm_attach tid (inner j))).
Proof.
  cbn [vm_attach vm_is_active journaled_bridge]. unfold journaled_call.
  now destruct (vm_attach tid (inner j)).
Qed.

(** The journal of the boot sequence: one start, and the attach exactly
    when the start returned. *)
Lemma journal_boot (tid : Tid) (args cp : list string) (j : Journaled B) :
  exists ops,
    journal (fst (boot_bridge tid args cp j)) = journal j ++ ops /\
    count_ops is_op_start_vm ops = 1 /\
    count_ops is_op_attach ops
      = match snd (vm_start args cp j) with
        | None => 1
        | Some _ => 0
        end /\
    (snd (boot_bridge tid args cp j) = None -> snd (vm_start args cp j) = None).
Proof.
  unfold boot_bridge.
  cbn [vm_start vm_attach vm_class_wrapper vm_cache_directory_listings
       journaled_bridge].
  unfold journaled_call. cbn [inner journal].
  destruct (vm_start args cp (inner j)) as [b1 [e1|]]; cbn [fst snd inner journal].
  { eexists. split; [reflexivity|]. repeat split. discriminate. }
  destruct (vm_attach tid b1) as [b2 [e2|]]; cbn [fst snd inner journal].
  { rewrite <- app_assoc. eexists. split; [reflexivity|]. repeat split. }
  destruct (vm_class_wrapper "loci.common.Location" b2) as [b3 [e3|]];
    cbn [fst snd inner journal].
  { rewrite <- !app_assoc. eexists. split; [reflexivity|]. repeat split. }
  destruct (vm_cache_directory_listings true b3) as [b4 [e4|]];
    cbn [fst snd inner journal];
    rewrite <- !app_assoc; eexists; (split; [reflexivity|]); repeat split.
Qed.

(** The trace of the boot sequence: one start, and the attach exactly
    when the start returned. *)
Lemma boot_vm_counts {C : Type} `{Bridge C} (tid : Tid) (args cp : list string)
    (h : Host) (q : Proc C) :
  exists evs,
    trace (fst (boot_vm tid args cp h q)) = trace q ++ evs /\
    count_events is_start_vm evs = 1 /\
    count_events is_attach evs
      = match snd (vm_start args cp (bridge q)) with
        | None => 1
        | Some _ => 0
        end.
Proof.
  unfold boot_vm. bridge_run.
  destruct (vm_start args cp (bridge q)) as [b1 [e1|]]; bridge_run;
    [eexists; repeat split|].
  destruct (vm_attach tid b1) as [b2 [e2|]]; bridge_run;
    [rewrite <- ?app_assoc; eexists; repeat split|].
  destruct (vm_class_wrapper "loci.common.Location" b2) as [b3 [e3|]];
    bridge_run; [rewrite <- ?app_assoc; eexists; repeat split|].
  destruct (vm_cache_directory_listings true b3) as [b4 [e4|]]; bridge_run;
    rewrite <- ?app_assoc; eexists; repeat split.
Qed.

(** C7 (amended). Two calls of [start_java] in sequence on one thread,
    the bridge inactive at the first and active at the second: across
    the two calls the bridge's start operation is invoked exactly once;
    its attach operation is invoked exactly twice provided the start
    call of the first [start_java] returned without failure, as it has
    whenever that first call returns, and exactly once when the start
    raised although it left the runtime active. The invocations are
    counted in the journal the bridge keeps itself, for every bridge,
    and the trace of the module's functions agrees with it. *)
Theorem start_twice_one_boot_two_attaches (h1 h2 : Host) (tid : Tid)
    (p : Proc (Journaled B)) :
  vm_is_active (bridge p) = false ->
  vm_is_active (bridge (fst (start_java tid h1 p))) = true ->
  let after_first := fst (start_java tid h1 p) in
  let after_second := fst (start_java tid h2 after_first) in
  exists args cp,
    snd (build_startup h1 p) = Returned (args, cp) /\
    count_ops is_op_start_vm (new_ops p after_second) = 1 /\
    count_events is_start_vm (new_events p after_second) = 1 /\
    (snd (start_java tid h1 p) = Returned tt ->
     snd (vm_start args cp (bridge p)) = None) /\
    (snd (vm_start args cp (bridge p)) = None ->
     count_ops is_op_attach (new_ops p after_second) = 2 /\
     count_events is_attach (new_events p after_second) = 2) /\
    (snd (vm_start args cp (bridge p)) <> None ->
     count_ops is_op_attach (new_ops p after_second) = 1 /\
     count_events is_attach (new_events p after_second) = 1).
Proof.
  intros Hcold Hwarm after_first after_second.
  pose proof (start_java_bridge tid h1 p) as Hfirst. cbv zeta in Hfirst.
  rewrite Hcold in Hfirst.
  pose proof (start_java_bridge tid h2 after_first) as Hsecond.
  cbv zeta in Hsecond. unfold after_first in Hsecond at 1.
  rewrite Hwarm in Hsecond. destruct Hsecond as (Hb2 & _).
  rewrite build_startup_result.
  destruct (start_java_cold tid h1 p Hcold) as (evs & Hev & Hrun).
  destruct (spec_startup h1) as [[args cp]|e] eqn:Hs;
    [|destruct Hfirst as (Hb & _); rewrite Hb in Hwarm; congruence].
  cbn [fst snd] in Hfirst, Hrun. destruct Hfirst as (Hb1 & Hr1 & _).
  exists args, cp. split; [reflexivity|].
  destruct (journal_boot tid args cp (bridge p))
    as (ops & Hj1 & Hstart & Hattach & Hok).
  assert (Hops : new_ops p after_second = ops ++ [OpAttach tid]).
  { apply new_ops_app. fold after_second in Hb2. rewrite Hb2.
    rewrite (proj1 (journal_attach tid (bridge after_first))).
    unfold after_first. rewrite Hb1, Hj1. now rewrite app_assoc. }
  destruct (boot_vm_counts tid args cp h1 (add_trace p (EvIsActive false :: evs)))
    as (bevs & Htr1 & Hstart' & Hattach').
  rewrite <- Hrun in Htr1. cbn [bridge add_trace trace] in Htr1, Hattach'.
  assert (Htr2 : trace after_second
                 = trace after_first
                     ++ [EvIsActive true;
                         EvAttach tid (snd (vm_attach tid (bridge after_first)))]).
  { unfold after_second. rewrite (start_java_warm tid h2 after_first Hwarm).
    rewrite attach_run. cbn [fst trace add_trace]. now rewrite <- app_assoc. }
  assert (Hall : new_events p after_second
                 = [EvIsActive false] ++ evs ++ bevs
                     ++ [EvIsActive true;
                         EvAttach tid (snd (vm_attach tid (bridge after_first)))]).
  { apply new_events_app. rewrite Htr2. unfold after_first. rewrite Htr1.
    now rewrite <- !app_assoc. }
  assert (Hnone : forall kind,
             (forall e, kind e = true -> is_bridge_event e = true) ->
             count_events kind evs = 0).
  { intros kind Hk. apply count_events_none.
    eapply Forall_impl; [exact Hev|]. intros e He. cbv beta in He.
    destruct (kind e) eqn:Hke; [|reflexivity]. apply Hk in Hke. congruence. }
  assert (Hs0 : count_events is_start_vm evs = 0) by (apply Hnone; now intros []).
  assert (Ha0 : count_events is_attach evs = 0) by (apply Hnone; now intros []).
  rewrite Hops, Hall, !count_ops_app.
  rewrite !(count_events_app is_start_vm), !(count_events_app is_attach).
  rewrite Hstart, Hattach, Hstart', Hattach', Hs0, Ha0.
  split; [reflexivity|]. split; [reflexivity|].
  split; [|split].
  - intros Hret. apply Hok. rewrite Hret in Hr1.
    destruct (snd (boot_bridge tid args cp (bridge p))); [discriminate|reflexivity].
  - intros ->. split; reflexivity.
  - intros Hfail. destruct (snd (vm_start args cp (bridge p))); [|congruence].
    split; reflexivity.
Qed.
End JournaledController.


(** C4 as stated fails: on the frozen Windows host the located path
    [C:\x\logback.xml] reaches the bridge rewritten, not verbatim. *)
Lemma frozen_windows_still_rewrites :
  sys_frozen (windows_host true) = true /\
  PyStr.startswith (sys_platform (windows_host true)) "win" = true /\
  snd (find_logback_xml (windows_host true) (cold_process no_faults))
    = Returned (Some "C:\x\logback.xml") /\
  start_vm_calls (events_of (start_java 7) (windows_host true)
                    (cold_process no_faults))
    = [(windows_args, windows_classpath true)] /\
  In "-Dlogback.configurationFile=//localhost/C$/x/logback.xml" windows_args /\
  ~ In "-Dlogback.configurationFile=C:\x\logback.xml" windows_args.
Proof.
  repeat split; try (vm_compute; reflexivity).
  - simpl. auto.
  - simpl. intros [Heq|[Heq|[Heq|[]]]]; discriminate.
Qed.

(** The amended C4 on the frozen Windows host. *)
Lemma logback_rewrite_on_windows_only_witness :
  exists located names,
    snd (find_logback_xml (windows_host true) (cold_process no_faults))
      = Returned located /\
    os_listdir (windows_host true) "C:\site\prokaryote" = inr names /\
    windows_args
      = [spec_loader_flag; spec_prefs_flag]
          ++ match located with
             | Some path =>
                 ["-Dlogback.configurationFile=" +:+ spec_windows_rewrite path]
             | None => []
             end
          ++ spec_headless_args (windows_host true)
          ++ spec_debug_args (windows_host true) /\
    windows_classpath true
      = spec_env_entries (windows_host true)
          ++ javabridge_JARS (windows_host true)
          ++ spec_bundled (windows_host true) names
          ++ spec_tools (windows_host true).
Proof.
  apply (logback_rewrite_on_windows_only (windows_host true) 7
           (cold_process no_faults) windows_args (windows_classpath true)).
  vm_compute. left. reflexivity.
Defined.

(** C6 on the Windows host. *)
Lemma windows_logback_rewrite_witness :
  windows_logback_path "C:\x\logback.xml" (windows_host false)
      (cold_process no_faults)
    = (cold_process no_faults,
       Returned ("//localhost/" +:+ String "C" ("$" +:+ "/x/logback.xml"))) /\
  exists path',
    windows_logback_path "C:\x\logback.xml" (windows_host false)
        (cold_process no_faults)
      = (cold_process no_faults, Returned path') /\
    In ("-Dlogback.configurationFile=" +:+ path') windows_args.
Proof.
  destruct (@windows_logback_rewrite MockVm mock_bridge)
    as (_ & Hdrive & _ & _ & Hstart).
  split.
  - apply (Hdrive "C"%char "\x\logback.xml" (windows_host false)
             (cold_process no_faults)).
    discriminate.
  - apply (Hstart (windows_host false) 7 (cold_process no_faults)
             "C:\x\logback.xml" windows_args (windows_classpath false)).
    + vm_compute. reflexivity.
    + vm_compute. reflexivity.
    + vm_compute. left. reflexivity.
Defined.

(** C7 as stated fails: the bridge reports inactive at the first call
    and active at the second, yet the attach operation is invoked once
    across the two calls, not twice; the start operation raised after
    it had brought the runtime up. *)
Lemma start_raises_with_runtime_up_one_attach :
  let p := journaled_process {| half_active := false |} in
  let after_first := fst (start_java 7 linux_host p) in
  let after_second := fst (start_java 7 linux_host after_first) in
  vm_is_active (bridge p) = false /\
  vm_is_active (bridge after_first) = true /\
  snd (start_java 7 linux_host p) = Raises (Raised "JavaError") /\
  snd (start_java 7 linux_host after_first) = Returned tt /\
  journal (bridge after_second)
    = [OpStartVm linux_args linux_classpath; OpAttach 7] /\
  count_ops is_op_start_vm (new_ops p after_second) = 1 /\
  count_ops is_op_attach (new_ops p after_second) = 1 /\
  count_events is_attach (new_events p after_second) = 1 /\
  ~ (count_ops is_op_start_vm (new_ops p after_second) = 1 /\
     count_ops is_op_attach (new_ops p after_second) = 2).
Proof.
  cbv zeta. repeat split; try (vm_compute; reflexivity).
  intros (_ & Hc). vm_compute in Hc. discriminate Hc.
Qed.

(** The amended C7 on the Linux host. *)
Lemma start_twice_one_boot_two_attaches_witness :
  let p := journaled_process {| mock_active := false; mock_faults := no_faults |} in
  let after_second :=
    fst (start_java 7 linux_host (fst (start_java 7 linux_host p))) in
  count_ops is_op_start_vm (new_ops p after_second) = 1 /\
  count_ops is_op_attach (new_ops p after_second) = 2 /\
  count_events is_start_vm (new_events p after_second) = 1 /\
  count_events is_attach (new_events p after_second) = 2.
Proof.
  cbv zeta.
  pose (p := journaled_process {| mock_active := false; mock_faults := no_faults |}).
  assert (Hcold : vm_is_active (bridge p) = false) by reflexivity.
  assert (Hwarm : vm_is_active (bridge (fst (start_java 7 linux_host p))) = true)
    by (vm_compute; reflexivity).
  destruct (start_twice_one_boot_two_attaches linux_host linux_host 7 p
              Hcold Hwarm)
    as (args & cp & Hs & Hstart & Hstart' & _ & Hok & _).
  assert (Hargs : (args, cp) = (linux_args, linux_classpath)).
  { assert (Hs' : snd (build_startup linux_host p)
                  = Returned (linux_args, linux_classpath))
      by (vm_compute; reflexivity).
    rewrite Hs' in Hs. now injection Hs as <- <-. }
  injection Hargs as -> ->.
  destruct (Hok eq_refl) as (Hattach & Hattach').
  split; [exact Hstart|]. split; [exact Hattach|].
  split; [exact Hstart'|exact Hattach'].
Defined.

(** C8 on the Linux host, with and without the variable. *)
Lemma debug_agent_flag_witness :
  (exists arg,
     In arg linux_args /\
     arg = "-agentlib:jdwp=transport=dt_socket,address=127.0.0.1:5005,server=y,suspend=n" /\
     PyStr.contains "address=127.0.0.1:5005,server=y,suspend=n" arg = true) /\
  Forall (fun arg => is_debug_agent_flag arg = false) bare_linux_args /\
  start_vm_calls (events_of (start_java 7) linux_host (cold_process no_faults))
    = [(linux_args, linux_classpath)].
Proof.
  destruct (@debug_agent_flag MockVm mock_bridge) as (Hset & Hunset & Hcall).
  split; [|split].
  - apply (Hset linux_host 7 (cold_process no_faults) linux_args linux_classpath).
    + vm_compute. reflexivity.
    + vm_compute. left. reflexivity.
  - apply (Hunset bare_linux_host 7 (cold_process no_faults) bare_linux_args
             bare_linux_classpath).
    + vm_compute. reflexivity.
    + vm_compute. left. reflexivity.
  - apply (Hcall linux_host 7 (cold_process no_faults)
             (linux_args, linux_classpath)); vm_compute; reflexivity.
Defined.

(** C10 on a process whose runtime was started elsewhere: the flag
    stays false while the runtime is active. *)
Lemma warm_start_only_attaches_witness :
  vm_is_active (bridge warm_process) = true /\
  JAVA_STARTED warm_process = false /\
  events_of (start_java 7) linux_host warm_process
    = [EvIsActive true; EvAttach 7 None] /\
  JAVA_STARTED (fst (start_java 7 linux_host warm_process)) = false /\
  vm_is_active (bridge (fst (start_java 7 linux_host warm_process))) = true.
Proof.
  destruct (warm_start_only_attaches linux_host 7 warm_process)
    as (Hev & _ & Hb & _ & Hflag & _); [reflexivity|].
  split; [reflexivity|]. split; [reflexivity|]. split; [exact Hev|].
  split; [exact Hflag|]. rewrite Hb. reflexivity.
Defined.

(** ** Two threads inside [start_java] *)

Section Interleavings.
Context {B : Type} `{Bridge B}.

(** A thread that is not finished takes its next step. *)
Lemma run_thread_S (n : nat) (tid : Tid) (pc : Pc) (h : Host) (p : Proc B) :
  is_finished pc = false ->
  run_thread (S n) tid pc h p
    = run_thread n tid (snd (thread_step tid pc h p)) h
        (fst (thread_step tid pc h p)).
Proof.
  intros Hpc. destruct pc; try discriminate Hpc; cbn [run_thread];
    now destruct (thread_step tid _ h p).
Qed.

Lemma run_thread_finished (n : nat) (tid : Tid) (r : Outcome unit) (h : Host)
    (p : Proc B) :
  run_thread n tid (Finished r) h p = (p, Finished r).
Proof. now destruct n. Qed.

Ltac step_thread :=
  rewrite run_thread_S by reflexivity; cbn [thread_step]; unfold advance.

(** Running the steps of one thread alone is [start_java]. *)
Lemma run_thread_start_java (tid : Tid) (h : Host) (p : Proc B) :
  run_thread 9 tid AtCheck h p
    = (fst (start_java tid h p), Finished (snd (start_java tid h p))).
Proof.
  unfold start_java, bind. step_thread. unfold is_active.
  destruct (vm_is_active (bridge p)); cbn [fst snd].
  - step_thread. destruct (attach tid h _) as [q [[]|e]]; cbn [fst snd];
      now rewrite run_thread_finished.
  - step_thread.
    destruct (build_startup h _) as [q [[args cp]|e]]; cbn [fst snd];
      [|now rewrite run_thread_finished].
    unfold boot_vm, bind. step_thread.
    destruct (start_vm args cp h q) as [q1 [[]|e]]; cbn [fst snd];
      [|now rewrite run_thread_finished].
    step_thread.
    destruct (attach tid h q1) as [q2 [[]|e]]; cbn [fst snd];
      [|now rewrite run_thread_finished].
    step_thread.
    destruct (JClassWrapper _ h q2) as [q3 [[]|e]]; cbn [fst snd];
      [|now rewrite run_thread_finished].
    step_thread.
    destruct (cacheDirectoryListings true h q3) as [q4 [[]|e]]; cbn [fst snd];
      [|now rewrite run_thread_finished].
    step_thread.
    destruct (LOGGER DEBUG _ h q4) as [q5 [[]|e]]; cbn [fst snd];
      [|now rewrite run_thread_finished].
    step_thread.
    destruct (set_JAVA_STARTED true h q5) as [q6 [[]|e]]; cbn [fst snd];
      now rewrite run_thread_finished.
Qed.

(** What one step of a thread adds to the trace: a start call is made
    exactly by a thread that was told the bridge is inactive, and an
    inactive answer is given only to a thread at its check. *)
Lemma thread_step_counts (tid : Tid) (pc : Pc) (h : Host) (p : Proc B)
    (s : list string * list string) :
  spec_startup h = Returned s ->
  exists evs,
    trace (fst (thread_step tid pc h p)) = trace p ++ evs /\
    count_events is_start_vm evs + pending_start (snd (thread_step tid pc h p))
      = count_events is_inactive_answer evs + pending_start pc /\
    count_events is_inactive_answer evs + at_check (snd (thread_step tid pc h p))
      <= at_check pc.
Proof.
  intros Hs. destruct pc; cbn [thread_step]; unfold advance.
  - unfold is_active. destruct (vm_is_active (bridge p));
      eexists; (split; [reflexivity|]); split; simpl; lia.
  - rewrite attach_run. destruct (snd (vm_attach tid (bridge p)));
      eexists; (split; [reflexivity|]); split; simpl; lia.
  - destruct (build_startup_run h p) as (evs & Hev & ->). rewrite Hs.
    exists evs. split; [reflexivity|].
    rewrite !count_events_none; [simpl; lia | |];
      (eapply Forall_impl; [exact Hev|]); intros e He; cbv beta in He;
      destruct e; try reflexivity; discriminate He.
  - unfold start_vm, bridge_call.
    destruct (vm_start args class_path (bridge p)) as [b [e|]];
      eexists; (split; [reflexivity|]); split; simpl; lia.
  - rewrite attach_run. destruct (snd (vm_attach tid (bridge p)));
      eexists; (split; [reflexivity|]); split; simpl; lia.
  - unfold JClassWrapper, bridge_call.
    destruct (vm_class_wrapper _ (bridge p)) as [b [e|]];
      eexists; (split; [reflexivity|]); split; simpl; lia.
  - unfold cacheDirectoryListings, bridge_call.
    destruct (vm_cache_directory_listings true (bridge p)) as [b [e|]];
      eexists; (split; [reflexivity|]); split; simpl; lia.
  - eexists; (split; [reflexivity|]); split; simpl; lia.
  - exists []. simpl. rewrite app_nil_r. repeat split; lia.
  - exists []. simpl. rewrite app_nil_r. repeat split; lia.
Qed.

(** The same over a whole schedule. *)
Lemma run_schedule_counts (t1 t2 : Tid) (h : Host)
    (s : list string * list string) (sched : list bool) (c : Config) :
  spec_startup h = Returned s ->
  exists evs,
    trace (shared (run_schedule t1 t2 h sched c)) = trace (shared c) ++ evs /\
    count_events is_start_vm evs
      + pending_start (pc1 (run_schedule t1 t2 h sched c))
      + pending_start (pc2 (run_schedule t1 t2 h sched c))
      = count_events is_inactive_answer evs
        + pending_start (pc1 c) + pending_start (pc2 c) /\
    count_events is_inactive_answer evs
      + at_check (pc1 (run_schedule t1 t2 h sched c))
      + at_check (pc2 (run_schedule t1 t2 h sched c))
      <= at_check (pc1 c) + at_check (pc2 c).
Proof.
  intros Hs. revert c. induction sched as [|second rest IH]; intros c.
  - exists []. simpl. rewrite app_nil_r. repeat split; lia.
  - cbn [run_schedule].
    destruct (IH (sched_step t1 t2 h second c)) as (evs2 & Htr2 & Hst2 & Hin2).
    unfold sched_step in *. destruct second.
    + destruct (thread_step_counts t2 (pc2 c) h (shared c) s Hs)
        as (evs1 & Htr1 & Hst1 & Hin1).
      destruct (thread_step t2 (pc2 c) h (shared c)) as [p' pc'].
      cbn [fst snd pc1 pc2 shared] in *.
      exists (evs1 ++ evs2). rewrite Htr2, Htr1, <- app_assoc, !count_events_app.
      repeat split; lia.
    + destruct (thread_step_counts t1 (pc1 c) h (shared c) s Hs)
        as (evs1 & Htr1 & Hst1 & Hin1).
      destruct (thread_step t1 (pc1 c) h (shared c)) as [p' pc'].
      cbn [fst snd pc1 pc2 shared] in *.
      exists (evs1 ++ evs2). rewrite Htr2, Htr1, <- app_assoc, !count_events_app.
      repeat split; lia.
Qed.

(** The check of a thread that finds the bridge inactive. *)
Lemma check_step_inactive (tid : Tid) (h : Host) (p : Proc B) :
  vm_is_active (bridge p) = false ->
  thread_step tid AtCheck h p = (add_trace p [EvIsActive false], AtBuild).
Proof.
  intros Hcold. cbn [thread_step]. unfold advance, is_active. now rewrite Hcold.
Qed.

Lemma finished_not_pending (pc : Pc) :
  is_finished pc = true -> pending_start pc = 0 /\ at_check pc = 0.
Proof. destruct pc; simpl; intros; (discriminate || auto). Qed.

Lemma run_schedule_app (t1 t2 : Tid) (h : Host) (pre post : list bool)
    (c : Config) :
  run_schedule t1 t2 h (pre ++ post) c
    = run_schedule t1 t2 h post (run_schedule t1 t2 h pre c).
Proof. revert c. induction pre as [|b pre IH]; intros c; simpl; auto. Qed.

(** The program counter of one of the two threads. *)
Lemma other_thread_waits (t1 t2 : Tid) (h : Host) (late : bool)
    (pre : list bool) (c : Config) :
  Forall (fun b => b = negb late) pre ->
  (if late then pc2 (run_schedule t1 t2 h pre c)
   else pc1 (run_schedule t1 t2 h pre c))
    = (if late then pc2 c else pc1 c).
Proof.
  intros Hpre. revert c. induction Hpre as [|b pre -> _ IH]; intros c; simpl;
    [reflexivity|].
  rewrite IH. unfold sched_step.
  destruct late; cbn [negb];
    now destruct (thread_step _ _ h (shared c)).
Qed.

(** When one thread makes its check only after the bridge has come to
    report active, a single start call is made. *)
Lemma late_check_single_start (h : Host) (t1 t2 : Tid) (p : Proc B)
    (s : list string * list string) (late : bool) (pre post : list bool) :
  vm_is_active (bridge p) = false ->
  spec_startup h = Returned s ->
  Forall (fun b => b = negb late) pre ->
  vm_is_active (bridge (shared (run_schedule t1 t2 h pre (both_called p)))) = true ->
  complete (run_schedule t1 t2 h (pre ++ late :: post) (both_called p)) = true ->
  exists evs,
    trace (shared (run_schedule t1 t2 h (pre ++ late :: post) (both_called p)))
      = trace p ++ evs /\
    count_events is_start_vm evs = 1.
Proof.
  intros Hcold Hs Hpre Hwarm Hdone.
  rewrite run_schedule_app in Hdone |- *. cbn [run_schedule] in Hdone |- *.
  set (c1 := run_schedule t1 t2 h pre (both_called p)) in *.
  pose proof (other_thread_waits t1 t2 h late pre (both_called p) Hpre) as Hwait.
  fold c1 in Hwait. cbn [both_called pc1 pc2] in Hwait.
  destruct (run_schedule_counts t1 t2 h s pre (both_called p) Hs)
    as (e1 & Htr1 & Hst1 & Hin1).
  fold c1 in Htr1, Hst1, Hin1. cbn [both_called pc1 pc2 shared] in Htr1, Hst1, Hin1.
  assert (Hone : 1 <= count_events is_inactive_answer e1).
  { destruct pre as [|b pre'].
    - unfold c1 in Hwarm. simpl in Hwarm. congruence.
    - unfold c1 in Htr1. cbn [run_schedule] in Htr1.
      destruct (run_schedule_counts t1 t2 h s pre'
                  (sched_step t1 t2 h b (both_called p)) Hs) as (e' & Htr' & _).
      rewrite Htr' in Htr1.
      assert (Hfirst : trace (shared (sched_step t1 t2 h b (both_called p)))
                       = trace p ++ [EvIsActive false]).
      { unfold sched_step, both_called; destruct b; cbn [pc1 pc2 shared];
          now rewrite (check_step_inactive _ h p Hcold). }
      rewrite Hfirst, <- app_assoc in Htr1. apply app_inv_head in Htr1.
      rewrite <- Htr1, (count_events_app is_inactive_answer).
      change (count_events is_inactive_answer [EvIsActive false]) with 1. lia. }
  set (c2 := sched_step t1 t2 h late c1) in *.
  assert (Hstep : trace (shared c2) = trace (shared c1) ++ [EvIsActive true] /\
                  pending_start (pc1 c2) + pending_start (pc2 c2)
                    = pending_start (pc1 c1) + pending_start (pc2 c1) /\
                  at_check (pc1 c2) + at_check (pc2 c2) + 1
                    = at_check (pc1 c1) + at_check (pc2 c1)).
  { unfold c2, sched_step. destruct late; rewrite Hwait;
      cbn [thread_step]; unfold advance, is_active; rewrite Hwarm;
      cbn [pc1 pc2 shared add_trace trace pending_start at_check];
      repeat split; lia. }
  destruct Hstep as (Htr2 & Hp2 & Hc2).
  destruct (run_schedule_counts t1 t2 h s post c2 Hs)
    as (e3 & Htr3 & Hst3 & Hin3).
  apply andb_true_iff in Hdone as (Hd1 & Hd2).
  apply finished_not_pending in Hd1 as (Hf1 & Hg1).
  apply finished_not_pending in Hd2 as (Hf2 & Hg2).
  exists (e1 ++ [EvIsActive true] ++ e3). split.
  { rewrite Htr3, Htr2, Htr1, <- !app_assoc. reflexivity. }
  rewrite (count_events_app is_start_vm), (count_events_app is_start_vm).
  change (count_events is_start_vm [EvIsActive true]) with 0.
  simpl in Hst1, Hin1. lia.
Qed.

(** C2 (amended). Two threads call [start_java] while the bridge is
    inactive and the assembly of lines 95-125 succeeds. In every
    execution that completes, the bridge's start operation is called
    once for each thread whose own activity check was answered
    inactive: at least once and at most twice. It is called twice
    whenever both threads make their check before either goes on, and
    exactly once when one thread makes its check only after the bridge
    has come to report active. *)
Theorem concurrent_start_calls (h : Host) (t1 t2 : Tid) (p : Proc B)
    (s : list string * list string) (sched : list bool) :
  vm_is_active (bridge p) = false ->
  snd (build_startup h p) = Returned s ->
  let final := run_schedule t1 t2 h sched (both_called p) in
  complete final = true ->
  let evs := new_events p (shared final) in
  count_events is_start_vm evs = count_events is_inactive_answer evs /\
  1 <= count_events is_start_vm evs <= 2 /\
  (forall first rest,
     sched = first :: negb first :: rest -> count_events is_start_vm evs = 2) /\
  (forall late pre post,
     sched = pre ++ late :: post ->
     Forall (fun b => b = negb late) pre ->
     vm_is_active (bridge (shared (run_schedule t1 t2 h pre (both_called p))))
       = true ->
     count_events is_start_vm evs = 1).
Proof.
  intros Hcold Hs final Hdone evs.
  rewrite build_startup_result in Hs.
  assert (Hlate : forall late pre post,
            sched = pre ++ late :: post ->
            Forall (fun b => b = negb late) pre ->
            vm_is_active
              (bridge (shared (run_schedule t1 t2 h pre (both_called p)))) = true ->
            count_events is_start_vm evs = 1).
  { intros late pre post Hsched Hpre Hwarm. unfold evs, final in *.
    rewrite Hsched in *.
    destruct (late_check_single_start h t1 t2 p s late pre post
                Hcold Hs Hpre Hwarm Hdone) as (e & Htr & Hcount).
    now rewrite (new_events_app _ _ _ Htr). }
  apply andb_true_iff in Hdone as (Hd1 & Hd2).
  apply finished_not_pending in Hd1 as (Hp1 & Hc1).
  apply finished_not_pending in Hd2 as (Hp2 & Hc2).
  destruct (run_schedule_counts t1 t2 h s sched (both_called p) Hs)
    as (all & Htr & Hst & Hin).
  fold final in Htr, Hst, Hin. cbn [both_called pc1 pc2 shared] in *.
  assert (Hevs : evs = all) by (now apply new_events_app).
  rewrite Hevs. simpl in Hst, Hin.
  assert (Hfirst : forall second rest, sched = second :: rest ->
            exists evs', all = EvIsActive false :: evs' /\
              trace (shared (sched_step t1 t2 h second (both_called p)))
                = trace p ++ [EvIsActive false] /\
              bridge (shared (sched_step t1 t2 h second (both_called p)))
                = bridge p /\
              pc1 (sched_step t1 t2 h second (both_called p))
                = (if second then AtCheck else AtBuild) /\
              pc2 (sched_step t1 t2 h second (both_called p))
                = (if second then AtBuild else AtCheck) /\
              trace (shared final)
                = trace (shared (sched_step t1 t2 h second (both_called p)))
                    ++ evs').
  { intros second rest ->. unfold final. cbn [run_schedule].
    destruct (run_schedule_counts t1 t2 h s rest
                (sched_step t1 t2 h second (both_called p)) Hs)
      as (evs' & Htr' & _).
    exists evs'.
    assert (Hstep : trace (shared (sched_step t1 t2 h second (both_called p)))
                    = trace p ++ [EvIsActive false] /\
                    bridge (shared (sched_step t1 t2 h second (both_called p)))
                    = bridge p /\
                    pc1 (sched_step t1 t2 h second (both_called p))
                    = (if second then AtCheck else AtBuild) /\
                    pc2 (sched_step t1 t2 h second (both_called p))
                    = (if second then AtBuild else AtCheck)).
    { unfold sched_step, both_called; destruct second;
        cbn [pc1 pc2 shared]; rewrite (check_step_inactive _ h p Hcold);
        repeat split. }
    destruct Hstep as (Ht & Hb & H1 & H2). repeat split; try assumption.
    unfold final in Htr. cbn [run_schedule] in Htr.
    rewrite Htr' , Ht, <- app_assoc in Htr. apply app_inv_head in Htr.
    now rewrite <- Htr. }
  split; [lia|].
  split; [|split; [|intros late pre post ? ? ?; rewrite <- Hevs; eauto]];
    clear Hlate.
  - destruct sched as [|second rest].
    + unfold final in Hc1. simpl in Hc1. discriminate.
    + destruct (Hfirst second rest eq_refl) as (evs' & Hall & _).
      clear Hfirst. rewrite Hall in Hst, Hin |- *.
      change (EvIsActive false :: evs') with ([EvIsActive false] ++ evs') in *.
      rewrite (count_events_app is_start_vm),
        (count_events_app is_inactive_answer) in Hst.
      rewrite (count_events_app is_inactive_answer) in Hin.
      rewrite (count_events_app is_start_vm).
      change (count_events is_inactive_answer [EvIsActive false]) with 1 in *.
      change (count_events is_start_vm [EvIsActive false]) with 0 in *.
      lia.
  - intros first rest Hsched.
    destruct (Hfirst first (negb first :: rest) Hsched)
      as (evs' & Hall & Ht & Hb & H1 & H2 & _).
    unfold final in *. rewrite Hsched in *. cbn [run_schedule] in *.
    set (c1 := sched_step t1 t2 h first (both_called p)) in *.
    destruct (run_schedule_counts t1 t2 h s rest
                (sched_step t1 t2 h (negb first) c1) Hs)
      as (evs2 & Htr2 & Hst2 & Hin2).
    assert (Hstep2 : trace (shared (sched_step t1 t2 h (negb first) c1))
                     = trace p ++ [EvIsActive false; EvIsActive false] /\
                     pc1 (sched_step t1 t2 h (negb first) c1) = AtBuild /\
                     pc2 (sched_step t1 t2 h (negb first) c1) = AtBuild).
    { assert (Hcold1 : vm_is_active (bridge (shared c1)) = false)
        by (now rewrite Hb).
      unfold sched_step; destruct first; cbn [negb];
        rewrite ?H1, ?H2, (check_step_inactive _ h (shared c1) Hcold1);
        cbn [pc1 pc2 shared add_trace trace];
        rewrite Ht, <- app_assoc; repeat split; assumption. }
    destruct Hstep2 as (Ht2 & Hq1 & Hq2).
    rewrite Hq1, Hq2, Hp1, Hp2, Hc1, Hc2 in *. simpl in Hst2, Hin2.
    rewrite Htr2, Ht2, <- app_assoc in Htr. apply app_inv_head in Htr.
    rewrite <- Htr, count_events_app. simpl. lia.
Qed.

End Interleavings.

(** C2 as stated fails: under the racing schedule both threads are told
    the bridge is inactive, both return normally, and the bridge's
    start operation is called twice. *)
Lemma concurrent_double_cold_start :
  let final :=
    run_schedule 1 2 linux_host racing_schedule
      (both_called (cold_process no_faults)) in
  vm_is_active (bridge (cold_process no_faults)) = false /\
  complete final = true /\
  returned_normally (pc1 final) = true /\
  returned_normally (pc2 final) = true /\
  start_vm_calls (trace (shared final))
    = [(linux_args, linux_classpath); (linux_args, linux_classpath)] /\
  count_events is_start_vm (trace (shared final)) = 2 /\
  count_events is_start_vm (trace (shared final)) <> 1.
Proof.
  cbv zeta. repeat split; try (vm_compute; reflexivity).
  vm_compute. discriminate.
Qed.

(** The amended C2 on the Linux host: two start calls under the racing
    schedule, one under the serial schedule. *)
Lemma concurrent_start_calls_witness :
  count_events is_start_vm
    (new_events (cold_process no_faults)
       (shared (run_schedule 1 2 linux_host racing_schedule
                  (both_called (cold_process no_faults))))) = 2 /\
  count_events is_start_vm
    (new_events (cold_process no_faults)
       (shared (run_schedule 1 2 linux_host serial_schedule
                  (both_called (cold_process no_faults))))) = 1.
Proof.
  assert (Hcold : vm_is_active (bridge (cold_process no_faults)) = false)
    by reflexivity.
  assert (Hbuild : snd (build_startup linux_host (cold_process no_faults))
                   = Returned (linux_args, linux_classpath))
    by (vm_compute; reflexivity).
  assert (Hrace : complete (run_schedule 1 2 linux_host racing_schedule
                              (both_called (cold_process no_faults))) = true)
    by (vm_compute; reflexivity).
  assert (Hserial : complete (run_schedule 1 2 linux_host serial_schedule
                                (both_called (cold_process no_faults))) = true)
    by (vm_compute; reflexivity).
  split.
  - apply (proj1 (proj2 (proj2
             (concurrent_start_calls linux_host 1 2 (cold_process no_faults)
                (linux_args, linux_classpath) racing_schedule
                Hcold Hbuild Hrace)))
             false (repeat false 7 ++ repeat true 7)).
    reflexivity.
  - apply (proj2 (proj2 (proj2
             (concurrent_start_calls linux_host 1 2 (cold_process no_faults)
                (linux_args, linux_classpath) serial_schedule
                Hcold Hbuild Hserial)))
             true (repeat false 8) (repeat true 7)).
    + reflexivity.
    + repeat constructor.
    + vm_compute. reflexivity.
Defined.

(** * Further properties of the module *)

(** ** Effects of the assembly steps *)

Section Effects.
Context {B : Type} `{Bridge B}.

Lemma emits_only_ret {A : Type} (P : Event -> Prop) (a : A) :
  emits_only (B := B) P (ret a).
Proof. intros h p. exists []. split; [|constructor]. destruct p; unfold add_trace; simpl. now rewrite app_nil_r. Qed.

Lemma emits_only_raise {A : Type} (P : Event -> Prop) (e : Exn) :
  emits_only (B := B) (A := A) P (raise e).
Proof. intros h p. exists []. split; [|constructor]. destruct p; unfold add_trace; simpl. now rewrite app_nil_r. Qed.

Lemma emits_only_ask {A : Type} (P : Event -> Prop) (f : Host -> A) :
  emits_only (B := B) P (ask f).
Proof. intros h p. exists []. split; [|constructor]. destruct p; unfold add_trace; simpl. now rewrite app_nil_r. Qed.

Lemma emits_only_emit (P : Event -> Prop) (e : Event) :
  P e -> emits_only (B := B) P (emit e).
Proof. intros He h p. exists [e]. split; [reflexivity|]. now repeat constructor. Qed.

Lemma emits_only_bind {A C : Type} (P : Event -> Prop) (m : M B A)
    (k : A -> M B C) :
  emits_only P m -> (forall a, emits_only P (k a)) -> emits_only P (bind m k).
Proof.
  intros Hm Hk h p. unfold bind.
  destruct (Hm h p) as (e1 & Hp1 & HP1).
  destruct (m h p) as [p1 [a|e]]; simpl in Hp1; subst p1.
  - destruct (Hk a h (add_trace p e1)) as (e2 & Hp2 & HP2).
    exists (e1 ++ e2). rewrite Hp2, add_trace_app. split; [reflexivity|].
    now apply Forall_app.
  - exists e1. now split.
Qed.

(** Decompose a computation into its statements. *)
Ltac effects :=
  repeat first
    [ apply emits_only_ret
    | apply emits_only_raise
    | apply emits_only_ask
    | apply emits_only_emit; reflexivity
    | apply emits_only_bind; [|intros ?]
    | match goal with
      | |- emits_only _ (if ?b then _ else _) => destruct b
      | |- emits_only _ (match ?o with _ => _ end) => destruct o
      end ].

Lemma get_jars_effects :
  emits_only (B := B) (fun e => is_assembler_event e = true) get_jars.
Proof.
  unfold get_jars, environ_contains, environ_get, listdir, find_jdk, LOGGER.
  effects.
Qed.

Lemma build_startup_effects :
  emits_only (B := B) (fun e => is_startup_event e = true) build_startup.
Proof.
  assert (Hjars : emits_only (B := B) (fun e => is_startup_event e = true) get_jars).
  { intros h p. destruct (get_jars_effects h p) as (evs & Heq & HP).
    exists evs. split; [exact Heq|]. eapply Forall_impl; [exact HP|].
    intros e He. cbv beta in *. destruct e; try discriminate He; try reflexivity;
      simpl in *; now rewrite He. }
  assert (Hfind : emits_only (B := B) (fun e => is_startup_event e = true)
                    find_logback_xml).
  { unfold find_logback_xml. effects. }
  unfold build_startup, windows_logback_path, subscript, environ_contains,
    environ_get, get_awt_headless, LOGGER.
  effects; try exact Hjars; try exact Hfind.
Qed.

End Effects.

(** ** The logging-config locator *)

Lemma probed_no_file (isfile : string -> bool) (candidates : list string) :
  Forall (fun c => isfile c = false) candidates ->
  probed isfile candidates = candidates /\ List.find isfile candidates = None.
Proof.
  induction 1 as [|c rest Hc _ [IH1 IH2]]; simpl; [auto|].
  now rewrite Hc, IH1, IH2.
Qed.

Lemma probed_first_file (isfile : string -> bool) (before after : list string)
    (t : string) :
  Forall (fun c => isfile c = false) before ->
  isfile t = true ->
  probed isfile (before ++ t :: after) = before ++ [t] /\
  List.find isfile (before ++ t :: after) = Some t.
Proof.
  intros Hb Ht. induction Hb as [|c rest Hc _ [IH1 IH2]]; simpl.
  - now rewrite Ht.
  - now rewrite Hc, IH1, IH2.
Qed.

Lemma find_first_split (isfile : string -> bool) (candidates : list string) :
  match List.find isfile candidates with
  | Some t =>
      exists before after,
        candidates = before ++ t :: after /\
        Forall (fun c => isfile c = false) before /\ isfile t = true
  | None => Forall (fun c => isfile c = false) candidates
  end.
Proof.
  induction candidates as [|c rest IH]; simpl; [constructor|].
  destruct (isfile c) eqn:Hc.
  - exists [], rest. repeat split; auto.
  - destruct (List.find isfile rest) as [t|].
    + destruct IH as (before & after & -> & Hb & Ht).
      exists (c :: before), after. repeat split; auto.
    + now constructor.
Qed.

Section Locator.
Context {B : Type} `{Bridge B}.

(** The loop, whatever the list of directories. *)
Lemma probe_logback_run (join : string -> list string -> string)
    (paths : list string) (h : Host) (p : Proc B) :
  let targets := map (fun path => join path ["logback.xml"]) paths in
  probe_logback join paths h p
    = (add_trace p (map EvIsfile (probed (os_path_isfile h) targets)),
       Returned (List.find (os_path_isfile h) targets)).
Proof.
  cbv zeta. revert p. induction paths as [|path rest IH]; intros p.
  - cbn. unfold ret. destruct p; unfold add_trace; simpl. now rewrite app_nil_r.
  - cbn [probe_logback map probed List.find]. unfold isfile. py_run.
    destruct (os_path_isfile h (join path ["logback.xml"])).
    + reflexivity.
    + rewrite IH, add_trace_app. reflexivity.
Qed.

Lemma find_logback_xml_trace (h : Host) (p : Proc B) :
  find_logback_xml h p
    = (add_trace p
         (map EvIsfile (probed (os_path_isfile h) (spec_logback_candidates h))),
       Returned (spec_located_logback h)).
Proof.
  unfold find_logback_xml. py_run. now rewrite probe_logback_run.
Qed.

(** X1. [find_logback_xml] never raises. It returns the first of the
    three candidates, in the order of the [paths] list, that is a file,
    and [None] exactly when none of them is. *)
Theorem find_logback_first_match (h : Host) (p : Proc B) :
  let candidates :=
    [ os_path_join h (os_curdir h) ["logback.xml"];
      os_path_join h (os_path_dirname h (module_file h)) ["logback.xml"];
      os_path_join h
        (os_path_join h
           (os_path_dirname h (os_path_dirname h (os_path_dirname h (module_file h))))
           ["java"; "src"; "main"; "resources"])
        ["logback.xml"] ] in
  exists found,
    snd (find_logback_xml h p) = Returned found /\
    (found = None <-> Forall (fun c => os_path_isfile h c = false) candidates) /\
    (forall t, found = Some t ->
       exists before after,
         candidates = before ++ t :: after /\
         Forall (fun c => os_path_isfile h c = false) before /\
         os_path_isfile h t = true).
Proof.
  intros candidates. rewrite find_logback_xml_trace. cbn [snd].
  exists (spec_located_logback h). split; [reflexivity|].
  unfold spec_located_logback.
  change (spec_logback_candidates h) with candidates.
  pose proof (find_first_split (os_path_isfile h) candidates) as Hsplit.
  destruct (List.find (os_path_isfile h) candidates) as [t|] eqn:Hfind.
  - split.
    + split; [discriminate|]. intros Hnone.
      apply probed_no_file in Hnone as [_ Hnone]. congruence.
    + intros t' Heq. injection Heq as <-. exact Hsplit.
  - split; [now split|]. discriminate.
Qed.

(** X2. [find_logback_xml] only probes: its events are the [isfile]
    tests of the candidates up to and including the first match, all
    three when there is none, and nothing else of the process changes. *)
Theorem find_logback_probes_lazily (h : Host) (p : Proc B) :
  let candidates := spec_logback_candidates h in
  fst (find_logback_xml h p)
    = add_trace p (events_of find_logback_xml h p) /\
  (forall before t after,
     candidates = before ++ t :: after ->
     Forall (fun c => os_path_isfile h c = false) before ->
     os_path_isfile h t = true ->
     events_of find_logback_xml h p = map EvIsfile (before ++ [t])) /\
  (Forall (fun c => os_path_isfile h c = false) candidates ->
   events_of find_logback_xml h p = map EvIsfile candidates) /\
  1 <= length (events_of find_logback_xml h p) <= 3.
Proof.
  intros candidates.
  assert (Hev : events_of find_logback_xml h p
                = map EvIsfile (probed (os_path_isfile h) candidates)).
  { unfold events_of. rewrite find_logback_xml_trace. now apply new_events_app. }
  rewrite Hev. split; [now rewrite find_logback_xml_trace|]. split; [|split].
  - intros before t after Hc Hb Ht. rewrite Hc.
    now destruct (probed_first_file (os_path_isfile h) before after t Hb Ht) as [-> _].
  - intros Hnone. now destruct (probed_no_file _ _ Hnone) as [-> _].
  - rewrite length_map. unfold candidates, spec_logback_candidates.
    cbn [map probed].
    repeat (destruct (os_path_isfile h _)); simpl; lia.
Qed.

End Locator.

(** X2 on a concrete host. *)
Lemma find_logback_probes_lazily_witness :
  events_of find_logback_xml linux_host (cold_process no_faults)
    = [EvIsfile "./logback.xml";
       EvIsfile "/site/cellprofiler_core/utilities/logback.xml"].
Proof.
  apply (proj1 (proj2 (find_logback_probes_lazily linux_host (cold_process no_faults)))
           ["./logback.xml"] "/site/cellprofiler_core/utilities/logback.xml"
           ["/site/java/src/main/resources/logback.xml"]).
  - vm_compute. reflexivity.
  - repeat constructor.
  - reflexivity.
Defined.

(** X1 on a concrete host. *)
Lemma find_logback_first_match_witness :
  exists before after,
    [ "./logback.xml"; "/site/cellprofiler_core/utilities/logback.xml";
      "/site/java/src/main/resources/logback.xml" ]
      = before ++ "/site/cellprofiler_core/utilities/logback.xml" :: after /\
    Forall (fun c => os_path_isfile linux_host c = false) before /\
    os_path_isfile linux_host "/site/cellprofiler_core/utilities/logback.xml" = true.
Proof.
  destruct (find_logback_first_match linux_host (cold_process no_faults))
    as (found & Hfound & _ & Hsome).
  apply (Hsome "/site/cellprofiler_core/utilities/logback.xml").
  vm_compute in Hfound. now injection Hfound as <-.
Defined.

(** ** More on the classpath assembler *)

Lemma split_no_sep (sep : ascii) (s : string) :
  Forall (fun seg => PyStr.mem sep seg = false) (PyStr.split sep s).
Proof.
  induction s as [|c s IH]; simpl; [repeat constructor|].
  destruct (Ascii.eqb c sep) eqn:Hc.
  - constructor; [reflexivity | exact IH].
  - destruct (PyStr.split sep s) as [|seg segs]; [repeat constructor; simpl; now rewrite Hc|].
    inversion IH as [|? ? Hseg Hsegs]; subst.
    constructor; [simpl; now rewrite Hc, Hseg | exact Hsegs].
Qed.

Lemma split_single (sep : ascii) (s : string) :
  PyStr.mem sep s = false -> PyStr.split sep s = [s].
Proof.
  induction s as [|c s IH]; simpl; [reflexivity|].
  intros Hm. apply orb_false_iff in Hm as (Hc & Hs).
  now rewrite Hc, (IH Hs).
Qed.

Lemma length_append (a b : string) :
  String.length (a +:+ b) = String.length a + String.length b.
Proof. induction a as [|c a IH]; simpl; [reflexivity|]. now rewrite IH. Qed.

Lemma drop_append (a b : string) : PyStr.drop (String.length a) (a +:+ b) = b.
Proof. induction a as [|c a IH]; simpl; [now destruct b|exact IH]. Qed.

Lemma lower_append (a b : string) :
  PyStr.lower (a +:+ b) = PyStr.lower a +:+ PyStr.lower b.
Proof. induction a as [|c a IH]; simpl; [reflexivity|]. now rewrite IH. Qed.

Lemma endswith_append (a b : string) : PyStr.endswith (a +:+ b) b = true.
Proof.
  unfold PyStr.endswith. rewrite length_append.
  replace (String.length a + String.length b - String.length b)
    with (String.length a) by lia.
  rewrite drop_append, String.eqb_refl, andb_true_r.
  apply Nat.leb_le. lia.
Qed.

Section AssemblerExtras.
Context {B : Type} `{Bridge B}.

(** The events of [get_jars], statement by statement. *)
Lemma get_jars_trace (h : Host) (p : Proc B) :
  events_of get_jars h p =
    [EvEnvironContains "CLASSPATH"]
    ++ match environ h !! "CLASSPATH" with
       | Some value =>
           [ EvEnvironGet "CLASSPATH";
             EvLog DEBUG "Adding Java class path from environment variable, CLASSPATH";
             EvEnvironGet "CLASSPATH";
             EvLog DEBUG ("    CLASSPATH=" +:+ value) ]
       | None => []
       end
    ++ [EvListdir (os_path_dirname h (prokaryote_file h))]
    ++ match os_listdir h (os_path_dirname h (prokaryote_file h)) with
       | inl _ => []
       | inr _ =>
           if PyStr.startswith (sys_platform h) "win" && negb (sys_frozen h)
           then EvFindJdk
                  :: match locate_find_jdk h with
                     | inr None => [EvLog WARNING "Failed to find tools.jar"]
                     | _ => []
                     end
           else []
       end.
Proof.
  unfold events_of, get_jars. py_run.
  destruct (environ h !! "CLASSPATH") as [value|] eqn:Hcp;
    [ rewrite bool_decide_eq_true_2 by eauto
    | rewrite bool_decide_eq_false_2 by (intros [? ?]; discriminate) ];
    py_run; rewrite ?Hcp; py_run;
    (destruct (os_listdir h _) as [e|names]; py_run;
     [ apply new_events_app; reflexivity | ]);
    (destruct (PyStr.startswith (sys_platform h) "win" && negb (sys_frozen h));
     py_run;
     [ destruct (locate_find_jdk h) as [e|[jdk|]]; py_run | ]);
    apply new_events_app; reflexivity.
Qed.

Lemma get_jars_result (h : Host) (p : Proc B) :
  snd (get_jars h p) = spec_get_jars h.
Proof. now destruct (get_jars_run h p) as (evs & _ & ->). Qed.

(** X3. With [CLASSPATH] unset [get_jars] contributes no environment
    entry, logs nothing at debug level and never subscripts
    [os.environ]: what it returns is the required archives, the scanned
    archives and the tools archive; it returns whenever the listing
    returns and the JDK lookup, where made, does not raise; and all it
    does is test membership, list the directory and, on non-frozen
    Windows only, look for a JDK and possibly warn. *)
Theorem get_jars_without_classpath (h : Host) (p : Proc B) :
  environ h !! "CLASSPATH" = None ->
  (forall cp,
     snd (get_jars h p) = Returned cp ->
     exists names,
       os_listdir h (os_path_dirname h (prokaryote_file h)) = inr names /\
       cp = javabridge_JARS h ++ spec_bundled h names ++ spec_tools h) /\
  (forall names,
     os_listdir h (os_path_dirname h (prokaryote_file h)) = inr names ->
     (PyStr.startswith (sys_platform h) "win" && negb (sys_frozen h) = true ->
      exists answer, locate_find_jdk h = inr answer) ->
     snd (get_jars h p)
       = Returned (javabridge_JARS h ++ spec_bundled h names ++ spec_tools h)) /\
  (forall e,
     In e (events_of get_jars h p) ->
     e = EvEnvironContains "CLASSPATH" \/
     e = EvListdir (os_path_dirname h (prokaryote_file h)) \/
     (PyStr.startswith (sys_platform h) "win" = true /\
      sys_frozen h = false /\
      (e = EvFindJdk \/ e = EvLog WARNING "Failed to find tools.jar"))).
Proof.
  intros Hcp.
  assert (Hshape : forall names,
            spec_classpath h names
              = javabridge_JARS h ++ spec_bundled h names ++ spec_tools h).
  { intros names. unfold spec_classpath, spec_env_entries. now rewrite Hcp. }
  split; [|split].
  - intros cp Hret.
    rewrite get_jars_result in Hret. unfold spec_get_jars, spec_bundle_dir in Hret.
    destruct (os_listdir h _) as [e|names]; [discriminate|].
    destruct (spec_jdk_failure h); [discriminate|].
    injection Hret as <-. exists names. split; [reflexivity|apply Hshape].
  - intros names Hls Hjdk.
    rewrite get_jars_result. unfold spec_get_jars, spec_bundle_dir.
    rewrite Hls. apply spec_jdk_failure_none in Hjdk. rewrite Hjdk.
    now rewrite Hshape.
  - intros e. rewrite get_jars_trace, Hcp. cbn [app].
    intros [<-|[<-|Hin]]; auto.
    destruct (os_listdir h _); [destruct Hin|].
    destruct (PyStr.startswith (sys_platform h) "win"); [|destruct Hin].
    destruct (sys_frozen h); [destruct Hin|].
    cbn [andb negb] in Hin. right; right.
    split; [reflexivity|]. split; [reflexivity|].
    destruct Hin as [<-|Hin]; [now left|].
    destruct (locate_find_jdk h) as [e'|[jdk|]];
      [destruct Hin|destruct Hin|].
    destruct Hin as [<-|[]]. now right.
Qed.

(** X4. After a listing that returned, [find_jdk] is consulted exactly
    on non-frozen Windows; the warning is logged exactly when it then
    answers [None], and the list is then returned without a tools
    entry; a lookup that raises makes [get_jars] raise the same
    exception, and no warning is logged. *)
Theorem tools_lookup_only_on_unfrozen_windows (h : Host) (p : Proc B)
    (names : list string) :
  os_listdir h (os_path_dirname h (prokaryote_file h)) = inr names ->
  (In EvFindJdk (events_of get_jars h p) <->
   PyStr.startswith (sys_platform h) "win" = true /\ sys_frozen h = false) /\
  (In (EvLog WARNING "Failed to find tools.jar") (events_of get_jars h p) <->
   PyStr.startswith (sys_platform h) "win" = true /\ sys_frozen h = false /\
   locate_find_jdk h = inr None) /\
  (In (EvLog WARNING "Failed to find tools.jar") (events_of get_jars h p) ->
   snd (get_jars h p)
     = Returned (spec_env_entries h ++ javabridge_JARS h ++ spec_bundled h names)) /\
  (forall e,
     PyStr.startswith (sys_platform h) "win" = true ->
     sys_frozen h = false ->
     locate_find_jdk h = inl e ->
     snd (get_jars h p) = Raises e /\
     ~ In (EvLog WARNING "Failed to find tools.jar") (events_of get_jars h p)).
Proof.
  intros Hls.
  assert (Htail : forall e,
            e = EvFindJdk \/ e = EvLog WARNING "Failed to find tools.jar" ->
            (In e (events_of get_jars h p) <->
             In e (if PyStr.startswith (sys_platform h) "win" && negb (sys_frozen h)
                   then EvFindJdk
                          :: match locate_find_jdk h with
                             | inr None => [EvLog WARNING "Failed to find tools.jar"]
                             | _ => []
                             end
                   else []))).
  { intros e He. rewrite get_jars_trace, Hls. split.
    - intros Hin. rewrite !in_app_iff in Hin.
      destruct Hin as [[Hin|[]]|[Hin|[[Hin|[]]|Hin]]];
        [ destruct He; subst e; discriminate Hin
        |
        | destruct He; subst e; discriminate Hin
        | exact Hin ].
      exfalso. destruct (environ h !! "CLASSPATH"); [|destruct Hin].
      destruct He; subst e;
        repeat (destruct Hin as [Hin|Hin]; [discriminate Hin|]); destruct Hin.
    - intros Hin. rewrite !in_app_iff. auto. }
  assert (Hraise : forall e,
            PyStr.startswith (sys_platform h) "win" = true ->
            sys_frozen h = false ->
            locate_find_jdk h = inl e ->
            snd (get_jars h p) = Raises e /\
            ~ In (EvLog WARNING "Failed to find tools.jar")
                 (events_of get_jars h p)).
  { intros e Hwin Hfrozen Hjdk. split.
    - rewrite get_jars_result.
      unfold spec_get_jars, spec_bundle_dir, spec_jdk_failure.
      now rewrite Hls, Hwin, Hfrozen, Hjdk.
    - rewrite (Htail (EvLog WARNING "Failed to find tools.jar")) by auto.
      rewrite Hwin, Hfrozen, Hjdk. intros Hin.
      destruct Hin as [Hin|[]]. discriminate Hin. }
  enough (Hrest :
    (In EvFindJdk (events_of get_jars h p) <->
     PyStr.startswith (sys_platform h) "win" = true /\ sys_frozen h = false) /\
    (In (EvLog WARNING "Failed to find tools.jar") (events_of get_jars h p) <->
     PyStr.startswith (sys_platform h) "win" = true /\ sys_frozen h = false /\
     locate_find_jdk h = inr None) /\
    (In (EvLog WARNING "Failed to find tools.jar") (events_of get_jars h p) ->
     snd (get_jars h p)
       = Returned (spec_env_entries h ++ javabridge_JARS h
                     ++ spec_bundled h names))).
  { destruct Hrest as (Hlookup & Hwarn & Hret).
    split; [exact Hlookup|]. split; [exact Hwarn|].
    split; [exact Hret|exact Hraise]. }
  clear Hraise.
  rewrite (Htail EvFindJdk) by auto.
  rewrite (Htail (EvLog WARNING "Failed to find tools.jar")) by auto.
  rewrite get_jars_result. unfold spec_get_jars, spec_bundle_dir. rewrite Hls.
  unfold spec_jdk_failure, spec_classpath, spec_tools.
  destruct (PyStr.startswith (sys_platform h) "win"); cbn [andb];
    [destruct (sys_frozen h); cbn [negb];
     [|destruct (locate_find_jdk h) as [e'|[jdk|]]]|].
  - split; [|split]; [ | | intros []].
    + split; [intros [] | intros (_ & Hc); discriminate Hc].
    + split; [intros [] | intros (_ & Hc & _); discriminate Hc].
  - split; [|split].
    + split; [auto | intros _; now left].
    + split; [intros [Hin|[]]; discriminate Hin
             | intros (_ & _ & Hc); discriminate Hc].
    + intros [Hin|[]]; discriminate Hin.
  - split; [|split].
    + split; [auto | intros _; now left].
    + split; [intros [Hin|[]]; discriminate Hin
             | intros (_ & _ & Hc); discriminate Hc].
    + intros [Hin|[]]; discriminate Hin.
  - split; [|split].
    + split; [auto | intros _; now left].
    + split; [auto | intros _; right; now left].
    + intros _. now rewrite app_nil_r.
  - split; [|split]; [ | | intros []].
    + split; [intros [] | intros (Hc & _); discriminate Hc].
    + split; [intros [] | intros (Hc & _); discriminate Hc].
Qed.

End AssemblerExtras.

Section AssemblerInvariants.
Context {B : Type} `{Bridge B}.

(** X5. [get_jars] leaves the bridge and [JAVA_STARTED] alone; all it
    does is log, read [CLASSPATH], list the directory and look for a
    JDK: no entry is tested for existence and the bridge is not called. *)
Theorem get_jars_only_assembles (h : Host) (p : Proc B) :
  fst (get_jars h p) = add_trace p (events_of get_jars h p) /\
  Forall (fun e => is_assembler_event e = true) (events_of get_jars h p) /\
  count_events is_isfile (events_of get_jars h p) = 0 /\
  count_events is_bridge_event (events_of get_jars h p) = 0.
Proof.
  destruct (get_jars_effects h p) as (evs & Heq & HP).
  assert (Hev : events_of get_jars h p = evs).
  { unfold events_of. apply new_events_app. now rewrite Heq. }
  rewrite Hev. split; [exact Heq|]. split; [exact HP|].
  split; apply count_events_none; (eapply Forall_impl; [exact HP|]);
    intros e He; cbv beta in He; destruct e; try reflexivity; discriminate He.
Qed.

(** X6. [get_jars] raises [e] exactly when listing the
    bundled-archive directory raises [e], or the listing returns and
    the JDK lookup, made on non-frozen Windows, raises [e]. *)
Theorem get_jars_raises_iff_listing_or_lookup_raises (h : Host) (p : Proc B)
    (e : Exn) :
  snd (get_jars h p) = Raises e <->
  os_listdir h (os_path_dirname h (prokaryote_file h)) = inl e \/
  ((exists names,
      os_listdir h (os_path_dirname h (prokaryote_file h)) = inr names) /\
   PyStr.startswith (sys_platform h) "win" = true /\
   sys_frozen h = false /\
   locate_find_jdk h = inl e).
Proof.
  rewrite get_jars_result. unfold spec_get_jars, spec_bundle_dir, spec_jdk_failure.
  destruct (os_listdir h _) as [e'|names].
  - split.
    + intros Heq. injection Heq as ->. now left.
    + intros [Heq|((names & Hc) & _)]; [now injection Heq as ->|discriminate Hc].
  - destruct (PyStr.startswith (sys_platform h) "win"); cbn [andb];
      [destruct (sys_frozen h); cbn [negb];
       [|destruct (locate_find_jdk h) as [e'|answer]]|].
    + split; [discriminate|].
      intros [Hc|(_ & _ & Hc & _)]; discriminate Hc.
    + split.
      * intros Heq. injection Heq as ->. right. eauto.
      * intros [Hc|(_ & _ & _ & Heq)]; [discriminate Hc|now injection Heq as ->].
    + split; [discriminate|].
      intros [Hc|(_ & _ & _ & Hc)]; discriminate Hc.
    + split; [discriminate|].
      intros [Hc|(_ & Hc & _)]; discriminate Hc.
Qed.

(** X7. No entry taken from [CLASSPATH] contains the path separator,
    and a value without a separator, the empty value included, becomes
    exactly one leading entry. *)
Theorem classpath_entries_separator_free (h : Host) (p : Proc B)
    (value : string) (cp : list string) :
  environ h !! "CLASSPATH" = Some value ->
  snd (get_jars h p) = Returned cp ->
  Forall (fun entry => PyStr.mem (os_pathsep h) entry = false)
         (List.firstn (S (PyStr.count (os_pathsep h) value)) cp) /\
  (PyStr.mem (os_pathsep h) value = false ->
   exists names,
     os_listdir h (os_path_dirname h (prokaryote_file h)) = inr names /\
     cp = value :: javabridge_JARS h ++ spec_bundled h names ++ spec_tools h).
Proof.
  intros Hcp Hret.
  apply get_jars_returned in Hret as (names & Hls & _ & ->).
  unfold spec_classpath, spec_env_entries. rewrite Hcp. split.
  - rewrite <- split_length, List.firstn_app, Nat.sub_diag, List.firstn_all.
    simpl. rewrite app_nil_r. apply split_no_sep.
  - intros Hno. exists names. split; [exact Hls|].
    now rewrite (split_single _ _ Hno).
Qed.

(** X8. Nothing is deduplicated: an entry occurs in the result as
    often as in the four sources together, and the result is as long as
    the four sources together. *)
Theorem classpath_keeps_duplicates (h : Host) (p : Proc B)
    (names cp : list string) (entry : string) :
  os_listdir h (os_path_dirname h (prokaryote_file h)) = inr names ->
  snd (get_jars h p) = Returned cp ->
  count_occ string_dec cp entry
    = count_occ string_dec (spec_env_entries h) entry
      + count_occ string_dec (javabridge_JARS h) entry
      + count_occ string_dec (spec_bundled h names) entry
      + count_occ string_dec (spec_tools h) entry /\
  length cp
    = length (spec_env_entries h) + length (javabridge_JARS h)
      + length (List.filter (fun f => PyStr.endswith (PyStr.lower f) ".jar") names)
      + length (spec_tools h).
Proof.
  intros Hls Hret.
  apply get_jars_returned in Hret as (names' & Hls' & _ & ->).
  rewrite Hls in Hls'. injection Hls' as <-.
  unfold spec_classpath. rewrite !count_occ_app, !length_app.
  unfold spec_bundled. rewrite length_map. split; lia.
Qed.

(** X9. A listed file whose extension is [.jar] in any mix of upper
    and lower case is in the returned classpath, joined to the
    directory. *)
Theorem bundled_extension_any_case (h : Host) (p : Proc B)
    (names cp : list string) (stem ext : string) :
  os_listdir h (os_path_dirname h (prokaryote_file h)) = inr names ->
  snd (get_jars h p) = Returned cp ->
  In (stem +:+ ext) names ->
  PyStr.lower ext = ".jar" ->
  In (os_path_join h (os_path_dirname h (prokaryote_file h)) [stem +:+ ext]) cp.
Proof.
  intros Hls Hret Hin Hext.
  apply get_jars_returned in Hret as (names' & Hls' & _ & ->).
  rewrite Hls in Hls'. injection Hls' as <-.
  unfold spec_classpath, spec_bundled, spec_bundle_dir.
  apply in_or_app; right. apply in_or_app; right. apply in_or_app; left.
  apply (in_map (fun f => os_path_join h (os_path_dirname h (prokaryote_file h)) [f])).
  apply filter_In. split; [exact Hin|].
  now rewrite lower_append, Hext, endswith_append.
Qed.

End AssemblerInvariants.

(** X6 on two concrete hosts: a lookup that raises, a listing that
    raises. *)
Lemma get_jars_raises_iff_listing_or_lookup_raises_witness :
  snd (get_jars jdkless_windows_host (cold_process no_faults))
    = Raises (Raised "RuntimeError") /\
  snd (get_jars unlisted_linux_host (cold_process no_faults))
    = Raises (Raised "PermissionError").
Proof.
  split.
  - apply (proj2 (get_jars_raises_iff_listing_or_lookup_raises
                    jdkless_windows_host (cold_process no_faults)
                    (Raised "RuntimeError"))).
    right. split; [|repeat split].
    exists ["bioformats.jar"; "LICENSE"]. vm_compute. reflexivity.
  - apply (proj2 (get_jars_raises_iff_listing_or_lookup_raises
                    unlisted_linux_host (cold_process no_faults)
                    (Raised "PermissionError"))).
    left. reflexivity.
Defined.

(** X7 on a concrete host. *)
Lemma classpath_entries_separator_free_witness :
  Forall (fun entry => PyStr.mem ":" entry = false)
         (List.firstn 2 linux_classpath).
Proof.
  assert (Hcp : environ linux_host !! "CLASSPATH" = Some "/opt/a.jar:/opt/b.jar")
    by (vm_compute; reflexivity).
  assert (Hret : snd (get_jars linux_host (cold_process no_faults))
                 = Returned linux_classpath)
    by (vm_compute; reflexivity).
  exact (proj1 (classpath_entries_separator_free linux_host
                  (cold_process no_faults) _ _ Hcp Hret)).
Defined.

(** X8 on a concrete host. *)
Lemma classpath_keeps_duplicates_witness :
  length linux_classpath = 2 + 2 + 2 + 0.
Proof.
  assert (Hls : os_listdir linux_host
                  (os_path_dirname linux_host (prokaryote_file linux_host))
                = inr ["__init__.py"; "bioformats.jar"; "README"; "Rhino.JAR"])
    by (vm_compute; reflexivity).
  assert (Hret : snd (get_jars linux_host (cold_process no_faults))
                 = Returned linux_classpath)
    by (vm_compute; reflexivity).
  exact (proj2 (classpath_keeps_duplicates linux_host (cold_process no_faults)
                  _ _ "/opt/a.jar" Hls Hret)).
Defined.

(** X9 on a concrete host. *)
Lemma bundled_extension_any_case_witness :
  In "/site/prokaryote/Rhino.JAR" linux_classpath.
Proof.
  assert (Hls : os_listdir linux_host
                  (os_path_dirname linux_host (prokaryote_file linux_host))
                = inr ["__init__.py"; "bioformats.jar"; "README"; "Rhino.JAR"])
    by (vm_compute; reflexivity).
  assert (Hret : snd (get_jars linux_host (cold_process no_faults))
                 = Returned linux_classpath)
    by (vm_compute; reflexivity).
  apply (bundled_extension_any_case linux_host (cold_process no_faults)
           _ _ "Rhino" ".JAR" Hls Hret).
  - simpl. tauto.
  - reflexivity.
Defined.

(** X3 on a concrete host. *)
Lemma get_jars_without_classpath_witness :
  snd (get_jars bare_linux_host (cold_process no_faults))
    = Returned bare_linux_classpath.
Proof.
  assert (Hcp : environ bare_linux_host !! "CLASSPATH" = None)
    by (vm_compute; reflexivity).
  assert (Hls : os_listdir bare_linux_host
                  (os_path_dirname bare_linux_host
                     (prokaryote_file bare_linux_host))
                = inr ["__init__.py"; "bioformats.jar"; "README"; "Rhino.JAR"])
    by (vm_compute; reflexivity).
  assert (Hjdk : PyStr.startswith (sys_platform bare_linux_host) "win"
                   && negb (sys_frozen bare_linux_host) = true ->
                 exists answer, locate_find_jdk bare_linux_host = inr answer)
    by (intros _; exists None; reflexivity).
  exact (proj1 (proj2 (get_jars_without_classpath bare_linux_host
                         (cold_process no_faults) Hcp))
           _ Hls Hjdk).
Defined.

(** X4 on a concrete host. *)
Lemma tools_lookup_only_on_unfrozen_windows_witness :
  In EvFindJdk (events_of get_jars (windows_host false) (cold_process no_faults)) /\
  ~ In EvFindJdk (events_of get_jars (windows_host true) (cold_process no_faults)) /\
  snd (get_jars jdkless_windows_host (cold_process no_faults))
    = Raises (Raised "RuntimeError") /\
  In (EvLog WARNING "Failed to find tools.jar")
     (events_of get_jars toolless_windows_host (cold_process no_faults)).
Proof.
  assert (Hls : forall frozen,
            os_listdir (windows_host frozen)
              (os_path_dirname (windows_host frozen)
                 (prokaryote_file (windows_host frozen)))
            = inr ["bioformats.jar"; "LICENSE"])
    by (intros frozen; vm_compute; reflexivity).
  assert (Hls' : forall h,
            os_listdir h = os_listdir (windows_host false) ->
            os_path_dirname h = os_path_dirname (windows_host false) ->
            prokaryote_file h = prokaryote_file (windows_host false) ->
            os_listdir h (os_path_dirname h (prokaryote_file h))
            = inr ["bioformats.jar"; "LICENSE"])
    by (intros h -> -> ->; vm_compute; reflexivity).
  split; [|split; [|split]].
  - apply (proj1 (tools_lookup_only_on_unfrozen_windows (windows_host false)
                    (cold_process no_faults) _ (Hls false))).
    split; reflexivity.
  - intros Hin.
    apply (proj1 (tools_lookup_only_on_unfrozen_windows (windows_host true)
                    (cold_process no_faults) _ (Hls true))) in Hin.
    destruct Hin as [_ Hfrozen]. discriminate Hfrozen.
  - apply (proj2 (proj2 (proj2 (tools_lookup_only_on_unfrozen_windows
                                  jdkless_windows_host (cold_process no_faults) _
                                  (Hls' jdkless_windows_host
                                     eq_refl eq_refl eq_refl))))
             (Raised "RuntimeError")); reflexivity.
  - apply (proj1 (proj2 (tools_lookup_only_on_unfrozen_windows
                           toolless_windows_host (cold_process no_faults) _
                           (Hls' toolless_windows_host
                              eq_refl eq_refl eq_refl)))).
    repeat split; reflexivity.
Defined.

(** ** More on the lifecycle controller *)

Lemma count_events_excluded (kind : Event -> bool) (P : Event -> Prop)
    (evs : list Event) :
  (forall e, P e -> kind e = false) ->
  Forall P evs -> count_events kind evs = 0.
Proof.
  intros Hk Hev. apply count_events_none.
  eapply Forall_impl; [exact Hev|]. exact Hk.
Qed.

Section ControllerShape.
Context {B : Type} `{Bridge B}.

(** The boot sequence only makes its own five kinds of call. *)
Lemma boot_vm_shape (tid : Tid) (args cp : list string) (h : Host) (q : Proc B) :
  exists evs,
    trace (fst (boot_vm tid args cp h q)) = trace q ++ evs /\
    Forall (fun e => is_boot_event tid e = true) evs /\
    count_events is_start_vm evs = 1 /\
    count_events is_attach evs <= 1 /\
    (snd (boot_vm tid args cp h q) = Returned tt ->
     count_events is_attach evs = 1 /\
     count_events (is_attached tid) evs = 1).
Proof.
  assert (Htid : Nat.eqb tid tid = true) by apply Nat.eqb_refl.
  unfold boot_vm. bridge_run.
  destruct (vm_start args cp (bridge q)) as [b1 [e1|]]; bridge_run.
  { eexists. split; [reflexivity|]. split; [repeat constructor|].
    split; [reflexivity|]. split; [unfold count_events; simpl; lia | discriminate]. }
  destruct (vm_attach tid b1) as [b2 [e2|]]; bridge_run.
  { rewrite <- ?app_assoc. eexists. split; [reflexivity|].
    split; [repeat constructor; exact Htid|].
    split; [reflexivity|]. split; [unfold count_events; simpl; lia | discriminate]. }
  destruct (vm_class_wrapper "loci.common.Location" b2) as [b3 [e3|]]; bridge_run.
  { rewrite <- ?app_assoc. eexists. split; [reflexivity|].
    split; [repeat constructor; exact Htid|].
    split; [reflexivity|]. split; [unfold count_events; simpl; lia | discriminate]. }
  destruct (vm_cache_directory_listings true b3) as [b4 [e4|]]; bridge_run.
  { rewrite <- ?app_assoc. eexists. split; [reflexivity|].
    split; [repeat constructor; exact Htid|].
    split; [reflexivity|]. split; [unfold count_events; simpl; lia | discriminate]. }
  rewrite <- ?app_assoc. eexists. split; [reflexivity|].
  split; [repeat constructor; exact Htid|].
  split; [reflexivity|]. split; [unfold count_events; simpl; lia|].
  intros _. unfold count_events. simpl. now rewrite Htid.
Qed.

(** The events of any call of [start_java]: the activity check, then
    assembly events, then boot events. *)
Lemma start_java_shape (tid : Tid) (h : Host) (p : Proc B) :
  exists pre boot,
    events_of (start_java tid) h p
      = EvIsActive (vm_is_active (bridge p)) :: pre ++ boot /\
    Forall (fun e => is_startup_event e = true) pre /\
    Forall (fun e => is_boot_event tid e = true) boot /\
    count_events is_start_vm boot <= 1 /\
    count_events is_attach boot <= 1 /\
    (vm_is_active (bridge p) = true -> pre = [] /\ length boot = 1) /\
    (snd (start_java tid h p) = Returned tt ->
     count_events is_attach boot = 1 /\
     count_events (is_attached tid) boot = 1).
Proof.
  assert (Htid : Nat.eqb tid tid = true) by apply Nat.eqb_refl.
  destruct (vm_is_active (bridge p)) eqn:Ha.
  - exists [], [EvAttach tid (snd (vm_attach tid (bridge p)))].
    unfold events_of. rewrite (start_java_warm tid h p Ha), attach_run; simpl.
    split; [apply new_events_app; simpl; now rewrite <- app_assoc|].
    split; [constructor|]. split; [repeat constructor; exact Htid|].
    split; [unfold count_events; simpl; lia|]. split; [unfold count_events; simpl; lia|].
    split; [auto|].
    destruct (snd (vm_attach tid (bridge p))); [discriminate|].
    intros _. unfold count_events. simpl. now rewrite Htid.
  - unfold events_of, start_java, bind, is_active. rewrite Ha.
    destruct (build_startup_effects h (add_trace p [EvIsActive false]))
      as (pre & Heq & HP).
    destruct (build_startup h (add_trace p [EvIsActive false])) as [q [s|e]];
      cbn [fst snd] in Heq |- *; subst q; rewrite add_trace_app.
    + destruct (boot_vm_shape tid (fst s) (snd s) h
                  (add_trace p ([EvIsActive false] ++ pre)))
        as (boot & Htr & Hboot & Hstart & Hattach & Hret).
      exists pre, boot. split.
      { apply new_events_app. rewrite Htr. simpl. now rewrite <- app_assoc. }
      split; [exact HP|]. split; [exact Hboot|]. split; [lia|].
      split; [exact Hattach|]. split; [discriminate | exact Hret].
    + exists pre, []. rewrite app_nil_r.
      split; [now apply new_events_app|]. split; [exact HP|].
      split; [constructor|]. split; [unfold count_events; simpl; lia|]. split; [unfold count_events; simpl; lia|].
      split; discriminate.
Qed.

(** X10. One call of [start_java] checks activity exactly once, calls
    [start_vm] at most once and [attach] at most once, attaches only
    the calling thread and never calls [kill_vm]. *)
Theorem start_java_call_budget (tid : Tid) (h : Host) (p : Proc B) :
  let evs := events_of (start_java tid) h p in
  count_events is_activity_check evs = 1 /\
  count_events is_start_vm evs <= 1 /\
  count_events is_attach evs <= 1 /\
  count_events is_kill_vm evs = 0 /\
  (forall t f, In (EvAttach t f) evs -> t = tid).
Proof.
  cbv zeta.
  destruct (start_java_shape tid h p)
    as (pre & boot & -> & Hpre & Hboot & Hstart & Hattach & _).
  assert (Hp : forall kind,
            (forall e, is_startup_event e = true -> kind e = false) ->
            count_events kind pre = 0)
    by (intros kind Hk; now apply (count_events_excluded kind _ pre Hk)).
  assert (Hb : forall kind,
            (forall e, is_boot_event tid e = true -> kind e = false) ->
            count_events kind boot = 0)
    by (intros kind Hk; now apply (count_events_excluded kind _ boot Hk)).
  change (EvIsActive (vm_is_active (bridge p)) :: pre ++ boot)
    with ([EvIsActive (vm_is_active (bridge p))] ++ pre ++ boot).
  rewrite !(count_events_app is_activity_check), !(count_events_app is_start_vm),
    !(count_events_app is_attach), !(count_events_app is_kill_vm).
  rewrite (Hp is_activity_check), (Hp is_start_vm), (Hp is_attach),
    (Hp is_kill_vm), (Hb is_activity_check), (Hb is_kill_vm);
    try (intros e He; destruct e as [[]| | | | | | | | | | | |];
         try reflexivity; discriminate He).
  change (count_events is_activity_check [EvIsActive (vm_is_active (bridge p))])
    with 1.
  change (count_events is_start_vm [EvIsActive (vm_is_active (bridge p))]) with 0.
  change (count_events is_attach [EvIsActive (vm_is_active (bridge p))]) with 0.
  change (count_events is_kill_vm [EvIsActive (vm_is_active (bridge p))]) with 0.
  split; [lia|]. split; [lia|]. split; [lia|]. split; [lia|].
  intros t f Hin. rewrite !in_app_iff in Hin.
  destruct Hin as [[Hin|[]]|[Hin|Hin]]; [discriminate Hin| |].
  - rewrite Forall_forall in Hpre. apply list_elem_of_In in Hin.
    apply Hpre in Hin. discriminate Hin.
  - rewrite Forall_forall in Hboot. apply list_elem_of_In in Hin.
    apply Hboot in Hin. simpl in Hin. now apply Nat.eqb_eq in Hin.
Qed.

(** X11. A call of [start_java] that reads an environment variable is
    a cold start, and the variable is [CLASSPATH] or [CP_JDWP_PORT]. *)
Theorem start_java_reads_two_variables (tid : Tid) (h : Host) (p : Proc B)
    (e : Event) (key : string) :
  In e (events_of (start_java tid) h p) ->
  env_key e = Some key ->
  vm_is_active (bridge p) = false /\
  (key = "CLASSPATH" \/ key = "CP_JDWP_PORT").
Proof.
  destruct (start_java_shape tid h p)
    as (pre & boot & -> & Hpre & Hboot & _ & _ & Hwarm & _).
  intros Hin Hkey.
  change (EvIsActive (vm_is_active (bridge p)) :: pre ++ boot)
    with ([EvIsActive (vm_is_active (bridge p))] ++ pre ++ boot) in Hin.
  rewrite !in_app_iff in Hin.
  destruct Hin as [[<-|[]]|[Hin|Hin]]; [discriminate Hkey| |].
  - split.
    + destruct (vm_is_active (bridge p)); [|reflexivity].
      destruct (Hwarm eq_refl) as [-> _]. destruct Hin.
    + rewrite Forall_forall in Hpre. apply list_elem_of_In in Hin.
      apply Hpre in Hin.
      destruct e; try discriminate Hkey; injection Hkey as ->; simpl in Hin;
        apply orb_true_iff in Hin as [Hin|Hin]; apply String.eqb_eq in Hin; auto.
  - rewrite Forall_forall in Hboot. apply list_elem_of_In in Hin.
    apply Hboot in Hin. destruct e; try discriminate Hkey; discriminate Hin.
Qed.

(** X12. When [start_java] returns, on either path, it has attached
    the calling thread exactly once, successfully. *)
Theorem returned_start_has_attached (tid : Tid) (h : Host) (p : Proc B) :
  snd (start_java tid h p) = Returned tt ->
  count_events (is_attached tid) (events_of (start_java tid) h p) = 1 /\
  count_events is_attach (events_of (start_java tid) h p) = 1.
Proof.
  intros Hret.
  destruct (start_java_shape tid h p)
    as (pre & boot & -> & Hpre & _ & _ & _ & _ & Hok).
  destruct (Hok Hret) as [Hattach Hattached].
  change (EvIsActive (vm_is_active (bridge p)) :: pre ++ boot)
    with ([EvIsActive (vm_is_active (bridge p))] ++ pre ++ boot).
  rewrite !(count_events_app (is_attached tid)), !(count_events_app is_attach).
  rewrite (count_events_excluded (is_attached tid)
             (fun e => is_startup_event e = true) pre),
    (count_events_excluded is_attach (fun e => is_startup_event e = true) pre),
    Hattach, Hattached;
    try exact Hpre;
    try (intros e He; destruct e as [[]| | | | | | | | | | | |];
         try reflexivity; discriminate He).
  split; reflexivity.
Qed.

End ControllerShape.

(** ** The startup arguments, flag by flag *)

Lemma replace_without_backslash (s : string) :
  PyStr.mem "\" s = false -> PyStr.replace "\" "/" s = s.
Proof.
  induction s as [|c s IH]; simpl; [reflexivity|].
  intros Hm. apply orb_false_iff in Hm as (Hc & Hs).
  now rewrite Hc, (IH Hs).
Qed.

Lemma replace_length (a b : ascii) (s : string) :
  String.length (PyStr.replace a b s) = String.length s.
Proof. induction s as [|c s IH]; simpl; [reflexivity|]. now rewrite IH. Qed.

(** Rewriting a rewritten path changes nothing. *)
Lemma spec_windows_rewrite_idem (path : string) :
  spec_windows_rewrite (spec_windows_rewrite path) = spec_windows_rewrite path /\
  String.length path <= String.length (spec_windows_rewrite path).
Proof.
  pose proof (windows_rewrite_no_backslash path) as Hno.
  pose proof (replace_length "\" "/" path) as Hlen.
  unfold spec_windows_rewrite in *.
  destruct (PyStr.replace "\" "/" path) as [|d [|c rest]] eqn:Hrep.
  - rewrite <- Hlen. simpl. split; [reflexivity|lia].
  - rewrite <- Hlen. split; [|simpl; lia].
    rewrite (replace_without_backslash _ Hno). reflexivity.
  - destruct (Ascii.eqb_spec c ":") as [->|Hne].
    + rewrite (replace_without_backslash _ Hno). split; [reflexivity|].
      rewrite <- Hlen, length_append. cbn [String.length].
      rewrite length_append. cbn [String.length]. lia.
    + assert (Hother :
        match String d (String c rest) with
        | String d0 (String ":" rest0) => "//localhost/" +:+ String d0 ("$" +:+ rest0)
        | other => other
        end = String d (String c rest)).
      { destruct c as [[] [] [] [] [] [] [] []]; try reflexivity; congruence. }
      rewrite Hother in *. rewrite (replace_without_backslash _ Hno), Hother.
      split; [reflexivity|]. rewrite <- Hlen. lia.
Qed.

Lemma logback_flag_recognised (x : string) :
  is_logback_flag ("-Dlogback.configurationFile=" +:+ x) = true.
Proof. destruct x; reflexivity. Qed.

Section StartupArguments.
Context {B : Type} `{Bridge B}.

(** X13. The Windows rewriting applied to its own result returns it
    unchanged. *)
Theorem windows_rewrite_idempotent (path path' : string) (h : Host) (q : Proc B) :
  windows_logback_path path h q = (q, Returned path') ->
  windows_logback_path path' h q = (q, Returned path').
Proof.
  rewrite !windows_logback_path_run.
  destruct (2 <=? String.length path)%nat eqn:Hlen; [|discriminate].
  intros Heq. injection Heq as <-.
  destruct (spec_windows_rewrite_idem path) as [-> Hle].
  apply Nat.leb_le in Hlen.
  assert (Hlen' : (2 <=? String.length (spec_windows_rewrite path))%nat = true)
    by (apply Nat.leb_le; lia).
  now rewrite Hlen'.
Qed.

(** X14. The arguments of a start call begin with the two fixed flags,
    number between two and five, and hold one logging-config flag when
    a configuration file was located and none otherwise. *)
Theorem logback_flag_iff_located (tid : Tid) (h : Host) (p : Proc B)
    (args cp : list string) (found : option string) :
  In (args, cp) (start_vm_calls (events_of (start_java tid) h p)) ->
  snd (find_logback_xml h p) = Returned found ->
  length (List.filter is_logback_flag args)
    = match found with Some _ => 1 | None => 0 end /\
  List.firstn 2 args = [spec_loader_flag; spec_prefs_flag] /\
  2 <= length args <= 5.
Proof.
  intros Hin Hfound.
  apply start_call_args in Hin as (_ & logback & names & Hlog & _ & -> & _).
  rewrite find_logback_xml_result in Hfound. injection Hfound as <-.
  assert (Hrest : List.filter is_logback_flag
                    (spec_headless_args h ++ spec_debug_args h) = [] /\
                  length (spec_headless_args h ++ spec_debug_args h) <= 2).
  { unfold spec_headless_args, spec_debug_args.
    destruct (preferences_get_awt_headless h);
      destruct (environ h !! "CP_JDWP_PORT"); split; simpl; (reflexivity || lia). }
  destruct Hrest as [Hnone Hle].
  rewrite List.filter_app, (List.filter_app _ logback), Hnone, app_nil_r,
    !length_app.
  unfold spec_logback_args in Hlog.
  destruct (spec_located_logback h) as [path|].
  - assert (Hflag : exists x, logback = ["-Dlogback.configurationFile=" +:+ x]).
    { destruct (PyStr.startswith (sys_platform h) "win");
        [destruct (2 <=? String.length path)%nat; [|discriminate]|];
        injection Hlog as <-; eauto. }
    destruct Hflag as (x & ->). rewrite length_app in Hle.
    cbn [List.filter]. rewrite logback_flag_recognised.
    split; [reflexivity|]. split; [reflexivity|]. simpl. lia.
  - injection Hlog as <-. rewrite length_app in Hle.
    split; [reflexivity|]. split; [|simpl; lia].
    unfold spec_headless_args, spec_debug_args.
    destruct (preferences_get_awt_headless h);
      destruct (environ h !! "CP_JDWP_PORT"); reflexivity.
Qed.

(** X15. The arguments of a start call contain the headless flag
    exactly when the preference is set. *)
Theorem headless_flag_iff_preference (tid : Tid) (h : Host) (p : Proc B)
    (args cp : list string) :
  In (args, cp) (start_vm_calls (events_of (start_java tid) h p)) ->
  (In "-Djava.awt.headless=true" args <-> preferences_get_awt_headless h = true).
Proof.
  intros Hin.
  apply start_call_args in Hin as (_ & logback & names & Hlog & _ & -> & _).
  assert (Hlb : ~ In "-Djava.awt.headless=true" logback).
  { unfold spec_logback_args in Hlog.
    destruct (spec_located_logback h) as [path|];
      [|injection Hlog as <-; intros []].
    destruct (PyStr.startswith (sys_platform h) "win");
      [destruct (2 <=? String.length path)%nat; [|discriminate]|];
      injection Hlog as <-; intros [Heq|[]]; cbv [String.append] in Heq;
      discriminate Heq. }
  assert (Hdbg : ~ In "-Djava.awt.headless=true" (spec_debug_args h)).
  { unfold spec_debug_args. destruct (environ h !! "CP_JDWP_PORT"); [|intros []].
    intros [Heq|[]]; cbv [String.append] in Heq; discriminate Heq. }
  rewrite !in_app_iff. unfold spec_headless_args.
  destruct (preferences_get_awt_headless h); split; intros Hx;
    try reflexivity; try discriminate Hx.
  - right. right. left. now left.
  - exfalso. destruct Hx as [[Heq|[Heq|[]]]|[Hx|[[]|Hx]]]; try tauto;
      discriminate Heq.
Qed.

(** X16. The classpath of a start call is what [get_jars] returns, and
    the call is the only one of its [start_java]. *)
Theorem classpath_handed_over_is_get_jars (tid : Tid) (h : Host) (p : Proc B)
    (args cp : list string) :
  In (args, cp) (start_vm_calls (events_of (start_java tid) h p)) ->
  snd (get_jars h p) = Returned cp /\
  start_vm_calls (events_of (start_java tid) h p) = [(args, cp)].
Proof.
  intros Hin. pose proof Hin as Hin'.
  apply start_call_args in Hin as (Ha & logback & names & Hlog & Hls & -> & ->).
  split.
  - rewrite start_java_calls, Ha in Hin'. rewrite get_jars_result.
    unfold spec_startup in Hin'. unfold spec_get_jars.
    destruct (spec_logback_args h); [|destruct Hin'].
    destruct (os_listdir h (spec_bundle_dir h)); [destruct Hin'|].
    destruct (spec_jdk_failure h); [destruct Hin'|].
    destruct Hin' as [Heq|[]]. now injection Heq as _ <-.
  - rewrite start_java_calls, Ha in Hin' |- *.
    destruct (spec_startup h) as [s|e]; [|destruct Hin'].
    destruct Hin' as [->|[]]. reflexivity.
Qed.

(** X17. Whatever [CP_JDWP_PORT] holds is substituted unchecked into
    the agent argument, which is the last argument of the start call
    and its only debug-agent argument. *)
Theorem debug_port_is_passed_verbatim (tid : Tid) (h : Host) (p : Proc B)
    (args cp : list string) (port : string) :
  environ h !! "CP_JDWP_PORT" = Some port ->
  In (args, cp) (start_vm_calls (events_of (start_java tid) h p)) ->
  List.last args EmptyString
    = "-agentlib:jdwp=transport=dt_socket,address=127.0.0.1:" +:+ port
        +:+ ",server=y,suspend=n" /\
  length (List.filter is_debug_agent_flag args) = 1.
Proof.
  intros Hport Hin.
  apply start_call_args in Hin as (_ & logback & names & Hlog & _ & -> & _).
  unfold spec_debug_args. rewrite Hport. split.
  - rewrite !app_assoc. apply List.last_last.
  - rewrite !List.filter_app, !length_app.
    assert (Hlb : List.filter is_debug_agent_flag logback = []).
    { unfold spec_logback_args in Hlog.
      destruct (spec_located_logback h) as [path|]; [|now injection Hlog as <-].
      destruct (PyStr.startswith (sys_platform h) "win");
        [destruct (2 <=? String.length path)%nat; [|discriminate]|];
        now injection Hlog as <-. }
    rewrite Hlb. unfold spec_headless_args.
    destruct (preferences_get_awt_headless h); reflexivity.
Qed.

(** X18. When the directory listing raises during a cold start,
    [start_java] raises before any bridge call beyond the activity
    check; the bridge and the flag are unchanged. *)
Theorem listing_failure_aborts_cold_start (tid : Tid) (h : Host) (p : Proc B)
    (e : Exn) :
  vm_is_active (bridge p) = false ->
  os_listdir h (os_path_dirname h (prokaryote_file h)) = inl e ->
  exists e',
    snd (start_java tid h p) = Raises e' /\
    (e' = e \/ e' = IndexError) /\
    (PyStr.startswith (sys_platform h) "win" = false -> e' = e) /\
    bridge (fst (start_java tid h p)) = bridge p /\
    JAVA_STARTED (fst (start_java tid h p)) = JAVA_STARTED p /\
    count_events is_bridge_event (events_of (start_java tid) h p) = 1.
Proof.
  intros Ha Hls.
  destruct (start_java_cold tid h p Ha) as (evs & Hev & Hrun).
  assert (Hs : exists e', spec_startup h = Raises e' /\
                          (e' = e \/ e' = IndexError) /\
                          (PyStr.startswith (sys_platform h) "win" = false -> e' = e)).
  { unfold spec_startup, spec_logback_args, spec_bundle_dir. rewrite Hls.
    destruct (spec_located_logback h) as [path|]; [|eauto].
    destruct (PyStr.startswith (sys_platform h) "win"); [|eauto].
    destruct (2 <=? String.length path)%nat; [eauto|].
    exists IndexError. repeat split; auto. discriminate. }
  destruct Hs as (e' & Hs & Hor & Hposix). rewrite Hs in Hrun.
  exists e'. unfold events_of. rewrite Hrun. cbn [fst snd].
  repeat split; auto.
  rewrite (new_events_app p _ (EvIsActive false :: evs)) by reflexivity.
  change (EvIsActive false :: evs) with ([EvIsActive false] ++ evs).
  rewrite count_events_app, (count_events_none _ evs Hev). reflexivity.
Qed.

(** X23. When the JDK lookup raises during a cold start on non-frozen
    Windows, [start_java] raises before any bridge call beyond the
    activity check: the start operation is not called, and the bridge
    and the flag are unchanged. *)
Theorem jdk_lookup_failure_aborts_cold_start (tid : Tid) (h : Host)
    (p : Proc B) (names : list string) (e : Exn) :
  vm_is_active (bridge p) = false ->
  os_listdir h (os_path_dirname h (prokaryote_file h)) = inr names ->
  PyStr.startswith (sys_platform h) "win" = true ->
  sys_frozen h = false ->
  locate_find_jdk h = inl e ->
  exists e',
    snd (start_java tid h p) = Raises e' /\
    (e' = e \/ e' = IndexError) /\
    start_vm_calls (events_of (start_java tid) h p) = [] /\
    bridge (fst (start_java tid h p)) = bridge p /\
    JAVA_STARTED (fst (start_java tid h p)) = JAVA_STARTED p /\
    count_events is_bridge_event (events_of (start_java tid) h p) = 1.
Proof.
  intros Ha Hls Hwin Hfrozen Hjdk.
  destruct (start_java_cold tid h p Ha) as (evs & Hev & Hrun).
  assert (Hs : exists e', spec_startup h = Raises e' /\
                          (e' = e \/ e' = IndexError)).
  { unfold spec_startup, spec_logback_args, spec_bundle_dir, spec_jdk_failure.
    rewrite Hls, Hwin, Hfrozen, Hjdk. cbn [andb negb].
    destruct (spec_located_logback h) as [path|]; [|eauto].
    destruct (2 <=? String.length path)%nat; eauto. }
  destruct Hs as (e' & Hs & Hor). rewrite Hs in Hrun.
  exists e'. unfold events_of. rewrite Hrun. cbn [fst snd].
  rewrite (new_events_app p _ (EvIsActive false :: evs)) by reflexivity.
  split; [reflexivity|]. split; [exact Hor|].
  split; [cbn [start_vm_calls]; now apply start_vm_calls_host|].
  split; [reflexivity|]. split; [reflexivity|].
  change (EvIsActive false :: evs) with ([EvIsActive false] ++ evs).
  rewrite count_events_app, (count_events_none _ evs Hev). reflexivity.
Qed.

End StartupArguments.

(** ** The flag is written, never read *)

Section FlagIndependence.
Context {B : Type} `{Bridge B}.

Lemma ignores_flag_ret {A : Type} (a : A) : ignores_flag (B := B) (ret a).
Proof. intros h p q Hpq. now split. Qed.

Lemma ignores_flag_raise {A : Type} (e : Exn) :
  ignores_flag (B := B) (A := A) (raise e).
Proof. intros h p q Hpq. now split. Qed.

Lemma ignores_flag_ask {A : Type} (f : Host -> A) : ignores_flag (B := B) (ask f).
Proof. intros h p q Hpq. now split. Qed.

Lemma ignores_flag_emit (e : Event) : ignores_flag (B := B) (emit e).
Proof.
  intros h p q [Hb Ht]. split; [|reflexivity].
  split; simpl; [exact Hb | now rewrite Ht].
Qed.

Lemma ignores_flag_bridge_call (op : B -> B * option Exn)
    (ev : option Exn -> Event) :
  ignores_flag (bridge_call op ev).
Proof.
  intros h p q [Hb Ht]. unfold bridge_call. rewrite Hb, Ht.
  destruct (op (bridge q)) as [b' f]. now repeat split.
Qed.

Lemma ignores_flag_is_active : ignores_flag (B := B) is_active.
Proof.
  intros h p q [Hb Ht]. unfold is_active. rewrite Hb.
  split; [|reflexivity]. split; simpl; [exact Hb | now rewrite Ht].
Qed.

Lemma ignores_flag_set (v : bool) : ignores_flag (B := B) (set_JAVA_STARTED v).
Proof. intros h p q [Hb Ht]. now repeat split. Qed.

Lemma ignores_flag_bind {A C : Type} (m : M B A) (k : A -> M B C) :
  ignores_flag m -> (forall a, ignores_flag (k a)) -> ignores_flag (bind m k).
Proof.
  intros Hm Hk h p q Hpq. unfold bind.
  destruct (Hm h p q Hpq) as [Hpq' Hr].
  destruct (m h p) as [p' [a|e]], (m h q) as [q' [a'|e']];
    cbn [fst snd] in *; try discriminate Hr.
  - injection Hr as <-. now apply Hk.
  - injection Hr as <-. now split.
Qed.

Ltac flagless :=
  repeat first
    [ assumption
    | apply ignores_flag_ret
    | apply ignores_flag_raise
    | apply ignores_flag_ask
    | apply ignores_flag_emit
    | apply ignores_flag_is_active
    | apply ignores_flag_set
    | apply ignores_flag_bridge_call
    | apply ignores_flag_bind; [|intros ?]
    | match goal with
      | |- ignores_flag (if ?b then _ else _) => destruct b
      | |- ignores_flag (match ?o with _ => _ end) => destruct o
      end ].

Lemma get_jars_ignores_flag : ignores_flag (B := B) get_jars.
Proof.
  unfold get_jars, environ_contains, environ_get, listdir, find_jdk, LOGGER.
  flagless.
Qed.

Lemma build_startup_ignores_flag : ignores_flag (B := B) build_startup.
Proof.
  pose proof get_jars_ignores_flag as Hjars.
  unfold build_startup, find_logback_xml, windows_logback_path, subscript,
    environ_contains, environ_get, get_awt_headless, LOGGER.
  flagless.
Qed.

(** X19. [JAVA_STARTED] is never read: from two processes that differ
    only in the flag, [start_java] and [stop_java] give the same
    outcome, bridge and trace. *)
Theorem lifecycle_never_reads_flag (tid : Tid) (h : Host) (b : B)
    (tr : list Event) (flag flag' : bool) :
  let p := {| bridge := b; JAVA_STARTED := flag; trace := tr |} in
  let p' := {| bridge := b; JAVA_STARTED := flag'; trace := tr |} in
  (snd (start_java tid h p) = snd (start_java tid h p') /\
   bridge (fst (start_java tid h p)) = bridge (fst (start_java tid h p')) /\
   trace (fst (start_java tid h p)) = trace (fst (start_java tid h p'))) /\
  (snd (stop_java h p) = snd (stop_java h p') /\
   bridge (fst (stop_java h p)) = bridge (fst (stop_java h p')) /\
   trace (fst (stop_java h p)) = trace (fst (stop_java h p'))).
Proof.
  intros p p'.
  assert (Hpp : same_but_flag p p') by (now split).
  assert (Hstart : ignores_flag (start_java tid)).
  { pose proof build_startup_ignores_flag as Hbuild.
    unfold start_java, boot_vm, attach, start_vm, JClassWrapper,
      cacheDirectoryListings, LOGGER.
    flagless. }
  assert (Hstop : ignores_flag (B := B) stop_java).
  { unfold stop_java, kill_vm, LOGGER. flagless. }
  destruct (Hstart h p p' Hpp) as [[Hb Ht] Hr].
  destruct (Hstop h p p' Hpp) as [[Hb' Ht'] Hr'].
  repeat split; assumption.
Qed.

(** X20. Once [JAVA_STARTED] is true, no sequence of calls of
    [start_java] and [stop_java] makes it false. *)
Theorem flag_is_monotone (calls : list (Host * Call)) (p : Proc B) :
  JAVA_STARTED p = true -> JAVA_STARTED (run_calls calls p) = true.
Proof.
  revert p. induction calls as [|[h c] rest IH]; intros p Hp; [exact Hp|].
  cbn [run_calls]. apply IH. destruct c as [tid|]; cbn [run_call].
  - destruct (start_java_flag tid h p) as (evs & _ & [Hsame|(_ & _ & Hset & _)] & _);
      congruence.
  - now rewrite stop_java_run.
Qed.

(** X21. After [stop_java], a [start_java] that finds the bridge
    inactive boots it again, whatever the flag says; the flag is as it
    was after the stop and stays true if it was. *)
Theorem restart_after_stop_boots_again (h1 h2 : Host) (tid : Tid) (p : Proc B)
    (s : list string * list string) :
  let stopped := fst (stop_java h1 p) in
  vm_is_active (bridge stopped) = false ->
  snd (build_startup h2 stopped) = Returned s ->
  JAVA_STARTED stopped = JAVA_STARTED p /\
  start_vm_calls (events_of (start_java tid) h2 stopped) = [s] /\
  (JAVA_STARTED p = true ->
   JAVA_STARTED (fst (start_java tid h2 stopped)) = true).
Proof.
  intros stopped Hcold Hs.
  assert (Hflag : JAVA_STARTED stopped = JAVA_STARTED p)
    by (unfold stopped; now rewrite stop_java_run).
  split; [exact Hflag|]. split.
  - rewrite build_startup_result in Hs. now rewrite start_java_calls, Hcold, Hs.
  - intros Hp.
    destruct (start_java_flag tid h2 stopped)
      as (evs & _ & [Hsame|(_ & _ & Hset & _)] & _); congruence.
Qed.

End FlagIndependence.

(** ** The flag under interleaving *)

Section InterleavedFlag.
Context {B : Type} `{Bridge B}.

(** One step of a thread, as far as the flag is concerned. *)
Lemma thread_step_flag (tid : Tid) (pc : Pc) (h : Host) (q : Proc B) :
  exists evs,
    trace (fst (thread_step tid pc h q)) = trace q ++ evs /\
    (past_start (snd (thread_step tid pc h q)) = true ->
     past_start pc = true \/ Exists (fun e => is_started_ok e = true) evs) /\
    (JAVA_STARTED (fst (thread_step tid pc h q)) = true ->
     JAVA_STARTED q = true \/ past_start pc = true).
Proof.
  destruct pc; cbn [thread_step]; unfold advance.
  - unfold is_active. destruct (vm_is_active (bridge q)); cbn;
      eexists; (split; [reflexivity|]); repeat split; auto; discriminate.
  - rewrite attach_run. destruct (snd (vm_attach tid (bridge q))); cbn;
      eexists; (split; [reflexivity|]); repeat split; auto; discriminate.
  - destruct (build_startup_run h q) as (evs & _ & ->).
    destruct (spec_startup h); cbn;
      exists evs; (split; [reflexivity|]); repeat split; auto; discriminate.
  - unfold start_vm, bridge_call.
    destruct (vm_start args class_path (bridge q)) as [b [e|]]; cbn;
      eexists; (split; [reflexivity|]); repeat split; auto; try discriminate.
  - rewrite attach_run. destruct (snd (vm_attach tid (bridge q))); cbn;
      eexists; (split; [reflexivity|]); repeat split; auto; discriminate.
  - unfold JClassWrapper, bridge_call.
    destruct (vm_class_wrapper _ (bridge q)) as [b [e|]]; cbn;
      eexists; (split; [reflexivity|]); repeat split; auto; discriminate.
  - unfold cacheDirectoryListings, bridge_call.
    destruct (vm_cache_directory_listings true (bridge q)) as [b [e|]]; cbn;
      eexists; (split; [reflexivity|]); repeat split; auto; discriminate.
  - cbn. eexists; (split; [reflexivity|]); repeat split; auto; discriminate.
  - cbn. exists []. rewrite app_nil_r. repeat split; auto.
  - cbn. exists []. rewrite app_nil_r. repeat split; auto.
Qed.

(** The invariant carried along a schedule: what has been added to the
    trace holds a successful start as soon as a thread is past its
    start call or the flag is set. *)
Lemma run_schedule_flag (t1 t2 : Tid) (h : Host) (p : Proc B)
    (sched : list bool) (c : Config) (evs : list Event) :
  JAVA_STARTED p = false ->
  trace (shared c) = trace p ++ evs ->
  (past_start (pc1 c) = true -> Exists (fun e => is_started_ok e = true) evs) ->
  (past_start (pc2 c) = true -> Exists (fun e => is_started_ok e = true) evs) ->
  (JAVA_STARTED (shared c) = true ->
   Exists (fun e => is_started_ok e = true) evs) ->
  JAVA_STARTED (shared (run_schedule t1 t2 h sched c)) = true ->
  Exists (fun e => is_started_ok e = true)
         (new_events p (shared (run_schedule t1 t2 h sched c))).
Proof.
  intros Hoff. revert c evs.
  induction sched as [|second rest IH]; intros c evs Htr H1 H2 Hflag.
  - cbn [run_schedule]. intros Hon. rewrite (new_events_app _ _ _ Htr). auto.
  - cbn [run_schedule]. unfold sched_step. destruct second.
    + destruct (thread_step_flag t2 (pc2 c) h (shared c))
        as (evs' & Htr' & Hpast & Hset).
      destruct (thread_step t2 (pc2 c) h (shared c)) as [q' pc'].
      cbn [fst snd] in *.
      apply (IH _ (evs ++ evs')); cbn [pc1 pc2 shared].
      * now rewrite Htr', Htr, app_assoc.
      * intros Hp. apply Exists_app. left. auto.
      * intros Hp. apply Exists_app.
        destruct (Hpast Hp) as [Hold|Hnew]; [left; auto | right; exact Hnew].
      * intros Hon. apply Exists_app. left.
        destruct (Hset Hon) as [Hold|Hp]; auto.
    + destruct (thread_step_flag t1 (pc1 c) h (shared c))
        as (evs' & Htr' & Hpast & Hset).
      destruct (thread_step t1 (pc1 c) h (shared c)) as [q' pc'].
      cbn [fst snd] in *.
      apply (IH _ (evs ++ evs')); cbn [pc1 pc2 shared].
      * now rewrite Htr', Htr, app_assoc.
      * intros Hp. apply Exists_app.
        destruct (Hpast Hp) as [Hold|Hnew]; [left; auto | right; exact Hnew].
      * intros Hp. apply Exists_app. left. auto.
      * intros Hon. apply Exists_app. left.
        destruct (Hset Hon) as [Hold|Hp]; auto.
Qed.

(** X22. In any interleaving of two calls of [start_java] begun with
    the flag false, wherever the flag is true a bridge start has
    returned without failure. *)
Theorem interleaved_flag_after_successful_start (t1 t2 : Tid) (h : Host)
    (p : Proc B) (sched : list bool) :
  JAVA_STARTED p = false ->
  let reached := run_schedule t1 t2 h sched (both_called p) in
  JAVA_STARTED (shared reached) = true ->
  Exists (fun e => is_started_ok e = true) (new_events p (shared reached)).
Proof.
  intros Hoff reached Hon.
  apply (run_schedule_flag t1 t2 h p sched (both_called p) [] Hoff);
    cbn [both_called pc1 pc2 shared past_start]; try discriminate.
  - now rewrite app_nil_r.
  - congruence.
  - exact Hon.
Qed.

End InterleavedFlag.

(** X22 on a concrete host. *)
Lemma interleaved_flag_after_successful_start_witness :
  Exists (fun e => is_started_ok e = true)
    (new_events (cold_process no_faults)
       (shared (run_schedule 1 2 linux_host racing_schedule
                  (both_called (cold_process no_faults))))).
Proof.
  assert (Hoff : JAVA_STARTED (cold_process no_faults) = false) by reflexivity.
  assert (Hon : JAVA_STARTED
                  (shared (run_schedule 1 2 linux_host racing_schedule
                             (both_called (cold_process no_faults)))) = true)
    by (vm_compute; reflexivity).
  exact (interleaved_flag_after_successful_start 1 2 linux_host
           (cold_process no_faults) racing_schedule Hoff Hon).
Defined.

(** ** The extra properties on the concrete hosts *)

(** X11 on a concrete host. *)
Lemma start_java_reads_two_variables_witness :
  vm_is_active (bridge (cold_process no_faults)) = false /\
  ("CP_JDWP_PORT" = "CLASSPATH" \/ "CP_JDWP_PORT" = "CP_JDWP_PORT").
Proof.
  apply (start_java_reads_two_variables 7 linux_host (cold_process no_faults)
           (EvEnvironGet "CP_JDWP_PORT") "CP_JDWP_PORT").
  - vm_compute. do 13 right. left. reflexivity.
  - reflexivity.
Defined.

(** X12 on a concrete host. *)
Lemma returned_start_has_attached_witness :
  count_events (is_attached 7)
    (events_of (start_java 7) linux_host (cold_process no_faults)) = 1 /\
  count_events is_attach
    (events_of (start_java 7) linux_host (cold_process no_faults)) = 1.
Proof.
  apply (returned_start_has_attached 7 linux_host (cold_process no_faults)).
  vm_compute. reflexivity.
Defined.

(** X13 on a concrete host. *)
Lemma windows_rewrite_idempotent_witness :
  windows_logback_path "//localhost/C$/x/logback.xml" (windows_host false)
      (cold_process no_faults)
    = (cold_process no_faults, Returned "//localhost/C$/x/logback.xml").
Proof.
  apply (windows_rewrite_idempotent "C:\x\logback.xml").
  vm_compute. reflexivity.
Defined.

(** X14 on a concrete host. *)
Lemma logback_flag_iff_located_witness :
  length (List.filter is_logback_flag linux_args) = 1 /\
  List.firstn 2 linux_args = [spec_loader_flag; spec_prefs_flag] /\
  2 <= length linux_args <= 5.
Proof.
  apply (logback_flag_iff_located 7 linux_host (cold_process no_faults)
           linux_args linux_classpath
           (Some "/site/cellprofiler_core/utilities/logback.xml")).
  - vm_compute. left. reflexivity.
  - vm_compute. reflexivity.
Defined.

(** X15 on a concrete host. *)
Lemma headless_flag_iff_preference_witness :
  In "-Djava.awt.headless=true" linux_args.
Proof.
  assert (Hcall : In (linux_args, linux_classpath)
                     (start_vm_calls
                        (events_of (start_java 7) linux_host
                           (cold_process no_faults))))
    by (vm_compute; left; reflexivity).
  apply (proj2 (headless_flag_iff_preference 7 linux_host (cold_process no_faults)
                  linux_args linux_classpath Hcall)).
  reflexivity.
Defined.

(** X16 on a concrete host. *)
Lemma classpath_handed_over_is_get_jars_witness :
  snd (get_jars linux_host (cold_process no_faults)) = Returned linux_classpath /\
  start_vm_calls (events_of (start_java 7) linux_host (cold_process no_faults))
    = [(linux_args, linux_classpath)].
Proof.
  apply (classpath_handed_over_is_get_jars 7 linux_host (cold_process no_faults)).
  vm_compute. left. reflexivity.
Defined.

(** X17 on a concrete host. *)
Lemma debug_port_is_passed_verbatim_witness :
  List.last linux_args EmptyString
    = "-agentlib:jdwp=transport=dt_socket,address=127.0.0.1:" +:+ "5005"
        +:+ ",server=y,suspend=n" /\
  length (List.filter is_debug_agent_flag linux_args) = 1.
Proof.
  apply (debug_port_is_passed_verbatim 7 linux_host (cold_process no_faults)
           linux_args linux_classpath "5005").
  - vm_compute. reflexivity.
  - vm_compute. left. reflexivity.
Defined.

(** X18 on a concrete host. *)
Lemma listing_failure_aborts_cold_start_witness :
  exists e',
    snd (start_java 7 unlisted_linux_host (cold_process no_faults)) = Raises e' /\
    (e' = Raised "PermissionError" \/ e' = IndexError) /\
    (PyStr.startswith (sys_platform unlisted_linux_host) "win" = false ->
     e' = Raised "PermissionError") /\
    bridge (fst (start_java 7 unlisted_linux_host (cold_process no_faults)))
      = bridge (cold_process no_faults) /\
    JAVA_STARTED (fst (start_java 7 unlisted_linux_host (cold_process no_faults)))
      = JAVA_STARTED (cold_process no_faults) /\
    count_events is_bridge_event
      (events_of (start_java 7) unlisted_linux_host (cold_process no_faults)) = 1.
Proof.
  apply (listing_failure_aborts_cold_start 7 unlisted_linux_host
           (cold_process no_faults) (Raised "PermissionError"));
    reflexivity.
Defined.

(** X23 on a concrete host. *)
Lemma jdk_lookup_failure_aborts_cold_start_witness :
  exists e',
    snd (start_java 7 jdkless_windows_host (cold_process no_faults)) = Raises e' /\
    (e' = Raised "RuntimeError" \/ e' = IndexError) /\
    start_vm_calls
      (events_of (start_java 7) jdkless_windows_host (cold_process no_faults))
      = [] /\
    bridge (fst (start_java 7 jdkless_windows_host (cold_process no_faults)))
      = bridge (cold_process no_faults) /\
    JAVA_STARTED (fst (start_java 7 jdkless_windows_host (cold_process no_faults)))
      = JAVA_STARTED (cold_process no_faults) /\
    count_events is_bridge_event
      (events_of (start_java 7) jdkless_windows_host (cold_process no_faults)) = 1.
Proof.
  apply (jdk_lookup_failure_aborts_cold_start 7 jdkless_windows_host
           (cold_process no_faults) ["bioformats.jar"; "LICENSE"]
           (Raised "RuntimeError"));
    reflexivity.
Defined.

(** X20 on a concrete host. *)
Lemma flag_is_monotone_witness :
  JAVA_STARTED
    (run_calls [(linux_host, CallStop); (linux_host, CallStart 8)]
       (fst (start_java 7 linux_host (cold_process no_faults)))) = true.
Proof.
  apply flag_is_monotone. vm_compute. reflexivity.
Defined.

(** X21 on a concrete host. *)
Lemma restart_after_stop_boots_again_witness :
  let started := fst (start_java 7 linux_host (cold_process no_faults)) in
  let stopped := fst (stop_java linux_host started) in
  JAVA_STARTED stopped = JAVA_STARTED started /\
  start_vm_calls (events_of (start_java 8) linux_host stopped)
    = [(linux_args, linux_classpath)] /\
  (JAVA_STARTED started = true ->
   JAVA_STARTED (fst (start_java 8 linux_host stopped)) = true).
Proof.
  apply (restart_after_stop_boots_again linux_host linux_host 8
           (fst (start_java 7 linux_host (cold_process no_faults)))
           (linux_args, linux_classpath));
    vm_compute; reflexivity.
Defined.

